(** * vscode-azurefunctions: wizard orchestration, verified against its sources

    A shallow embedding of the TypeScript sources
      - FunctionAppProvider.ts: [createChildImpl], [getDefaultRuntime] and
        [createFunctionAppSettings],
      - FunctionListStep.ts: [getSubWizard] and [sortTemplates],
      - FunctionCreateStepBase.ts: [execute], [verifyExtensionBundle] and
        [runPostFunctionCreateStepsFromCache],
      - uploadAppSettings.ts, createNewProject.ts and
        DotnetFunctionCreateStep.ts,
    followed by the properties the specification states about them.

    Conventions.  A JavaScript string is a [string]; [undefined] is [None];
    an object used as a dictionary is a [gmap]; an array is a [list] and
    [push] appends at its end.  A [Promise] that rejects and a [throw] are
    both the [Throw] outcome of the computation that is awaited. *)

From Stdlib Require Import Ascii.
From stdpp Require Import gmap strings list fin_maps.

(** ** Outcomes *)

(** What [parseError] reads off a thrown value. *)
Record JsError := { message : string; isUserCancelledError : bool }.

Inductive Result (A : Type) :=
| Ok (a : A)
| Throw (e : JsError).
Arguments Ok {A} a.
Arguments Throw {A} e.

(** ECMAScript ToBoolean on the values that occur in the sources. *)
Definition truthy_string (s : string) : bool :=
  match s with EmptyString => false | _ => true end.

Definition truthy_opt_string (o : option string) : bool :=
  match o with Some s => truthy_string s | None => false end.

Definition truthy_opt_bool (o : option bool) : bool :=
  match o with Some b => b | None => false end.

(** ** constants.ts (not among the sources)

    The members of the two enums that the sources mention.  [ProjectRuntime]
    is only ever compared with its members; a [ProjectLanguage] is a string
    that also arrives from settings, so its members are kept as strings. *)
Inductive ProjectRuntime := v1 | v2.

Global Instance ProjectRuntime_eq_dec : EqDecision ProjectRuntime.
Proof. solve_decision. Defined.

Record ProjectLanguageEnum := {
  CSharp : string;
  CSharpScript : string;
  FSharp : string;
  Java : string;
  Python : string;
  TypeScript : string
}.

(** The instance used when a statement is evaluated on concrete data. *)
Definition ProjectLanguage : ProjectLanguageEnum :=
  {| CSharp := "C#"; CSharpScript := "C#Script"; FSharp := "F#";
     Java := "Java"; Python := "Python"; TypeScript := "TypeScript" |}.

(** ** FunctionAppProvider.ts: createFunctionAppSettings *)
Module AppSettings.

Record NameValuePair := { name : string; value : string }.

Global Instance NameValuePair_eq_dec : EqDecision NameValuePair.
Proof. solve_decision. Defined.

(** [IAppSettingsContext] of vscode-azureappservice. *)
Record IAppSettingsContext := {
  storageConnectionString : string;
  fileShareName : string;
  os : string;
  runtime : option string
}.

Definition push {A} (arr : list A) (x : A) : list A := arr ++ [x].

(** [for (const key of Object.keys(o)) appSettings.push({name: key, value: o[key]})].
    The keys of an object are pairwise distinct; their enumeration order is
    that of [map_to_list]. *)
Definition pushEntries (appSettings : list NameValuePair)
    (o : gmap string string) : list NameValuePair :=
  foldl (fun acc kv => push acc {| name := kv.1; value := kv.2 |})
        appSettings (map_to_list o).

Section Builder.
Variable L : ProjectLanguageEnum.
(** The feed collaborator of utils/getCliFeedJson. *)
Variable getCliFeedAppSettings : ProjectRuntime -> Result (gmap string string).

Definition createFunctionAppSettings (context : IAppSettingsContext)
    (projectRuntime : ProjectRuntime) (projectLanguage : option string)
    : Result (list NameValuePair) :=
  let appSettings : list NameValuePair := [] in
  match getCliFeedAppSettings projectRuntime with
  | Throw e => Throw e
  | Ok cliFeedAppSettings =>
    let appSettings := pushEntries appSettings cliFeedAppSettings in
    let appSettings :=
      push appSettings {| name := "AzureWebJobsStorage";
                          value := storageConnectionString context |} in
    let appSettings :=
      if decide (projectRuntime = v1)
      then push appSettings {| name := "AzureWebJobsDashboard";
                               value := storageConnectionString context |}
      else appSettings in
    let appSettings :=
      if decide (os context = "windows")
      then push (push appSettings
                   {| name := "WEBSITE_CONTENTAZUREFILECONNECTIONSTRING";
                      value := storageConnectionString context |})
                {| name := "WEBSITE_CONTENTSHARE";
                   value := fileShareName context |}
      else appSettings in
    let appSettings :=
      match runtime context with
      | Some r => if truthy_string r
                  then push appSettings {| name := "FUNCTIONS_WORKER_RUNTIME";
                                           value := r |}
                  else appSettings
      | None => appSettings
      end in
    let appSettings :=
      if negb (bool_decide (os context = "linux")) &&
         negb (bool_decide (projectLanguage = Some (CSharpScript L)) &&
               bool_decide (projectRuntime = v1))
      then push appSettings {| name := "WEBSITE_RUN_FROM_PACKAGE";
                               value := "1" |}
      else appSettings in
    Ok appSettings
  end.
End Builder.

End AppSettings.


(** ** Computations with state and exceptions

    Code that awaits, throws and mutates is a function from the state before
    to an outcome and the state after.  The state survives a [Throw]. *)
Definition M (S A : Type) : Type := S -> Result A * S.

Global Instance M_ret {S} : MRet (M S) := fun A a s => (Ok a, s).

Global Instance M_bind {S} : MBind (M S) := fun A B f m s =>
  match m s with
  | (Ok a, s1) => f a s1
  | (Throw e, s1) => (Throw e, s1)
  end.

Definition throw {S A} (e : JsError) : M S A := fun s => (Throw e, s).
Definition getState {S} : M S S := fun s => (Ok s, s).
Definition modifyState {S} (f : S -> S) : M S unit := fun s => (Ok tt, f s).

(** [try { body } finally { fin }]: [fin] runs on both outcomes of [body];
    an exception of [fin] replaces the outcome of [body]. *)
Definition try_finally {S A} (body : M S A) (fin : M S unit) : M S A := fun s =>
  let '(r, s1) := body s in
  match fin s1 with
  | (Ok _, s2) => (r, s2)
  | (Throw e, s2) => (Throw e, s2)
  end.

(** [try { body } catch (error) { handler(error) }]. *)
Definition try_catch {S A} (body : M S A) (handler : JsError -> M S A) : M S A := fun s =>
  match body s with
  | (Ok a, s1) => (Ok a, s1)
  | (Throw e, s1) => handler e s1
  end.

(** [await p] for a promise [p] whose outcome is known. *)
Definition await {S A} (r : Result A) : M S A := fun s => (r, s).

Definition when {S} (b : bool) (m : M S unit) : M S unit :=
  if b then m else mret tt.

(** Modelled from the spec: [nonNullProp] of utils/nonNull is not among the
    sources; a step whose required field is absent "fails fast with a
    descriptive error". *)
Definition nonNullProp {S A} (prop : option A) (propName : string) : M S A :=
  match prop with
  | Some a => mret a
  | None => throw {| message := "Expected value of " +:+ propName +:+
                                " to be neither null nor undefined";
                     isUserCancelledError := false |}
  end.

(** ** Strings *)

(** The string that holds one double quote. *)
Definition dquote : string := String (ascii_of_nat 34) EmptyString.

(** [s.includes(sub)]. *)
Fixpoint includes (s sub : string) : bool :=
  String.prefix sub s ||
  match s with
  | EmptyString => false
  | String _ rest => includes rest sub
  end.

Definition is_ascii_upper (c : ascii) : bool :=
  let n := nat_of_ascii c in (65 <=? n) && (n <=? 90).

Definition is_ascii_lower (c : ascii) : bool :=
  let n := nat_of_ascii c in (97 <=? n) && (n <=? 122).

Definition ascii_toLowerCase (c : ascii) : ascii :=
  if is_ascii_upper c then ascii_of_nat (nat_of_ascii c + 32) else c.

(** [s.toLowerCase()] on the ASCII letters; other code units are kept. *)
Fixpoint toLowerCase (s : string) : string :=
  match s with
  | EmptyString => EmptyString
  | String c rest => String (ascii_toLowerCase c) (toLowerCase rest)
  end.

(** ** Templates (templates/IFunctionTemplate.ts, not among the sources)

    The fields the sources read. *)
Module Template.
Record IBindingSetting := { settingName : string }.

Record IFunctionTemplate := {
  id : string;
  name : string;
  isHttpTrigger : bool;
  isTimerTrigger : bool;
  userPromptedSettings : list IBindingSetting
}.
End Template.
Abbreviation IFunctionTemplate := Template.IFunctionTemplate.
Abbreviation IBindingSetting := Template.IBindingSetting.

(** ** JSON documents, as [fse.readJSON] returns them

    An object lists its properties in insertion order.  The numbers of a
    configuration file are kept as integers: all that is asked of a number
    is whether it is zero. *)
#[warnings="-register-all"]
Inductive json :=
| JNull
| JBool (b : bool)
| JNum (n : Z)
| JStr (s : string)
| JArr (items : list json)
| JObj (fields : list (string * json)).

Definition truthy_json (j : json) : bool :=
  match j with
  | JNull => false
  | JBool b => b
  | JNum n => negb (n =? 0)%Z
  | JStr s => truthy_string s
  | JArr _ | JObj _ => true
  end.

(** [o[key]] on the own properties of an object; [None] is [undefined]. *)
Fixpoint obj_get (fields : list (string * json)) (key : string) : option json :=
  match fields with
  | [] => None
  | (k, v) :: rest => if decide (k = key) then Some v else obj_get rest key
  end.

(** [o[key] = v]: an existing property keeps its place, a new one goes last. *)
Fixpoint obj_set (fields : list (string * json)) (key : string) (v : json)
    : list (string * json) :=
  match fields with
  | [] => [(key, v)]
  | (k, v0) :: rest =>
      if decide (k = key) then (k, v) :: rest else (k, v0) :: obj_set rest key v
  end.

(** ** FunctionCreateStepBase.ts *)
Module FunctionCreate.

Module Cached.
Record ICachedFunction := {
  projectPath : string;
  newFilePath : string;
  isHttpTrigger : bool
}.
End Cached.
Abbreviation ICachedFunction := Cached.ICachedFunction.

Definition cacheKey : string := "azFuncPostFunctionCreate".

Record IFunctionWizardContext := {
  functionTemplate : option IFunctionTemplate;
  language : option string;
  runtime : option ProjectRuntime;
  projectPath : string;
  workspacePath : string;
  openBehavior : option string
}.

(** What a path names: a file that holds text, or a JSON document (its text
    up to formatting), or a directory, which exists and cannot be read as a
    file. *)
Inductive FileData :=
| RawText (contents : string)
| JsonDoc (value : json)
| Directory.

Definition isADirectory : JsError :=
  {| message := "EISDIR: illegal operation on a directory, read";
     isUserCancelledError := false |}.

(** The callback of the one [setTimeout] of the sources:
    [() => { ext.context.globalState.update(key, undefined); }]. *)
Inductive TimerCallback := ClearGlobalState (key : string).

Record Timer := { due : N; callback : TimerCallback }.

Inductive TelemetryValue :=
| TvLanguage (l : option string)
| TvRuntime (r : option ProjectRuntime)
| TvString (s : string).

(** What the step does that an observer sees, oldest first. *)
Inductive Event :=
| ProgressReport (text : string)
| WriteFormattedJson (path : string)
| PostFunctionCreateSteps (func : ICachedFunction)
| ShowTextDocument (path : string).

(** The extension host and what outlives it.  [globalState] is the durable
    store [ext.context.globalState]; [timers] are the pending [setTimeout]
    callbacks of the running host; [clock] is the time in milliseconds and
    [hostRun] counts the runs of the extension host.  [lastUpdate] records
    when, and in which run, a key of [globalState] was last updated: it is
    bookkeeping for the statements below, and no code reads it. *)
Record World := {
  files : gmap string FileData;
  globalState : gmap string ICachedFunction;
  lastUpdate : gmap string (N * nat);
  timers : list Timer;
  clock : N;
  hostRun : nat;
  properties : gmap string TelemetryValue;
  events : list Event
}.

Definition set_files (f : gmap string FileData -> gmap string FileData) (w : World) : World :=
  {| files := f (files w); globalState := globalState w; lastUpdate := lastUpdate w;
     timers := timers w; clock := clock w; hostRun := hostRun w;
     properties := properties w; events := events w |}.

Definition set_timers (f : list Timer -> list Timer) (w : World) : World :=
  {| files := files w; globalState := globalState w; lastUpdate := lastUpdate w;
     timers := f (timers w); clock := clock w; hostRun := hostRun w;
     properties := properties w; events := events w |}.

Definition set_clock (c : N) (w : World) : World :=
  {| files := files w; globalState := globalState w; lastUpdate := lastUpdate w;
     timers := timers w; clock := c; hostRun := hostRun w;
     properties := properties w; events := events w |}.

Definition set_property (key : string) (v : TelemetryValue) (w : World) : World :=
  {| files := files w; globalState := globalState w; lastUpdate := lastUpdate w;
     timers := timers w; clock := clock w; hostRun := hostRun w;
     properties := <[key := v]> (properties w); events := events w |}.

Definition add_event (ev : Event) (w : World) : World :=
  {| files := files w; globalState := globalState w; lastUpdate := lastUpdate w;
     timers := timers w; clock := clock w; hostRun := hostRun w;
     properties := properties w; events := (events w ++ [ev])%list |}.

(** [ext.context.globalState.update(key, value)]; [undefined] removes the key. *)
Definition globalState_update (key : string) (value : option ICachedFunction)
    : M World unit :=
  modifyState (fun w =>
    {| files := files w;
       globalState := match value with
                      | Some v => <[key := v]> (globalState w)
                      | None => delete key (globalState w)
                      end;
       lastUpdate := <[key := (clock w, hostRun w)]> (lastUpdate w);
       timers := timers w; clock := clock w; hostRun := hostRun w;
       properties := properties w; events := events w |}).

Definition globalState_get (key : string) : M World (option ICachedFunction) :=
  fun w => (Ok (globalState w !! key), w).

(** [setTimeout(callback, ms)]. *)
Definition setTimeout (cb : TimerCallback) (ms : N) : M World unit :=
  modifyState (fun w =>
    set_timers (fun ts => (ts ++ [{| due := (clock w + ms)%N; callback := cb |}])%list) w).

Definition emit (ev : Event) : M World unit := modifyState (add_event ev).

Definition setProperty (key : string) (v : TelemetryValue) : M World unit :=
  modifyState (set_property key v).

(** [fse.readJSON(path)]: rejects when the path is missing, is a directory,
    or does not hold JSON. *)
Definition readJSON (path : string) : M World json := fun w =>
  match files w !! path with
  | Some (JsonDoc j) => (Ok j, w)
  | Some (RawText _) =>
      (Throw {| message := "Unexpected token in JSON"; isUserCancelledError := false |}, w)
  | Some Directory => (Throw isADirectory, w)
  | None =>
      (Throw {| message := "ENOENT: no such file or directory";
                isUserCancelledError := false |}, w)
  end.

Definition pathExists (path : string) : M World bool := fun w =>
  (Ok (bool_decide (is_Some (files w !! path))), w).

(** Modelled from the spec: [writeFormattedJson] of utils/fs is not among the
    sources; the host-configuration file is "written with a fixed id and
    version-range string", the step "rewrites the file". *)
Definition writeFormattedJson (path : string) (data : json) : M World unit :=
  _ ← modifyState (set_files (fun fs => <[path := JsonDoc data]> fs));
  emit (WriteFormattedJson path).

Definition defaultExtensionBundle : json :=
  JObj [("id", JStr "Microsoft.Azure.Functions.ExtensionBundle");
        ("version", JStr "[1.*, 2.0.0)")].

Definition typeError (text : string) : JsError :=
  {| message := text; isUserCancelledError := false |}.

(** [hostJson.extensionBundle] on what [readJSON] returned: a property read
    throws on [null] and gives [undefined] on the other values that are not
    objects. *)
Definition get_extensionBundle (hostJson : json) : M World (option json) :=
  match hostJson with
  | JObj fields => mret (obj_get fields "extensionBundle")
  | JNull => throw (typeError "Cannot read property 'extensionBundle' of null")
  | _ => mret None
  end.

(** [hostJson.extensionBundle = value] in strict mode: a property of a
    primitive cannot be created; a property set on an array is not one of its
    elements, and is not written back. *)
Definition set_extensionBundle (hostJson : json) (v : json) : M World json :=
  match hostJson with
  | JObj fields => mret (JObj (obj_set fields "extensionBundle" v))
  | JArr items => mret (JArr items)
  | _ => throw (typeError "Cannot create property 'extensionBundle'")
  end.

Definition falsy_opt (o : option json) : bool :=
  match o with Some j => negb (truthy_json j) | None => true end.

Section Step.
Variable L : ProjectLanguageEnum.
(** constants.ts *)
Variables hostFileName tasksFileName settingsFileName : string.
Variables vscodeFolderName extInstallCommand : string.
(** [path.join(...segments)] of Node. *)
Variable path_join : list string -> string.
(** The text of a JSON document when it is read with [fse.readFile]. *)
Variable formatJson : json -> string.
(** utils/workspace: whether some open workspace folder contains the path. *)
Variable getContainingWorkspace : string -> bool.
(** The abstract [executeCore] of the language's create step: it
    materializes the new file and returns its path, or rejects. *)
Variable executeCore : IFunctionWizardContext -> gmap string FileData ->
                       Result string * gmap string FileData.
(** vscode-azureextensionui: [Some e] when the call of
    [callWithTelemetryAndErrorHandling] itself throws [e]. *)
Variable callThrows : string -> option JsError.

Definition run_executeCore (wizardContext : IFunctionWizardContext) : M World string :=
  fun w => let '(r, fs) := executeCore wizardContext (files w) in
           (r, set_files (fun _ => fs) w).

(** [(await fse.readFile(path)).toString()]: rejects when the path is missing
    or is a directory. *)
Definition readFile_toString (path : string) : M World string := fun w =>
  match files w !! path with
  | Some (RawText s) => (Ok s, w)
  | Some (JsonDoc j) => (Ok (formatJson j), w)
  | Some Directory => (Throw isADirectory, w)
  | None => (Throw {| message := "ENOENT: no such file or directory";
                      isUserCancelledError := false |}, w)
  end.

(** [workspace.openTextDocument(Uri.file(path))]: rejects for a path that
    is not a file. *)
Definition openTextDocument (path : string) : M World unit := fun w =>
  match files w !! path with
  | Some (RawText _) | Some (JsonDoc _) => (Ok tt, w)
  | Some Directory | None =>
      (Throw {| message := "cannot open " +:+ path; isUserCancelledError := false |}, w)
  end.

(** Modelled from the spec: the post-creation step's "errors are swallowed
    (best-effort, telemetry-suppressed)"; the library function is called
    and not awaited. *)
Definition callWithTelemetryAndErrorHandling (callbackId : string)
    (callback : M World unit) : M World unit :=
  match callThrows callbackId with
  | Some e => throw e
  | None => try_catch callback (fun _ => mret tt)
  end.

Definition runPostFunctionCreateSteps (func : ICachedFunction) : M World unit :=
  _ ← emit (PostFunctionCreateSteps func);
  callWithTelemetryAndErrorHandling "postFunctionCreate"
    (if getContainingWorkspace (Cached.projectPath func)
     then
       ex ← pathExists (Cached.newFilePath func);
       when ex
         (_ ← openTextDocument (Cached.newFilePath func);
          emit (ShowTextDocument (Cached.newFilePath func)))
     else mret tt).

Definition runPostFunctionCreateStepsFromCache : M World unit :=
  cachedFunc ← globalState_get cacheKey;
  match cachedFunc with
  | Some func =>
      try_finally (runPostFunctionCreateSteps func)
                  (globalState_update cacheKey None)
  | None => mret tt
  end.

Definition verifyExtensionBundle (wizardContext : IFunctionWizardContext)
    : M World unit :=
  let hostFilePath := path_join [projectPath wizardContext; hostFileName] in
  try_catch
    (hostJson ← readJSON hostFilePath;
     bundle ← get_extensionBundle hostJson;
     if falsy_opt bundle
     then
       hostJson' ← set_extensionBundle hostJson defaultExtensionBundle;
       writeFormattedJson hostFilePath hostJson'
     else mret tt)
    (fun error =>
       throw {| message := "Failed to parse " +:+ hostFileName +:+ ": " +:+
                           message error;
                isUserCancelledError := false |}).

Definition shouldExecute (wizardContext : IFunctionWizardContext) : bool :=
  bool_decide (is_Some (functionTemplate wizardContext)).

(** The [for] loop over [filesToCheck]: [true] as soon as a file that exists
    contains [extInstallCommand]. *)
Fixpoint usesExtInstall (wizardContext : IFunctionWizardContext)
    (filesToCheck : list string) : M World bool :=
  match filesToCheck with
  | [] => mret false
  | file :: rest =>
      let filePath := path_join [workspacePath wizardContext; vscodeFolderName; file] in
      ex ← pathExists filePath;
      if (ex : bool)
      then
        contents ← readFile_toString filePath;
        if includes contents extInstallCommand
        then mret true
        else usesExtInstall wizardContext rest
      else usesExtInstall wizardContext rest
  end.

Definition shouldUseExtensionBundle (wizardContext : IFunctionWizardContext)
    (template : IFunctionTemplate) : M World bool :=
  if bool_decide (runtime wizardContext = Some v1) ||
     Template.isHttpTrigger template || Template.isTimerTrigger template ||
     bool_decide (language wizardContext = Some (CSharp L)) ||
     bool_decide (language wizardContext = Some (FSharp L))
  then mret false
  else
    try_catch
      (found ← usesExtInstall wizardContext [tasksFileName; settingsFileName];
       mret (negb found))
      (fun _ => mret true).

Definition execute (wizardContext : IFunctionWizardContext) : M World unit :=
  template ← nonNullProp (functionTemplate wizardContext) "functionTemplate";
  _ ← setProperty "projectLanguage" (TvLanguage (language wizardContext));
  _ ← setProperty "projectRuntime" (TvRuntime (runtime wizardContext));
  _ ← setProperty "templateId" (TvString (Template.id template));
  _ ← emit (ProgressReport ("Creating new " +:+ Template.name template +:+ "..."));
  newFilePath ← run_executeCore wizardContext;
  useBundle ← shouldUseExtensionBundle wizardContext template;
  _ ← when useBundle (verifyExtensionBundle wizardContext);
  let cachedFunc : ICachedFunction :=
    {| Cached.projectPath := projectPath wizardContext;
       Cached.newFilePath := newFilePath;
       Cached.isHttpTrigger := Template.isHttpTrigger template |} in
  _ ← when (truthy_opt_string (openBehavior wizardContext))
        (_ ← globalState_update cacheKey (Some cachedFunc);
         setTimeout (ClearGlobalState cacheKey) (5 * 1000));
  runPostFunctionCreateSteps cachedFunc.

(** *** The extension host around the step *)

Definition fire (cb : TimerCallback) : M World unit :=
  match cb with ClearGlobalState key => globalState_update key None end.

(** Time passes: the timers that fall due run, in the order they were set. *)
Definition elapse (ms : N) (w : World) : World :=
  let now := (clock w + ms)%N in
  let dueNow := filter (fun t => (due t <= now)%N) (timers w) in
  let later := filter (fun t => (now < due t)%N) (timers w) in
  foldl (fun w0 t => (fire (callback t) w0).2)
        (set_timers (fun _ => later) (set_clock now w)) dueNow.

(** The extension host stops: its timers are lost, [globalState] and the
    files stay for the host that runs next. *)
Definition stopHost (w : World) : World :=
  {| files := files w; globalState := globalState w; lastUpdate := lastUpdate w;
     timers := []; clock := clock w; hostRun := S (hostRun w);
     properties := properties w; events := events w |}.

(** What happens to a host, one step at a time: a create step executes,
    time passes, the cache is recovered (as on activation), the host
    stops. *)
Inductive Step :=
| Execute (wizardContext : IFunctionWizardContext)
| Elapse (ms : N)
| RecoverFromCache
| StopHost.

Definition runStep (w : World) (s : Step) : World :=
  match s with
  | Execute wizardContext => (execute wizardContext w).2
  | Elapse ms => elapse ms w
  | RecoverFromCache => (runPostFunctionCreateStepsFromCache w).2
  | StopHost => stopHost w
  end.

Definition run (steps : list Step) (w : World) : World := foldl runStep w steps.
End Step.

End FunctionCreate.

(** ** createNewProject.ts *)
Module CreateNewProject.

(** The [openBehavior] that [createNewProject] puts in the wizard context:
    ['DontOpen'] when the caller passes [openFolder = false], the workspace
    setting [projectOpenBehaviorSetting] (possibly [undefined]) otherwise. *)
Definition openBehavior (openFolder : bool) (getWorkspaceSetting : string -> option string)
    (projectOpenBehaviorSetting : string) : option string :=
  if negb openFolder then Some "DontOpen"
  else getWorkspaceSetting projectOpenBehaviorSetting.

End CreateNewProject.

(** ** FunctionListStep.ts *)
Module FunctionList.

Inductive PromptStep :=
| JavaPackageNameStep
| JavaFunctionNameStep
| DotnetFunctionNameStep
| DotnetNamespaceStep
| ScriptFunctionNameStep
| BindingSettingStep (setting : IBindingSetting)
| AzureWebJobsStoragePromptStep.

Inductive ExecuteStep :=
| JavaFunctionCreateStep
| DotnetFunctionCreateStep
| TypeScriptFunctionCreateStep
| ScriptFunctionCreateStep
| AzureWebJobsStorageExecuteStep.

Record IWizardOptions := {
  promptSteps : list PromptStep;
  executeSteps : list ExecuteStep;
  title : string
}.

(** The wizard context is one mutable object.  Of the properties that
    [getSubWizard] reads, [language] is the only one whose name is all lower
    case; every other property that is set by name lives in
    [otherProperties]. *)
Record IFunctionWizardContext := {
  functionTemplate : option IFunctionTemplate;
  language : option string;
  projectPath : string;
  otherProperties : gmap string (option string)
}.

(** [wizardContext[key] = value]. *)
Definition set_property (key : string) (v : option string)
    (wizardContext : IFunctionWizardContext) : IFunctionWizardContext :=
  if decide (key = "language")
  then {| functionTemplate := functionTemplate wizardContext;
          language := v;
          projectPath := projectPath wizardContext;
          otherProperties := otherProperties wizardContext |}
  else {| functionTemplate := functionTemplate wizardContext;
          language := language wizardContext;
          projectPath := projectPath wizardContext;
          otherProperties := <[key := v]> (otherProperties wizardContext) |}.

(** The fields of a [FunctionListStep]; [_triggerSettings] lists its keys in
    the order of [Object.keys]. *)
Record FunctionListStep := {
  _triggerSettings : list (string * option string);
  _isProjectWizard : bool
}.

(** [for (const key of Object.keys(this._triggerSettings))
      wizardContext[key.toLowerCase()] = this._triggerSettings[key];] *)
Definition copyTriggerSettings (this : FunctionListStep)
    (wizardContext : IFunctionWizardContext) : IFunctionWizardContext :=
  foldl (fun ctx kv => set_property (toLowerCase kv.1) kv.2 ctx)
        wizardContext (_triggerSettings this).

(** Modelled from the spec: [addBindingSettingSteps] of commands/addBinding is
    not among the sources; it appends the "template-specific setting
    prompts", one for each setting the template asks the user for. *)
Definition addBindingSettingSteps (settings : list IBindingSetting)
    (promptSteps : list PromptStep) : list PromptStep :=
  (promptSteps ++ map BindingSettingStep settings)%list.

Section GetSubWizard.
Variable L : ProjectLanguageEnum.
(** [JavaFunctionCreateStep.createStep] is not among the sources: like its
    .NET sibling it resolves to an instance of its class, or rejects. *)
Variable javaCreateStep : Result unit.
(** [dotnetUtils.validateDotnetInstalled], awaited by
    [DotnetFunctionCreateStep.createStep]. *)
Variable validateDotnetInstalled : Result unit.
(** [getAzureWebJobsStorage] of funcConfig/local.settings. *)
Variable getAzureWebJobsStorage : string -> Result (option string).

(** DotnetFunctionCreateStep.ts *)
Definition DotnetFunctionCreateStep_createStep {S} : M S ExecuteStep :=
  _ ← await validateDotnetInstalled;
  mret DotnetFunctionCreateStep.

Definition JavaFunctionCreateStep_createStep {S} : M S ExecuteStep :=
  _ ← await javaCreateStep;
  mret JavaFunctionCreateStep.

Definition getSubWizard (this : FunctionListStep)
    : M IFunctionWizardContext (option IWizardOptions) :=
  wizardContext ← getState;
  match functionTemplate wizardContext with
  | Some template =>
      let promptSteps : list PromptStep := [] in
      let promptSteps :=
        if decide (language wizardContext = Some (Java L))
        then (promptSteps ++ [JavaPackageNameStep; JavaFunctionNameStep])%list
        else if decide (language wizardContext = Some (CSharp L) ∨
                        language wizardContext = Some (FSharp L))
        then (promptSteps ++ [DotnetFunctionNameStep; DotnetNamespaceStep])%list
        else (promptSteps ++ [ScriptFunctionNameStep])%list in
      _ ← modifyState (copyTriggerSettings this);
      let promptSteps :=
        addBindingSettingSteps (Template.userPromptedSettings template) promptSteps in
      wizardContext ← getState;
      let executeSteps : list ExecuteStep := [] in
      createStep ←
        (if decide (language wizardContext = Some (Java L))
         then JavaFunctionCreateStep_createStep
         else if decide (language wizardContext = Some (CSharp L) ∨
                         language wizardContext = Some (FSharp L))
         then DotnetFunctionCreateStep_createStep
         else if decide (language wizardContext = Some (TypeScript L))
         then mret TypeScriptFunctionCreateStep
         else mret ScriptFunctionCreateStep);
      let executeSteps := (executeSteps ++ [createStep])%list in
      needsStorage ←
        (if Template.isHttpTrigger template then mret false
         else
           storage ← await (getAzureWebJobsStorage (projectPath wizardContext));
           mret (negb (truthy_opt_string storage)));
      let promptSteps :=
        if (needsStorage : bool)
        then (promptSteps ++ [AzureWebJobsStoragePromptStep])%list
        else promptSteps in
      let executeSteps :=
        if (needsStorage : bool)
        then (executeSteps ++ [AzureWebJobsStorageExecuteStep])%list
        else executeSteps in
      let title := "Create new " +:+ Template.name template in
      mret (Some {| promptSteps := promptSteps;
                    executeSteps := executeSteps;
                    title := title |})
  | None => mret None
  end.

Definition shouldPrompt (wizardContext : IFunctionWizardContext) : bool :=
  negb (bool_decide (is_Some (functionTemplate wizardContext))).
End GetSubWizard.

(** *** sortTemplates *)

Inductive TemplateFilter := All | Core | Verified.

Global Instance TemplateFilter_eq_dec : EqDecision TemplateFilter.
Proof. solve_decision. Defined.

Definition is_ascii_letter (c : ascii) : bool :=
  is_ascii_upper c || is_ascii_lower c.

(** A literal of lower-case letters matched under the [i] flag at the start
    of [s]; the result is what follows the match. *)
Fixpoint matchIgnoreCase (literal s : string) : option string :=
  match literal, s with
  | EmptyString, _ => Some s
  | String p literal', String c s' =>
      if decide (ascii_toLowerCase c = p) then matchIgnoreCase literal' s' else None
  | String _ _, EmptyString => None
  end.

(** [/httptrigger($|[^a-z])/i] anchored at the start of [s].  Under the [i]
    flag the class [[^a-z]] excludes the letters of both cases. *)
Definition regExp_matchAt (s : string) : bool :=
  match matchIgnoreCase "httptrigger" s with
  | Some EmptyString => true
  | Some (String c _) => negb (is_ascii_letter c)
  | None => false
  end.

(** [regExp.test(s)]: a match at some position of [s]. *)
Fixpoint regExp_test (s : string) : bool :=
  regExp_matchAt s ||
  match s with
  | EmptyString => false
  | String _ rest => regExp_test rest
  end.

Section SortTemplates.
(** [String.prototype.localeCompare] of the host. *)
Variable localeCompare : string -> string -> Z.

Definition sortTemplates (a b : IFunctionTemplate) (templateFilter : TemplateFilter) : Z :=
  if decide (templateFilter = Verified)
  then
    if regExp_test (Template.id a) then (-1)%Z
    else if regExp_test (Template.id b) then 1%Z
    else localeCompare (Template.name a) (Template.name b)
  else localeCompare (Template.name a) (Template.name b).
End SortTemplates.

End FunctionList.

(** ** uploadAppSettings.ts *)
Module UploadAppSettings.

(** funcConfig/local.settings: the fields that are read. *)
Record ILocalSettingsJson := {
  IsEncrypted : option bool;
  Values : option (gmap string string)
}.

Record AppSettingsTreeItem := { client_fullName : string }.

(** The calls that leave the function, in the order they are made. *)
Inductive Call :=
| GetLocalSettingsFile (workspacePath : option string)
| ShowTreeItemPicker
| OutputChannelShow
| OutputChannelAppendLine (text : string)
| ReadJson (path : string)
| DecryptLocalSettings (uri : string)
| EncryptLocalSettings (uri : string)
| ListApplicationSettings
| ConfirmOverwriteSettings
| UpdateApplicationSettings (properties : gmap string string).

(** A call and what it resolves to. *)
Definition call {A} (c : Call) (r : Result A) : M (list Call) A :=
  fun calls => (r, (calls ++ [c])%list).

(** What the collaborators answer.  The two reads of the settings file are
    two answers: the file changes in between. *)
Record Collaborators := {
  getLocalSettingsFile : Result string;
  showTreeItemPicker : Result AppSettingsTreeItem;
  readJson_first : Result ILocalSettingsJson;
  decryptLocalSettings : Result unit;
  readJson_second : Result ILocalSettingsJson;
  encryptLocalSettings : Result unit;
  listApplicationSettings : Result (option (gmap string string));
  confirmOverwriteSettings : gmap string string -> gmap string string ->
                             Result (gmap string string);
  updateApplicationSettings : Result unit
}.

Section Upload.
Variable env : Collaborators.
Variable localSettingsFileName : string.

(** [vscode.Uri.file(path)], named by its path. *)
Definition Uri_file (path : string) : string := path.

Definition uploadAppSettings (node : option AppSettingsTreeItem)
    (workspacePath : option string) : M (list Call) unit :=
  localSettingsPath ← call (GetLocalSettingsFile workspacePath) (getLocalSettingsFile env);
  let localSettingsUri := Uri_file localSettingsPath in
  node ← match node with
         | Some n => mret n
         | None => call ShowTreeItemPicker (showTreeItemPicker env)
         end;
  let client := node in
  (* node.runWithTemporaryDescription(..., async () => { *)
  _ ← call OutputChannelShow (Ok tt);
  _ ← call (OutputChannelAppendLine
              ("Uploading settings to " +:+ dquote +:+ client_fullName client +:+
               dquote +:+ "..."))
           (Ok tt);
  localSettings ← call (ReadJson localSettingsPath) (readJson_first env);
  localSettings ←
    (if truthy_opt_bool (IsEncrypted localSettings)
     then
       _ ← call (DecryptLocalSettings localSettingsUri) (decryptLocalSettings env);
       try_finally
         (call (ReadJson localSettingsPath) (readJson_second env))
         (call (EncryptLocalSettings localSettingsUri) (encryptLocalSettings env))
     else mret localSettings);
  match Values localSettings with
  | Some values =>
      remote ← call ListApplicationSettings (listApplicationSettings env);
      let remoteProperties := default ∅ remote in
      remoteProperties ← call ConfirmOverwriteSettings
                           (confirmOverwriteSettings env values remoteProperties);
      call (UpdateApplicationSettings remoteProperties) (updateApplicationSettings env)
  | None =>
      throw {| message := "No settings found in " +:+ dquote +:+
                          localSettingsFileName +:+ dquote +:+ ".";
               isUserCancelledError := false |}
  end.
End Upload.

End UploadAppSettings.

(** ** FunctionAppProvider.ts: createChildImpl *)
Module FunctionAppProvider.

Inductive PromptStep :=
| SiteNameStep
| SiteOSStep
| SiteHostingPlanStep
| SiteRuntimeStep
| ResourceGroupListStep
| StorageAccountListStep.

(** [SiteCreateStep] keeps the callback that computes the app settings from
    the runtime and the language found at creation. *)
Inductive ExecuteStep :=
| ResourceGroupCreateStep
| StorageAccountCreateStep
| SiteCreateStep (runtime : ProjectRuntime) (language : option string).

Record MessageItem := { title : string }.

Global Instance MessageItem_eq_dec : EqDecision MessageItem.
Proof. solve_decision. Defined.

Record Site := { siteName : string }.

(** [IAppServiceWizardContext] of vscode-azureappservice: the properties the
    function sets or reads. *)
Record IAppServiceWizardContext := {
  newResourceGroupName : option string;
  newStorageAccountName : option string;
  useConsumptionPlan : option bool;
  newSiteOS : option string;
  newSiteRuntime : option string;
  location : option string;
  newSiteName : option string;
  relatedNameTask : option (Result (option string));
  site : option Site
}.

(** What the user sees and what is persisted, in order:
    [showCreatingTreeItem(label)], [ext.ui.showWarningMessage(text, btn)] and
    [updateGlobalSetting(key, value)]. *)
Inductive Effect :=
| ShowCreatingTreeItem (label : string)
| ShowWarningMessage (text : string) (btn : MessageItem)
| UpdateGlobalSetting (key : string) (value : bool).

(** What [createChildImpl] works on: the wizard context it builds, the
    telemetry [actionContext.properties], and the effects so far. *)
Record State := {
  wizardContext : IAppServiceWizardContext;
  properties : gmap string (option string);
  effects : list Effect
}.

Definition setProperty (key : string) (v : option string) : M State unit :=
  modifyState (fun st =>
    {| wizardContext := wizardContext st;
       properties := <[key := v]> (properties st);
       effects := effects st |}).

Definition perform (e : Effect) : M State unit :=
  modifyState (fun st =>
    {| wizardContext := wizardContext st;
       properties := properties st;
       effects := (effects st ++ [e])%list |}).

Definition updateContext (f : IAppServiceWizardContext -> IAppServiceWizardContext)
    : M State unit :=
  modifyState (fun st =>
    {| wizardContext := f (wizardContext st);
       properties := properties st;
       effects := effects st |}).

(** A collaborator that works on the wizard context. *)
Definition onContext {A}
    (f : IAppServiceWizardContext -> Result A * IAppServiceWizardContext)
    : M State A :=
  fun st =>
    let '(r, ctx) := f (wizardContext st) in
    (r, {| wizardContext := ctx; properties := properties st; effects := effects st |}).

Definition String_of_bool (b : bool) : string := if b then "true" else "false".

Definition orElse (a b : option string) : option string :=
  if truthy_opt_string a then a else b.

Section Provider.
Variable L : ProjectLanguageEnum.
(** constants.ts *)
Variables extensionPrefix projectLanguageSetting projectRuntimeSetting : string.
(** vsCodeConfig/settings *)
Variable getWorkspaceSettingFromAnyFolder : string -> option string.
Variable getWorkspaceSetting : string -> option bool.
Variable convertStringToRuntime : option string -> option ProjectRuntime.
Variable getFunctionsWorkerRuntime : option string -> option string.
(** funcCoreTools/tryGetLocalRuntimeVersion *)
Variable tryGetLocalRuntimeVersion : Result (option ProjectRuntime).
(** vscode-azureextensionui *)
Variable LocationListStep_setLocation :
  string -> IAppServiceWizardContext -> Result unit * IAppServiceWizardContext.
Variable wizard_prompt :
  list PromptStep -> IAppServiceWizardContext -> Result unit * IAppServiceWizardContext.
Variable wizard_execute :
  list ExecuteStep -> IAppServiceWizardContext -> Result unit * IAppServiceWizardContext.
(** [ext.ui.showWarningMessage]: the item the user picks, [None] when the
    message is dismissed. *)
Variable showWarningMessage : string -> MessageItem -> option MessageItem.
Variable ProductionSlotTreeItem_create : Site -> Result string.

(** The string of a member of the enum, as telemetry records it. *)
Definition runtimeName (r : ProjectRuntime) : string :=
  match r with v1 => "~1" | v2 => "~2" end.

Definition getDefaultRuntime : M State ProjectRuntime :=
  let runtime := convertStringToRuntime (getWorkspaceSettingFromAnyFolder projectRuntimeSetting) in
  _ ← setProperty "runtimeSource" (Some "VSCodeSetting");
  runtime ←
    match runtime with
    | Some r => mret (Some r)
    | None =>
        r ← await tryGetLocalRuntimeVersion;
        _ ← setProperty "runtimeSource" (Some "LocalFuncCli");
        mret r
    end;
  runtime ←
    match runtime with
    | Some r => mret r
    | None =>
        _ ← setProperty "runtimeSource" (Some "Backup");
        mret v2
    end;
  _ ← setProperty "projectRuntime" (Some (runtimeName runtime));
  mret runtime.

Definition advancedCreationKey : string := "advancedCreation".

(** The [try { await wizard.execute(actionContext); } catch (error) { ... }]
    of [createChildImpl].  The handler of the warning's promise is not
    awaited; its effect is listed after the warning. *)
Definition executeWizard (advancedCreation : bool) (executeSteps : list ExecuteStep)
    : M State unit :=
  try_catch
    (onContext (wizard_execute executeSteps))
    (fun error =>
       _ ← when (negb (isUserCancelledError error) && negb advancedCreation)
             (let text :=
                "Modify the setting " +:+ dquote +:+ extensionPrefix +:+ "." +:+
                advancedCreationKey +:+ dquote +:+
                " if you want to change the default values when creating a Function App in Azure." in
              let btn := {| title := "Turn on advanced creation" |} in
              _ ← perform (ShowWarningMessage text btn);
              when (bool_decide (showWarningMessage text btn = Some btn))
                   (perform (UpdateGlobalSetting advancedCreationKey true)));
       throw error).

Definition createChildImpl (resourceGroup : option string) : M State string :=
  runtime ← getDefaultRuntime;
  let language := getWorkspaceSettingFromAnyFolder projectLanguageSetting in
  _ ← updateContext (fun _ =>
        {| newResourceGroupName := resourceGroup; newStorageAccountName := None;
           useConsumptionPlan := None; newSiteOS := None; newSiteRuntime := None;
           location := None; newSiteName := None; relatedNameTask := None;
           site := None |});
  let promptSteps := [SiteNameStep; SiteOSStep; SiteHostingPlanStep; SiteRuntimeStep] in
  let executeSteps : list ExecuteStep := [] in
  let advancedCreation := truthy_opt_bool (getWorkspaceSetting advancedCreationKey) in
  _ ← setProperty "advancedCreation" (Some (String_of_bool advancedCreation));
  '(promptSteps, executeSteps) ←
    (if negb advancedCreation
     then
       _ ← updateContext (fun c =>
             {| newResourceGroupName := newResourceGroupName c;
                newStorageAccountName := newStorageAccountName c;
                useConsumptionPlan := Some true;
                newSiteOS := Some (if decide (language = Some (Python L))
                                   then "linux" else "windows");
                newSiteRuntime := getFunctionsWorkerRuntime language;
                location := location c; newSiteName := newSiteName c;
                relatedNameTask := relatedNameTask c; site := site c |});
       _ ← onContext (LocationListStep_setLocation "westus");
       mret (promptSteps,
             (executeSteps ++ [ResourceGroupCreateStep; StorageAccountCreateStep])%list)
     else
       mret ((promptSteps ++ [ResourceGroupListStep; StorageAccountListStep])%list,
             executeSteps));
  let executeSteps := (executeSteps ++ [SiteCreateStep runtime language])%list in
  _ ← onContext (wizard_prompt promptSteps);
  st ← getState;
  label ← nonNullProp (newSiteName (wizardContext st)) "newSiteName";
  _ ← perform (ShowCreatingTreeItem label);
  _ ← setProperty "os" (newSiteOS (wizardContext st));
  _ ← setProperty "runtime" (newSiteRuntime (wizardContext st));
  _ ← when (negb advancedCreation)
        (newName ← match relatedNameTask (wizardContext st) with
                   | Some task => await task
                   | None => mret None
                   end;
         if truthy_opt_string newName
         then updateContext (fun c =>
                {| newResourceGroupName := orElse resourceGroup newName;
                   newStorageAccountName := newName;
                   useConsumptionPlan := useConsumptionPlan c;
                   newSiteOS := newSiteOS c; newSiteRuntime := newSiteRuntime c;
                   location := location c; newSiteName := newSiteName c;
                   relatedNameTask := relatedNameTask c; site := site c |})
         else throw {| message :=
                         "Failed to generate unique name for resources. Modify the setting " +:+
                         dquote +:+ extensionPrefix +:+ "." +:+ advancedCreationKey +:+ dquote +:+
                         " to manually enter resource names.";
                       isUserCancelledError := false |});
  _ ← executeWizard advancedCreation executeSteps;
  st ← getState;
  site ← nonNullProp (site (wizardContext st)) "site";
  await (ProductionSlotTreeItem_create site).
End Provider.

End FunctionAppProvider.

(** * Notions used in the statements *)

(** ** The list that [createFunctionAppSettings] returns *)
Module AppSettingsDefs.
Import AppSettings.

(** The keys of a list of settings, in order. *)
Definition names (l : list NameValuePair) : list string := map name l.

(** The entries pushed by the loop over the feed's map. *)
Definition feedEntries (feed : gmap string string) : list NameValuePair :=
  map (fun kv => {| name := kv.1; value := kv.2 |}) (map_to_list feed).

(** The [run from package] setting. *)
Definition runFromPackage : NameValuePair :=
  {| name := "WEBSITE_RUN_FROM_PACKAGE"; value := "1" |}.

(** The entries pushed after the loop: what the builder adds of its own. *)
Definition ownSettings (L : ProjectLanguageEnum) (context : IAppSettingsContext)
    (projectRuntime : ProjectRuntime) (projectLanguage : option string)
    : list NameValuePair :=
  [{| name := "AzureWebJobsStorage"; value := storageConnectionString context |}] ++
  (if decide (projectRuntime = v1)
   then [{| name := "AzureWebJobsDashboard"; value := storageConnectionString context |}]
   else []) ++
  (if decide (os context = "windows")
   then [{| name := "WEBSITE_CONTENTAZUREFILECONNECTIONSTRING";
            value := storageConnectionString context |};
         {| name := "WEBSITE_CONTENTSHARE"; value := fileShareName context |}]
   else []) ++
  (match runtime context with
   | Some r => if truthy_string r
               then [{| name := "FUNCTIONS_WORKER_RUNTIME"; value := r |}] else []
   | None => []
   end) ++
  (if negb (bool_decide (os context = "linux")) &&
      negb (bool_decide (projectLanguage = Some (CSharpScript L)) &&
            bool_decide (projectRuntime = v1))
   then [runFromPackage] else []).

(** The six keys that the builder sets of its own. *)
Definition builderKeys : list string :=
  ["AzureWebJobsStorage"; "AzureWebJobsDashboard";
   "WEBSITE_CONTENTAZUREFILECONNECTIONSTRING"; "WEBSITE_CONTENTSHARE";
   "FUNCTIONS_WORKER_RUNTIME"; "WEBSITE_RUN_FROM_PACKAGE"].

(** What follows the feed's entries in the list that is returned. *)
Definition addedSettings (feed : gmap string string) (out : list NameValuePair) :=
  drop (size feed) out.

(** The guard of the last step, as a proposition. *)
Definition runFromPackageApplies (L : ProjectLanguageEnum) (context : IAppSettingsContext)
    (rt : ProjectRuntime) (lang : option string) : Prop :=
  os context ≠ "linux" /\ ~ (lang = Some (CSharpScript L) /\ rt = v1).

End AppSettingsDefs.

Module FunctionCreateDefs.
Import FunctionCreate.

(** The part of the world that the extension host keeps between steps and
    that only the cache code touches. *)
Definition same_host (w w1 : World) : Prop :=
  globalState w1 = globalState w /\ lastUpdate w1 = lastUpdate w /\
  timers w1 = timers w /\ clock w1 = clock w /\ hostRun w1 = hostRun w /\
  exists evs, events w1 = events w ++ evs.

(** A computation that leaves that part alone, whatever its outcome. *)
Definition Frame {A} (m : M World A) : Prop := forall w, same_host w (m w).2.

Section Halves.
Variable L : ProjectLanguageEnum.
Variables hostFileName tasksFileName settingsFileName : string.
Variables vscodeFolderName extInstallCommand : string.
Variable path_join : list string -> string.
Variable formatJson : json -> string.
Variable getContainingWorkspace : string -> bool.
Variable executeCore : IFunctionWizardContext -> gmap string FileData ->
                       Result string * gmap string FileData.
Variable callThrows : string -> option JsError.

(** [execute] up to the point where the record is built. *)
Definition scaffold (wizardContext : IFunctionWizardContext) : M World ICachedFunction :=
  template ← nonNullProp (functionTemplate wizardContext) "functionTemplate";
  _ ← setProperty "projectLanguage" (TvLanguage (language wizardContext));
  _ ← setProperty "projectRuntime" (TvRuntime (runtime wizardContext));
  _ ← setProperty "templateId" (TvString (Template.id template));
  _ ← emit (ProgressReport ("Creating new " +:+ Template.name template +:+ "..."));
  newFilePath ← run_executeCore executeCore wizardContext;
  useBundle ← shouldUseExtensionBundle L tasksFileName settingsFileName
                 vscodeFolderName extInstallCommand path_join formatJson
                 wizardContext template;
  _ ← when useBundle (verifyExtensionBundle hostFileName path_join wizardContext);
  mret {| Cached.projectPath := projectPath wizardContext;
          Cached.newFilePath := newFilePath;
          Cached.isHttpTrigger := Template.isHttpTrigger template |}.

(** [execute] from there on. *)
Definition cacheAndRun (wizardContext : IFunctionWizardContext)
    (cachedFunc : ICachedFunction) : M World unit :=
  _ ← when (truthy_opt_string (openBehavior wizardContext))
        (_ ← globalState_update cacheKey (Some cachedFunc);
         setTimeout (ClearGlobalState cacheKey) (5 * 1000));
  runPostFunctionCreateSteps getContainingWorkspace callThrows cachedFunc.
End Halves.

(** The timers that are pending are not yet due. *)
Definition timers_pending (w : World) : Prop :=
  Forall (fun tm => (clock w < due tm)%N) (timers w).

(** A record under [cacheKey] was stored at a time [t] by a run [h] of the
    host; if that run is the current one, a timer that clears the key is
    pending and falls due at most 5 seconds after [t]. *)
Definition cache_fresh (w : World) : Prop :=
  forall func, globalState w !! cacheKey = Some func ->
    exists t h, lastUpdate w !! cacheKey = Some (t, h) /\
      (t <= clock w)%N /\ h <= hostRun w /\
      (h = hostRun w ->
       exists tm, tm ∈ timers w /\ callback tm = ClearGlobalState cacheKey /\
                  (due tm <= t + 5000)%N).

Definition host_invariant (w : World) : Prop := timers_pending w /\ cache_fresh w.

(** The host is in its run [n], and a record under [cacheKey] was stored in
    that run. *)
Definition stored_in_run (n : nat) (w : World) : Prop :=
  hostRun w = n /\
  forall func, globalState w !! cacheKey = Some func ->
    exists t, lastUpdate w !! cacheKey = Some (t, n).
End FunctionCreateDefs.

Module FunctionListDefs.
Import FunctionList.

(** Modelled from the spec: "case-insensitive alphabetical by name", the
    order that the specification reads [localeCompare] as.  It stands for
    [localeCompare] where a statement is evaluated on concrete names. *)
Definition alphabetical (a b : string) : Z :=
  match String.compare (toLowerCase a) (toLowerCase b) with
  | Lt => (-1)%Z
  | Eq => 0%Z
  | Gt => 1%Z
  end.

(** The specification's reading of the pattern: the trigger word, in any
    case, at the end of the string or followed by something that is not a
    letter. *)
Definition matchesHttpTrigger (s : string) : Prop :=
  exists before word after,
    s = before +:+ word +:+ after /\ toLowerCase word = "httptrigger" /\
    (after = "" \/ exists c rest, after = String c rest /\ is_ascii_letter c = false).

Definition template (id name : string) : IFunctionTemplate :=
  {| Template.id := id; Template.name := name; Template.isHttpTrigger := false;
     Template.isTimerTrigger := false; Template.userPromptedSettings := [] |}.

(** The create step of the language can be made: the factory that
    [getSubWizard] awaits for it resolves. *)
Definition createStepAvailable (L : ProjectLanguageEnum)
    (javaCreateStep validateDotnetInstalled : Result unit) (lang : option string) : Prop :=
  (lang = Some (Java L) -> javaCreateStep = Ok tt) /\
  (lang = Some (CSharp L) \/ lang = Some (FSharp L) -> validateDotnetInstalled = Ok tt).
End FunctionListDefs.

Module ProviderDefs.
Import FunctionAppProvider.

Section Before.
Variable L : ProjectLanguageEnum.
Variables extensionPrefix projectLanguageSetting projectRuntimeSetting : string.
Variable getWorkspaceSettingFromAnyFolder : string -> option string.
Variable getWorkspaceSetting : string -> option bool.
Variable convertStringToRuntime : option string -> option ProjectRuntime.
Variable getFunctionsWorkerRuntime : option string -> option string.
Variable tryGetLocalRuntimeVersion : Result (option ProjectRuntime).
Variable LocationListStep_setLocation :
  string -> IAppServiceWizardContext -> Result unit * IAppServiceWizardContext.
Variable wizard_prompt :
  list PromptStep -> IAppServiceWizardContext -> Result unit * IAppServiceWizardContext.

(** [createChildImpl] up to its [try]: the result is the list of execute
    steps of the wizard. *)
Definition beforeExecute (resourceGroup : option string) : M State (list ExecuteStep) :=
  runtime ← getDefaultRuntime projectRuntimeSetting getWorkspaceSettingFromAnyFolder
              convertStringToRuntime tryGetLocalRuntimeVersion;
  let language := getWorkspaceSettingFromAnyFolder projectLanguageSetting in
  _ ← updateContext (fun _ =>
        {| newResourceGroupName := resourceGroup; newStorageAccountName := None;
           useConsumptionPlan := None; newSiteOS := None; newSiteRuntime := None;
           location := None; newSiteName := None; relatedNameTask := None;
           site := None |});
  let promptSteps := [SiteNameStep; SiteOSStep; SiteHostingPlanStep; SiteRuntimeStep] in
  let executeSteps : list ExecuteStep := [] in
  let advancedCreation := truthy_opt_bool (getWorkspaceSetting advancedCreationKey) in
  _ ← setProperty "advancedCreation" (Some (String_of_bool advancedCreation));
  '(promptSteps, executeSteps) ←
    (if negb advancedCreation
     then
       _ ← updateContext (fun c =>
             {| newResourceGroupName := newResourceGroupName c;
                newStorageAccountName := newStorageAccountName c;
                useConsumptionPlan := Some true;
                newSiteOS := Some (if decide (language = Some (Python L))
                                   then "linux" else "windows");
                newSiteRuntime := getFunctionsWorkerRuntime language;
                location := location c; newSiteName := newSiteName c;
                relatedNameTask := relatedNameTask c; site := site c |});
       _ ← onContext (LocationListStep_setLocation "westus");
       mret (promptSteps,
             (executeSteps ++ [ResourceGroupCreateStep; StorageAccountCreateStep])%list)
     else
       mret ((promptSteps ++ [ResourceGroupListStep; StorageAccountListStep])%list,
             executeSteps));
  let executeSteps := (executeSteps ++ [SiteCreateStep runtime language])%list in
  _ ← onContext (wizard_prompt promptSteps);
  st ← getState;
  label ← nonNullProp (newSiteName (wizardContext st)) "newSiteName";
  _ ← perform (ShowCreatingTreeItem label);
  _ ← setProperty "os" (newSiteOS (wizardContext st));
  _ ← setProperty "runtime" (newSiteRuntime (wizardContext st));
  _ ← when (negb advancedCreation)
        (newName ← match relatedNameTask (wizardContext st) with
                   | Some task => await task
                   | None => mret None
                   end;
         if truthy_opt_string newName
         then updateContext (fun c =>
                {| newResourceGroupName := orElse resourceGroup newName;
                   newStorageAccountName := newName;
                   useConsumptionPlan := useConsumptionPlan c;
                   newSiteOS := newSiteOS c; newSiteRuntime := newSiteRuntime c;
                   location := location c; newSiteName := newSiteName c;
                   relatedNameTask := relatedNameTask c; site := site c |})
         else throw {| message :=
                         "Failed to generate unique name for resources. Modify the setting " +:+
                         dquote +:+ extensionPrefix +:+ "." +:+ advancedCreationKey +:+ dquote +:+
                         " to manually enter resource names.";
                       isUserCancelledError := false |});
  mret executeSteps.
End Before.

(** The suggestion that follows a failed execute phase. *)
Definition advice (extensionPrefix : string)
    (showWarningMessage : string -> MessageItem -> option MessageItem)
    (advancedCreation : bool) (error : JsError) : list Effect :=
  let text := "Modify the setting " +:+ dquote +:+ extensionPrefix +:+ "." +:+
              advancedCreationKey +:+ dquote +:+
              " if you want to change the default values when creating a Function App in Azure." in
  let btn := {| title := "Turn on advanced creation" |} in
  if negb (isUserCancelledError error) && negb advancedCreation
  then ShowWarningMessage text btn ::
       (if bool_decide (showWarningMessage text btn = Some btn)
        then [UpdateGlobalSetting "advancedCreation" true] else [])
  else [].
End ProviderDefs.

Module UploadDefs.
Import UploadAppSettings.

(** Modelled from the spec: [decryptLocalSettings] and [encryptLocalSettings]
    are not among the sources; the claim speaks of the state in which they
    leave the settings file.  A decryption that resolves leaves the file at
    its uri decrypted, an encryption that resolves leaves it encrypted, and
    a call that rejects leaves the file as it was.  No other call writes
    the file. *)
Definition fileAfter (env : Collaborators) (path : string) (encrypted : bool)
    (c : Call) : bool :=
  match c with
  | DecryptLocalSettings uri =>
      if decide (uri = Uri_file path)
      then match decryptLocalSettings env with Ok _ => false | Throw _ => encrypted end
      else encrypted
  | EncryptLocalSettings uri =>
      if decide (uri = Uri_file path)
      then match encryptLocalSettings env with Ok _ => true | Throw _ => encrypted end
      else encrypted
  | _ => encrypted
  end.

(** Whether the settings file at [path] is encrypted after the calls, given
    whether it was before them. *)
Definition leftEncrypted (env : Collaborators) (path : string) (encrypted : bool)
    (calls : list Call) : bool :=
  foldl (fileAfter env path) encrypted calls.
End UploadDefs.

(** ** Concrete projects, on which statements are evaluated *)
Module Sample.
Import FunctionCreate.

Definition join (segments : list string) : string := String.concat "/" segments.

Definition queueTemplate : IFunctionTemplate :=
  {| Template.id := "QueueTrigger-JavaScript"; Template.name := "Azure Queue Storage trigger";
     Template.isHttpTrigger := false; Template.isTimerTrigger := false;
     Template.userPromptedSettings := [{| Template.settingName := "queueName" |}] |}.

Definition httpTemplate : IFunctionTemplate :=
  {| Template.id := "HttpTrigger-JavaScript"; Template.name := "HTTP trigger";
     Template.isHttpTrigger := true; Template.isTimerTrigger := false;
     Template.userPromptedSettings := [] |}.

(** A create step that writes [index.js] of the new function. *)
Definition writeIndexJs (wizardContext : IFunctionWizardContext)
    (fs : gmap string FileData) : Result string * gmap string FileData :=
  let p := join [projectPath wizardContext; "HttpTrigger1"; "index.js"] in
  (Ok p, <[p := RawText "module.exports = async function (context, req) {};"]> fs).

Definition project : World :=
  {| files := {[ "/proj/host.json" := JsonDoc (JObj [("version", JStr "2.0")]) ]};
     globalState := ∅; lastUpdate := ∅; timers := []; clock := 0; hostRun := 0;
     properties := ∅; events := [] |}.

(** The context that [createNewProject] builds when its caller passes
    [openFolder = false]. *)
Definition dontOpenContext : IFunctionWizardContext :=
  {| functionTemplate := Some httpTemplate; language := Some "JavaScript";
     runtime := Some v2; projectPath := "/proj"; workspacePath := "/proj";
     openBehavior := CreateNewProject.openBehavior false (fun _ => None)
                       "projectOpenBehavior" |}.

Definition queueContext : IFunctionWizardContext :=
  {| functionTemplate := Some queueTemplate; language := Some "JavaScript";
     runtime := Some v2; projectPath := "/proj"; workspacePath := "/proj";
     openBehavior := None |}.

Definition execute := FunctionCreate.execute ProjectLanguage "host.json" "tasks.json"
  "settings.json" ".vscode" "func extensions install" join (fun _ => "")
  (fun _ => true) writeIndexJs (fun _ => None).

Definition run := FunctionCreate.run ProjectLanguage "host.json" "tasks.json"
  "settings.json" ".vscode" "func extensions install" join (fun _ => "")
  (fun _ => true) writeIndexJs (fun _ => None).

Definition cachedHttpTrigger : ICachedFunction :=
  {| Cached.projectPath := "/proj"; Cached.newFilePath := "/proj/HttpTrigger1/index.js";
     Cached.isHttpTrigger := true |}.
End Sample.

Module SampleApp.
Import FunctionAppProvider ProviderDefs.

Definition conflict : JsError :=
  {| message := "The storage account name is already taken."; isUserCancelledError := false |}.

Definition named (c : IAppServiceWizardContext) : IAppServiceWizardContext :=
  {| newResourceGroupName := newResourceGroupName c;
     newStorageAccountName := newStorageAccountName c;
     useConsumptionPlan := useConsumptionPlan c;
     newSiteOS := newSiteOS c; newSiteRuntime := newSiteRuntime c;
     location := location c; newSiteName := Some "myapp";
     relatedNameTask := Some (Ok (Some "myapp")); site := site c |}.

Definition start : State :=
  {| wizardContext :=
       {| newResourceGroupName := None; newStorageAccountName := None;
          useConsumptionPlan := None; newSiteOS := None; newSiteRuntime := None;
          location := None; newSiteName := None; relatedNameTask := None;
          site := None |};
     properties := ∅; effects := [] |}.

(** A quick creation ([advancedCreation] is not set) that fails in its
    execute phase; the user accepts the suggestion. *)
Definition create := createChildImpl ProjectLanguage "azureFunctions"
  "projectLanguage" "projectRuntime" (fun _ => None) (fun _ => None) (fun _ => None)
  (fun _ => Some "node") (Ok (Some v2)) (fun _ c => (Ok tt, c))
  (fun _ c => (Ok tt, named c)) (fun _ c => (Throw conflict, c))
  (fun _ btn => Some btn) (fun s => Ok (siteName s)).

Definition before := beforeExecute ProjectLanguage "azureFunctions"
  "projectLanguage" "projectRuntime" (fun _ => None) (fun _ => None) (fun _ => None)
  (fun _ => Some "node") (Ok (Some v2)) (fun _ c => (Ok tt, c))
  (fun _ c => (Ok tt, named c)).

Definition unreadable : JsError :=
  {| message := "Unexpected end of JSON input"; isUserCancelledError := false |}.

(** An encrypted settings file whose second read fails. *)
Definition upload : UploadAppSettings.Collaborators :=
  {| UploadAppSettings.getLocalSettingsFile := Ok "/proj/local.settings.json";
     UploadAppSettings.showTreeItemPicker := Ok {| UploadAppSettings.client_fullName := "myapp" |};
     UploadAppSettings.readJson_first :=
       Ok {| UploadAppSettings.IsEncrypted := Some true; UploadAppSettings.Values := None |};
     UploadAppSettings.decryptLocalSettings := Ok tt;
     UploadAppSettings.readJson_second := Throw unreadable;
     UploadAppSettings.encryptLocalSettings := Ok tt;
     UploadAppSettings.listApplicationSettings := Ok None;
     UploadAppSettings.confirmOverwriteSettings := fun l r => Ok (l ∪ r);
     UploadAppSettings.updateApplicationSettings := Ok tt |}.

Definition locked : JsError :=
  {| message := "EBUSY: resource busy or locked"; isUserCancelledError := false |}.

(** An encrypted settings file that is decrypted and read, and whose
    encryption then fails. *)
Definition uploadLocked : UploadAppSettings.Collaborators :=
  {| UploadAppSettings.getLocalSettingsFile := Ok "/proj/local.settings.json";
     UploadAppSettings.showTreeItemPicker := Ok {| UploadAppSettings.client_fullName := "myapp" |};
     UploadAppSettings.readJson_first :=
       Ok {| UploadAppSettings.IsEncrypted := Some true; UploadAppSettings.Values := None |};
     UploadAppSettings.decryptLocalSettings := Ok tt;
     UploadAppSettings.readJson_second :=
       Ok {| UploadAppSettings.IsEncrypted := Some false;
             UploadAppSettings.Values := Some {[ "AzureWebJobsStorage" := "secret" ]} |};
     UploadAppSettings.encryptLocalSettings := Throw locked;
     UploadAppSettings.listApplicationSettings := Ok None;
     UploadAppSettings.confirmOverwriteSettings := fun l r => Ok (l ∪ r);
     UploadAppSettings.updateApplicationSettings := Ok tt |}.
End SampleApp.

(** * More of the sources *)

(** ** FunctionAppProvider.ts: listing the function apps *)
Module FunctionAppList.

(** azure-arm-website: the fields of a [Site] that are read, and what
    [new SiteClient(site, root).isFunctionApp] gives for it. *)
Record Site := { name : option string; isFunctionApp : bool }.

Record WebAppCollection := { value : list Site; nextLink : option string }.

(** The field of the provider that the listing keeps between calls. *)
Record FunctionAppProvider := { _nextLink : option string }.

Definition hasMoreChildrenImpl (this : FunctionAppProvider) : bool :=
  bool_decide (is_Some (_nextLink this)).

Section Listing.
Variable TreeItem : Type.
(** [client.webApps.list()] and [client.webApps.listNext(link)]. *)
Variable webApps_list : Result WebAppCollection.
Variable webApps_listNext : string -> Result WebAppCollection.
(** [parseError(error).errorType] of vscode-azureextensionui. *)
Variable parseError_errorType : JsError -> string.
Variable ProductionSlotTreeItem_create : Site -> Result TreeItem.
(** [createTreeItemsWithErrorHandling] of vscode-azureextensionui, applied to
    the source array, the function that creates an item (or gives
    [undefined]) and the function that labels an item that cannot be
    created. *)
Variable createTreeItemsWithErrorHandling :
  list Site -> (Site -> Result (option TreeItem)) -> (Site -> option string) ->
  Result (list TreeItem).

(** The callback that makes the tree item of a site. *)
Definition createTreeItem (site : Site) : Result (option TreeItem) :=
  if isFunctionApp site
  then match ProductionSlotTreeItem_create site with
       | Ok item => Ok (Some item)
       | Throw e => Throw e
       end
  else Ok None.

(** The [try] block gives the collection; its [catch] returns [[]] from the
    function ([None] here) or throws again. *)
Definition loadMoreChildrenImpl (clearCache : bool)
    : M FunctionAppProvider (list TreeItem) :=
  _ ← when clearCache (modifyState (fun _ => {| _nextLink := None |}));
  this ← getState;
  webAppCollection ←
    try_catch
      (c ← await (match _nextLink this with
                  | None => webApps_list
                  | Some link => webApps_listNext link
                  end);
       mret (Some c))
      (fun error =>
         if decide (toLowerCase (parseError_errorType error) = "notfound")
         then mret None
         else throw error);
  match webAppCollection with
  | None => mret []
  | Some webAppCollection =>
      _ ← modifyState (fun _ => {| _nextLink := nextLink webAppCollection |});
      await (createTreeItemsWithErrorHandling (value webAppCollection) createTreeItem name)
  end.
End Listing.
End FunctionAppList.

(** ** FunctionListStep.ts: making the step, and its prompt *)
Module FunctionListPrompt.
Import FunctionList.

Record IFunctionListStepOptions := {
  isProjectWizard : bool;
  templateId : option string;
  triggerSettings : option (list (string * option string))
}.

(** The constructor: [triggerSettings || {}] and [!!isProjectWizard]. *)
Definition new_FunctionListStep (triggerSettings : option (list (string * option string)))
    (isProjectWizard : option bool) : FunctionListStep :=
  {| _triggerSettings := default [] triggerSettings;
     _isProjectWizard := truthy_opt_bool isProjectWizard |}.

(** [wizardContext.functionTemplate = t]. *)
Definition set_functionTemplate (t : IFunctionTemplate)
    (wizardContext : IFunctionWizardContext) : IFunctionWizardContext :=
  {| functionTemplate := Some t;
     language := language wizardContext;
     projectPath := projectPath wizardContext;
     otherProperties := otherProperties wizardContext |}.

(** [wizardContext[name]] for a property other than the three fields. *)
Definition get_property (wizardContext : IFunctionWizardContext) (name : string)
    : option string :=
  mjoin (otherProperties wizardContext !! name).

(** What the prompt works on: the wizard context, the workspace setting
    [templateFilterSetting] of the project, and the telemetry
    [actionContext.properties]. *)
Inductive PropertyValue :=
| PvString (s : string)
| PvFilter (f : TemplateFilter).

Record PromptState := {
  wizardContext : IFunctionWizardContext;
  templateFilterSetting : option TemplateFilter;
  properties : gmap string PropertyValue
}.

Definition onWizardContext (f : IFunctionWizardContext -> IFunctionWizardContext)
    : M PromptState unit :=
  modifyState (fun st =>
    {| wizardContext := f (wizardContext st);
       templateFilterSetting := templateFilterSetting st;
       properties := properties st |}).

Definition setProperty (key : string) (v : PropertyValue) : M PromptState unit :=
  modifyState (fun st =>
    {| wizardContext := wizardContext st;
       templateFilterSetting := templateFilterSetting st;
       properties := <[key := v]> (properties st) |}).

(** Modelled from the spec: [updateWorkspaceSetting] of vsCodeConfig/settings
    is not among the sources; the chosen tier is "persist[ed] as a
    workspace-scoped setting", which a later prompt "applies". *)
Definition updateWorkspaceSetting (f : TemplateFilter) : M PromptState unit :=
  modifyState (fun st =>
    {| wizardContext := wizardContext st;
       templateFilterSetting := Some f;
       properties := properties st |}).

(** The entries of a quick pick. *)
Inductive PickData :=
| PickTemplate (t : IFunctionTemplate)
| PickSkipForNow
| PickChangeFilter.

Record Pick := { label : string; data : PickData }.

(** vscode-azureextensionui: the error of a prompt that the user leaves. *)
Definition userCancelled : JsError :=
  {| message := "Operation cancelled."; isUserCancelledError := true |}.

(** [ext.ui.showQuickPick(picks, options)]: the user takes the entry at
    [answer], or leaves the prompt when there is no such entry. *)
Definition showQuickPick {A} (picks : list A) (answer : nat) : Result A :=
  match picks !! answer with
  | Some p => Ok p
  | None => Throw userCancelled
  end.

Definition promptForTemplateFilter (answer : nat) : Result TemplateFilter :=
  showQuickPick [Verified; Core; All] answer.

Section Prompt.
(** [String.prototype.localeCompare] and [Array.prototype.sort] of the host. *)
Variable localeCompare : string -> string -> Z.
Variable Array_sort :
  (IFunctionTemplate -> IFunctionTemplate -> Z) -> list IFunctionTemplate ->
  list IFunctionTemplate.
(** [ext.templateProviderTask] and the [getTemplates] of the provider it
    resolves to: language, runtime, project path and filter. *)
Variable templateProviderTask : Result unit.
Variable getTemplates :
  string -> string -> string -> TemplateFilter -> Result (list IFunctionTemplate).

Definition create (options : IFunctionListStepOptions)
    : M IFunctionWizardContext FunctionListStep :=
  _ ← match templateId options with
      | Some id =>
          when (truthy_string id)
            (wizardContext ← getState;
             language ← nonNullProp (language wizardContext) "language";
             runtime ← nonNullProp (get_property wizardContext "runtime") "runtime";
             _ ← await templateProviderTask;
             templates ← await (getTemplates language runtime
                                  (projectPath wizardContext) All);
             match List.find (fun t => bool_decide (Template.id t = id)) templates with
             | Some foundTemplate => modifyState (set_functionTemplate foundTemplate)
             | None =>
                 (* the two properties of the context, as they were just read *)
                 throw {| message :=
                            "Could not find template with language " +:+ dquote +:+
                            language +:+ dquote +:+ ", runtime " +:+ dquote +:+
                            runtime +:+ dquote +:+ ", and id " +:+ dquote +:+
                            id +:+ dquote +:+ ".";
                          isUserCancelledError := false |}
             end)
      | None => mret tt
      end;
  mret (new_FunctionListStep (triggerSettings options) (Some (isProjectWizard options))).

Definition getPicks (this : FunctionListStep) (templateFilter : TemplateFilter)
    : M PromptState (list Pick) :=
  st ← getState;
  let wizardContext := wizardContext st in
  language ← nonNullProp (language wizardContext) "language";
  runtime ← nonNullProp (get_property wizardContext "runtime") "runtime";
  _ ← await templateProviderTask;
  templates ← await (getTemplates language runtime (projectPath wizardContext)
                       templateFilter);
  let templates :=
    Array_sort (fun a b => sortTemplates localeCompare a b templateFilter) templates in
  let picks := map (fun t => {| label := Template.name t; data := PickTemplate t |})
                   templates in
  let picks :=
    if _isProjectWizard this
    then {| label := "$(clock) Skip for now"; data := PickSkipForNow |} :: picks
    else picks in
  let picks :=
    (picks ++ [{| label := "$(gear) Change template filter";
                  data := PickChangeFilter |}])%list in
  mret picks.

(** The [while] loop of [prompt].  The user's answers are consumed one for
    each quick pick that is shown; a user who has no answer left leaves the
    prompt. *)
Fixpoint promptLoop (this : FunctionListStep) (answers : list nat)
    (templateFilter : TemplateFilter) {struct answers} : M PromptState TemplateFilter :=
  st ← getState;
  if bool_decide (is_Some (functionTemplate (wizardContext st)))
  then mret templateFilter
  else
    picks ← getPicks this templateFilter;
    match answers with
    | [] => throw userCancelled
    | answer :: answers =>
        result ← await (showQuickPick picks answer);
        match data result with
        | PickSkipForNow =>
            _ ← setProperty "templateId" (PvString "skipForNow");
            mret templateFilter
        | PickChangeFilter =>
            match answers with
            | [] => throw userCancelled
            | answer :: answers =>
                templateFilter ← await (promptForTemplateFilter answer);
                st ← getState;
                _ ← when (negb (_isProjectWizard this) ||
                          bool_decide (get_property (wizardContext st) "openBehavior"
                                       = Some "AlreadyOpen"))
                      (updateWorkspaceSetting templateFilter);
                promptLoop this answers templateFilter
            end
        | PickTemplate t =>
            _ ← onWizardContext (set_functionTemplate t);
            promptLoop this answers templateFilter
        end
    end.

Definition prompt (this : FunctionListStep) (answers : list nat) : M PromptState unit :=
  st ← getState;
  let templateFilter := default Verified (templateFilterSetting st) in
  templateFilter ← promptLoop this answers templateFilter;
  setProperty "templateFilter" (PvFilter templateFilter).
End Prompt.
End FunctionListPrompt.

(** ** DotnetFunctionCreateStep.ts: executeCore *)
Module DotnetFunctionCreate.

(** [IDotnetFunctionWizardContext]: the properties that are read. *)
Record IDotnetFunctionWizardContext := {
  functionTemplate : option IFunctionTemplate;
  functionName : option string;
  namespace : option string;
  runtime : option ProjectRuntime;
  projectPath : string
}.

(** An invocation of [executeDotnetTemplateCommand]: the runtime, the working
    directory, the operation and the arguments after it. *)
Record Invocation := {
  forRuntime : ProjectRuntime;
  workingDirectory : string;
  operation : string;
  args : list string
}.

Section ExecuteCore.
(** [path.join] of Node, [cpUtils.wrapArgInQuotes], and the two functions of
    the context's modules. *)
Variable path_join : list string -> string.
Variable wrapArgInQuotes : string -> string.
Variable getBindingSetting : IDotnetFunctionWizardContext -> IBindingSetting -> option string.
Variable getFileExtension : IDotnetFunctionWizardContext -> string.
(** What the template command resolves to. *)
Variable executeDotnetTemplateCommand :
  ProjectRuntime -> string -> string -> list string -> Result string.

Definition run_executeDotnetTemplateCommand (runtime : ProjectRuntime)
    (workingDirectory operation : string) (args : list string)
    : M (list Invocation) string :=
  fun calls =>
    (executeDotnetTemplateCommand runtime workingDirectory operation args,
     (calls ++ [{| forRuntime := runtime; workingDirectory := workingDirectory;
                   operation := operation; args := args |}])%list).

Definition executeCore (wizardContext : IDotnetFunctionWizardContext)
    : M (list Invocation) string :=
  template ← nonNullProp (functionTemplate wizardContext) "functionTemplate";
  functionName ← nonNullProp (functionName wizardContext) "functionName";
  let args : list string := [] in
  let args := (args ++ ["--arg:name"])%list in
  let args := (args ++ [wrapArgInQuotes functionName])%list in
  let args := (args ++ ["--arg:namespace"])%list in
  namespace ← nonNullProp (namespace wizardContext) "namespace";
  let args := (args ++ [wrapArgInQuotes namespace])%list in
  let args :=
    foldl (fun args setting =>
             match getBindingSetting wizardContext setting with
             | Some value =>
                 ((args ++ ["--arg:" +:+ Template.settingName setting]) ++
                  [wrapArgInQuotes value])%list
             | None => args
             end)
          args (Template.userPromptedSettings template) in
  runtime ← nonNullProp (runtime wizardContext) "runtime";
  _ ← run_executeDotnetTemplateCommand runtime (projectPath wizardContext) "create"
        ("--identity" :: Template.id template :: args);
  mret (path_join [projectPath wizardContext;
                   functionName +:+ getFileExtension wizardContext]).
End ExecuteCore.
End DotnetFunctionCreate.

(** ** createNewProject.ts: the command *)
Module CreateNewProjectCommand.

Inductive PromptStep :=
| FolderListStep
| NewProjectLanguageStep (templateId : option string)
    (triggerSettings : option (list (string * option string)))
| OpenBehaviorStep.

Inductive ExecuteStep := OpenFolderStep.

(** The properties of the wizard context that the command sets. *)
Record IProjectWizardContext := {
  functionName : option string;
  language : option string;
  runtime : option ProjectRuntime;
  projectPath : option string;
  openBehavior : option string
}.

Definition set_openBehavior (v : option string) (c : IProjectWizardContext)
    : IProjectWizardContext :=
  {| functionName := functionName c; language := language c; runtime := runtime c;
     projectPath := projectPath c; openBehavior := v |}.

(** The wizard context, the telemetry [actionContext.properties], and the
    messages shown. *)
Record State := {
  wizardContext : IProjectWizardContext;
  properties : gmap string string;
  messages : list string
}.

Definition updateContext (f : IProjectWizardContext -> IProjectWizardContext)
    : M State unit :=
  modifyState (fun st =>
    {| wizardContext := f (wizardContext st); properties := properties st;
       messages := messages st |}).

Definition updateProperties (f : gmap string string -> gmap string string)
    : M State unit :=
  modifyState (fun st =>
    {| wizardContext := wizardContext st; properties := f (properties st);
       messages := messages st |}).

Definition onContext {A}
    (f : IProjectWizardContext -> Result A * IProjectWizardContext) : M State A :=
  fun st =>
    let '(r, ctx) := f (wizardContext st) in
    (r, {| wizardContext := ctx; properties := properties st; messages := messages st |}).

Definition showInformationMessage (text : string) : M State unit :=
  modifyState (fun st =>
    {| wizardContext := wizardContext st; properties := properties st;
       messages := (messages st ++ [text])%list |}).

(** [a || b] on strings that may be [undefined]. *)
Definition orElse (a b : option string) : option string :=
  if truthy_opt_string a then a else b.

Section Command.
(** constants.ts *)
Variables projectLanguageSetting projectRuntimeSetting projectOpenBehaviorSetting : string.
(** funcCoreTools/getLocalFuncCoreToolsVersion: what it adds to the telemetry. *)
Variable addLocalFuncTelemetry : gmap string string -> gmap string string.
(** vsCodeConfig/settings *)
Variable getGlobalSetting : string -> option string.
Variable getWorkspaceSetting : string -> option string.
Variable convertStringToRuntime : option string -> option ProjectRuntime.
Variable FolderListStep_setProjectPath :
  IProjectWizardContext -> string -> IProjectWizardContext.
(** The two phases of the wizard of vscode-azureextensionui. *)
Variable wizard_prompt :
  list PromptStep -> IProjectWizardContext -> Result unit * IProjectWizardContext.
Variable wizard_execute :
  list ExecuteStep -> IProjectWizardContext -> Result unit * IProjectWizardContext.

Definition createNewProject (projectPath language runtime : option string)
    (openFolder : bool) (templateId functionName : option string)
    (triggerSettings : option (list (string * option string))) : M State unit :=
  _ ← updateProperties addLocalFuncTelemetry;
  let language := orElse language (getGlobalSetting projectLanguageSetting) in
  let runtime := orElse runtime (getGlobalSetting projectRuntimeSetting) in
  _ ← updateContext (fun _ =>
        {| functionName := functionName; language := language;
           runtime := convertStringToRuntime runtime;
           projectPath := None; openBehavior := None |});
  _ ← match projectPath with
      | Some path =>
          when (truthy_string path)
               (updateContext (fun c => FolderListStep_setProjectPath c path))
      | None => mret tt
      end;
  _ ← (if negb openFolder
       then updateContext (set_openBehavior (Some "DontOpen"))
       else
         _ ← updateContext (set_openBehavior
                              (getWorkspaceSetting projectOpenBehaviorSetting));
         st ← getState;
         updateProperties
           <["openBehaviorFromSetting" :=
               FunctionAppProvider.String_of_bool
                 (truthy_opt_string (openBehavior (wizardContext st)))]>);
  _ ← onContext (wizard_prompt
                   [FolderListStep; NewProjectLanguageStep templateId triggerSettings;
                    OpenBehaviorStep]);
  _ ← onContext (wizard_execute [OpenFolderStep]);
  showInformationMessage "Finished creating project.".
End Command.
End CreateNewProjectCommand.

(** ** JavaScriptInitVSCodeStep.ts *)
Module JavaScriptInitVSCode.

Inductive DependsOn :=
| DependsOnTask (label : string)
| DependsOnTasks (labels : list string).

Inductive ProblemMatcher :=
| Matcher (name : string)
| Matchers (names : list string).

Record TaskDefinition := {
  type : string;
  label : option string;
  command : string;
  problemMatcher : option ProblemMatcher;
  isBackground : option bool;
  dependsOn : option DependsOn
}.

(** The fields of the parent classes that the step reads or writes. *)
Record ScriptInitVSCodeStep := {
  preDeployTask : option string;
  requiresFuncExtensionsInstall : bool
}.

(** The step: its parent's fields and its own, which is [undefined] until
    [executeCore] has run. *)
Record JavaScriptInitVSCodeStep := {
  super : ScriptInitVSCodeStep;
  hasPackageJson : option bool
}.

Definition npmInstallTaskLabel : string := "npm install".
Definition npmPruneTaskLabel : string := "npm prune".

Section Step.
(** constants.ts *)
Variables extInstallTaskName func funcWatchProblemMatcher hostStartCommand : string.
Variable path_join : list string -> string.
(** [fse.pathExists]. *)
Variable pathExists : string -> bool.
(** The two methods of [ScriptInitVSCodeStep] that the step calls. *)
Variable super_executeCore :
  string -> ScriptInitVSCodeStep -> Result unit * ScriptInitVSCodeStep.
Variable super_getTasks : ScriptInitVSCodeStep -> list TaskDefinition.

(** [executeCore(wizardContext)], on the project path of the context. *)
Definition executeCore (projectPath : string) : M JavaScriptInitVSCodeStep unit :=
  _ ← (fun this =>
         let '(r, s) := super_executeCore projectPath (super this) in
         (r, {| super := s; hasPackageJson := hasPackageJson this |}));
  let has := pathExists (path_join [projectPath; "package.json"]) in
  _ ← modifyState (fun this => {| super := super this; hasPackageJson := Some has |});
  when has
    (modifyState (fun this =>
       {| super := {| preDeployTask := Some npmPruneTaskLabel;
                      requiresFuncExtensionsInstall :=
                        requiresFuncExtensionsInstall (super this) |};
          hasPackageJson := hasPackageJson this |})).

Definition getTasks (this : JavaScriptInitVSCodeStep) : list TaskDefinition :=
  if negb (truthy_opt_bool (hasPackageJson this))
  then super_getTasks (super this)
  else
    [ {| type := func; label := None; command := hostStartCommand;
         problemMatcher := Some (Matcher funcWatchProblemMatcher);
         isBackground := Some true;
         dependsOn :=
           Some (if requiresFuncExtensionsInstall (super this)
                 then DependsOnTasks [extInstallTaskName; npmInstallTaskLabel]
                 else DependsOnTask npmInstallTaskLabel) |};
      {| type := "shell"; label := Some npmInstallTaskLabel; command := "npm install";
         problemMatcher := None; isBackground := None; dependsOn := None |};
      {| type := "shell"; label := Some npmPruneTaskLabel;
         command := "npm prune --production";
         problemMatcher := Some (Matchers []); isBackground := None;
         dependsOn :=
           if requiresFuncExtensionsInstall (super this)
           then Some (DependsOnTask extInstallTaskName) else None |} ].
End Step.
End JavaScriptInitVSCode.

(** * Notions used in the further statements *)

Module FunctionCreateNotions.
Import FunctionCreate.

(** What [fse.readFile(path).toString()] gives in a world; [None] when the
    file does not exist. *)
Definition fileText (formatJson : json -> string) (w : World) (path : string)
    : option string :=
  match files w !! path with
  | Some (RawText s) => Some s
  | Some (JsonDoc j) => Some (formatJson j)
  | Some Directory | None => None
  end.

(** The events that a run has added to those of [w]. *)
Definition addedEvents (w w' : World) : list Event :=
  drop (length (events w)) (events w').

(** A path that exists and cannot be read as a file. *)
Definition unreadable (w : World) (path : string) : Prop :=
  files w !! path = Some Directory.

(** The file at a path holds a text that includes [command]. *)
Definition holdsCommand (formatJson : json -> string) (command : string)
    (w : World) (path : string) : Prop :=
  exists text, fileText formatJson w path = Some text /\ includes text command = true.

Definition isPostFunctionCreate (ev : Event) : bool :=
  match ev with PostFunctionCreateSteps _ => true | _ => false end.

(** Whether [verifyExtensionBundle] can work on what the host-configuration
    file holds: a JSON object or array. *)
Definition patchable (d : option FileData) : bool :=
  match d with
  | Some (JsonDoc (JObj _)) | Some (JsonDoc (JArr _)) => true
  | _ => false
  end.

(** The error that [verifyExtensionBundle] throws for an inner error. *)
Definition failedToParse (hostFileName inner : string) : JsError :=
  {| message := "Failed to parse " +:+ hostFileName +:+ ": " +:+ inner;
     isUserCancelledError := false |}.

(** The world once [execute] has set its telemetry properties and reported
    its progress. *)
Definition reported (ctx : IFunctionWizardContext) (t : IFunctionTemplate) (w : World) : World :=
  add_event (ProgressReport ("Creating new " +:+ Template.name t +:+ "..."))
    (set_property "templateId" (TvString (Template.id t))
       (set_property "projectRuntime" (TvRuntime (runtime ctx))
          (set_property "projectLanguage" (TvLanguage (language ctx)) w))).

End FunctionCreateNotions.

Module FunctionListNotions.
Import FunctionList.

(** The strings of ASCII characters: on them [toLowerCase] is the
    [toLowerCase] of the host, which also folds letters outside ASCII. *)
Fixpoint isAscii (s : string) : bool :=
  match s with
  | EmptyString => true
  | String c rest => (nat_of_ascii c <? 128) && isAscii rest
  end.

(** The trigger setting that the loop of [getSubWizard] leaves under the
    property [k]: the last one whose key is [k] in lower case. *)
Definition lastSetting (settings : list (string * option string)) (k : string)
    : option (option string) :=
  (fun hit : nat * (string * option string) => hit.2.2) <$>
  list_find (fun kv => toLowerCase kv.1 = k) (reverse settings).
End FunctionListNotions.

Module UploadNotions.
Import UploadAppSettings.

Definition isDecrypt (c : Call) : bool :=
  match c with DecryptLocalSettings _ => true | _ => false end.

Definition isEncrypt (c : Call) : bool :=
  match c with EncryptLocalSettings _ => true | _ => false end.

Definition isPick (c : Call) : bool :=
  match c with ShowTreeItemPicker => true | _ => false end.

Definition isRead (c : Call) : bool :=
  match c with ReadJson _ => true | _ => false end.

(** The calls that reach the function app in Azure. *)
Definition isRemote (c : Call) : bool :=
  match c with
  | ListApplicationSettings | ConfirmOverwriteSettings | UpdateApplicationSettings _ => true
  | _ => false
  end.

(** The target of the upload: the node that was passed in, or else the one
    the user picks. *)
Definition target (env : Collaborators) (node : option AppSettingsTreeItem)
    : Result AppSettingsTreeItem :=
  match node with Some n => Ok n | None => showTreeItemPicker env end.

Definition noSettingsFound (localSettingsFileName : string) : JsError :=
  {| message := "No settings found in " +:+ dquote +:+ localSettingsFileName +:+
                dquote +:+ ".";
     isUserCancelledError := false |}.
End UploadNotions.

Module ProviderNotions.
Import FunctionAppProvider.

(** The suggestion to turn on advanced creation, and its consequence. *)
Definition isAdvice (e : Effect) : bool :=
  match e with
  | ShowWarningMessage _ _ | UpdateGlobalSetting _ _ => true
  | ShowCreatingTreeItem _ => false
  end.

(** The effects that a run has added to those of [st]. *)
Definition addedEffects (st st' : State) : list Effect :=
  drop (length (effects st)) (effects st').
End ProviderNotions.

Module FunctionListPromptNotions.
Import FunctionList FunctionListPrompt.

(** The step may persist a change of the template filter: the project is
    open in a workspace. *)
Definition mayPersist (this : FunctionListStep) (wizardContext : IFunctionWizardContext)
    : bool :=
  negb (_isProjectWizard this) ||
  bool_decide (get_property wizardContext "openBehavior" = Some "AlreadyOpen").

(** Two contexts that differ at most in the template. *)
Definition same_project (c c1 : IFunctionWizardContext) : Prop :=
  language c1 = language c /\ projectPath c1 = projectPath c /\
  otherProperties c1 = otherProperties c.

Definition skipped : PropertyValue := PvString "skipForNow".

Section Offered.
Variable localeCompare : string -> string -> Z.
Variable Array_sort :
  (IFunctionTemplate -> IFunctionTemplate -> Z) -> list IFunctionTemplate ->
  list IFunctionTemplate.
Variable templateProviderTask : Result unit.
Variable getTemplates :
  string -> string -> string -> TemplateFilter -> Result (list IFunctionTemplate).

(** The templates that the catalog offers for a context under a filter, as
    the list step shows them. *)
Definition offered (ctx : IFunctionWizardContext) (f : TemplateFilter)
    (t : IFunctionTemplate) : Prop :=
  exists lang rt templates,
    language ctx = Some lang /\ get_property ctx "runtime" = Some rt /\
    getTemplates lang rt (projectPath ctx) f = Ok templates /\
    t ∈ Array_sort (fun a b => sortTemplates localeCompare a b f) templates.

(** What a run of the loop leaves, by the number of answers at hand. *)
Definition loop_spec (this : FunctionListStep) (answers : list nat)
    (f : TemplateFilter) (st : PromptState) : Prop :=
  let r := (promptLoop localeCompare Array_sort templateProviderTask getTemplates this answers f st).1 in
  let st1 := (promptLoop localeCompare Array_sort templateProviderTask getTemplates this answers f st).2 in
  same_project (wizardContext st) (wizardContext st1) /\
  (is_Some (functionTemplate (wizardContext st)) ->
   promptLoop localeCompare Array_sort templateProviderTask getTemplates this answers f st
     = (Ok f, st)) /\
  (mayPersist this (wizardContext st) = false ->
   templateFilterSetting st1 = templateFilterSetting st) /\
  (forall f', r = Ok f' ->
     (mayPersist this (wizardContext st) = true ->
      (f' = f /\ templateFilterSetting st1 = templateFilterSetting st) \/
      templateFilterSetting st1 = Some f') /\
     match functionTemplate (wizardContext st1) with
     | Some t =>
         functionTemplate (wizardContext st) = Some t \/
         exists f0, offered (wizardContext st) f0 t
     | None =>
         _isProjectWizard this = true /\
         properties st1 !! "templateId" = Some skipped
     end).

End Offered.
End FunctionListPromptNotions.

Module DotnetNotions.
Import DotnetFunctionCreate.

(** The arguments that name one binding setting: none when the setting has
    no value. *)
Definition settingArgs (wrapArgInQuotes : string -> string)
    (getBindingSetting : IDotnetFunctionWizardContext -> IBindingSetting -> option string)
    (wizardContext : IDotnetFunctionWizardContext) (setting : IBindingSetting)
    : list string :=
  match getBindingSetting wizardContext setting with
  | Some value => ["--arg:" +:+ Template.settingName setting; wrapArgInQuotes value]
  | None => []
  end.

(** The context has the four properties that [executeCore] requires. *)
Definition complete (wizardContext : IDotnetFunctionWizardContext) : bool :=
  bool_decide (is_Some (functionTemplate wizardContext)) &&
  bool_decide (is_Some (functionName wizardContext)) &&
  bool_decide (is_Some (namespace wizardContext)) &&
  bool_decide (is_Some (runtime wizardContext)).
End DotnetNotions.

Module ProjectNotions.
Import JavaScriptInitVSCode.

(** The labels of the tasks that a task depends on. *)
Definition dependencies (task : TaskDefinition) : list string :=
  match dependsOn task with
  | Some (DependsOnTask l) => [l]
  | Some (DependsOnTasks ls) => ls
  | None => []
  end.
End ProjectNotions.

(** ** Further concrete projects *)

Module SampleMore.
Import FunctionCreate.

(** A project whose host configuration already names a bundle. *)
Definition bundled : World :=
  {| files := {[ "/proj/host.json" :=
                   JsonDoc (JObj [("version", JStr "2.0");
                                  ("extensionBundle", defaultExtensionBundle)]) ]};
     globalState := ∅; lastUpdate := ∅; timers := []; clock := 0; hostRun := 0;
     properties := ∅; events := [] |}.

(** A folder without a host configuration. *)
Definition bare : World :=
  {| files := ∅;
     globalState := ∅; lastUpdate := ∅; timers := []; clock := 0; hostRun := 0;
     properties := ∅; events := [] |}.

(** An old project whose settings file holds the install command, and in
    which [tasks.json] is a directory. *)
Definition tasksFolder : World :=
  {| files := {[ "/proj/.vscode/tasks.json" := Directory;
                 "/proj/.vscode/settings.json" :=
                   RawText "{ preDeployTask: func extensions install }" ]};
     globalState := ∅; lastUpdate := ∅; timers := []; clock := 0; hostRun := 0;
     properties := ∅; events := [] |}.
End SampleMore.

Module SampleList.
Import FunctionAppList.

Definition app (n : string) : Site := {| name := Some n; isFunctionApp := true |}.
Definition web (n : string) : Site := {| name := Some n; isFunctionApp := false |}.

(** Two pages of sites. *)
Definition firstPage : WebAppCollection :=
  {| value := [app "orders"; web "shop"]; nextLink := Some "page-2" |}.
Definition secondPage : WebAppCollection :=
  {| value := [app "billing"]; nextLink := None |}.

Definition notRegistered : JsError :=
  {| message := "The subscription is not registered to use namespace 'Microsoft.Web'.";
     isUserCancelledError := false |}.

(** A host in which the items are the names of the function apps, and a site
    that cannot be made is left out. *)
Definition items (sites : list Site) (create : Site -> Result (option string))
    (label : Site -> option string) : Result (list string) :=
  Ok (omap (fun s => match create s with Ok (Some i) => Some i | _ => None end) sites).

Definition load := loadMoreChildrenImpl string (Ok firstPage)
  (fun _ => Ok secondPage) (fun _ => "") (fun s => Ok (default "" (name s))) items.

(** The provider is not registered in the subscription. *)
Definition loadUnregistered := loadMoreChildrenImpl string (Throw notRegistered)
  (fun _ => Throw notRegistered) (fun _ => "NotFound")
  (fun s => Ok (default "" (name s))) items.
End SampleList.

Module SampleWizards.
Import FunctionList.

(** The list step of a function wizard with one trigger setting. *)
Definition listStep : FunctionListStep :=
  {| _triggerSettings := [("queueName", Some "orders")]; _isProjectWizard := false |}.

(** A JavaScript project on which a queue trigger is being created. *)
Definition queueProject : IFunctionWizardContext :=
  {| functionTemplate := Some Sample.queueTemplate; language := Some "JavaScript";
     projectPath := "/proj"; otherProperties := ∅ |}.

(** The create steps can be made; the project has no storage connection. *)
Definition subWizard := getSubWizard ProjectLanguage (Ok tt) (Ok tt) (fun _ => Ok None).

(** A settings file that is not encrypted and has no [Values]. *)
Definition emptyUpload : UploadAppSettings.Collaborators :=
  {| UploadAppSettings.getLocalSettingsFile := Ok "/proj/local.settings.json";
     UploadAppSettings.showTreeItemPicker :=
       Ok {| UploadAppSettings.client_fullName := "myapp" |};
     UploadAppSettings.readJson_first :=
       Ok {| UploadAppSettings.IsEncrypted := Some false;
             UploadAppSettings.Values := None |};
     UploadAppSettings.decryptLocalSettings := Ok tt;
     UploadAppSettings.readJson_second :=
       Ok {| UploadAppSettings.IsEncrypted := Some false;
             UploadAppSettings.Values := None |};
     UploadAppSettings.encryptLocalSettings := Ok tt;
     UploadAppSettings.listApplicationSettings := Ok None;
     UploadAppSettings.confirmOverwriteSettings := fun values _ => Ok values;
     UploadAppSettings.updateApplicationSettings := Ok tt |}.

(** A quick creation whose execute phase makes the site. *)
Definition made (c : FunctionAppProvider.IAppServiceWizardContext)
    : FunctionAppProvider.IAppServiceWizardContext :=
  {| FunctionAppProvider.newResourceGroupName := FunctionAppProvider.newResourceGroupName c;
     FunctionAppProvider.newStorageAccountName := FunctionAppProvider.newStorageAccountName c;
     FunctionAppProvider.useConsumptionPlan := FunctionAppProvider.useConsumptionPlan c;
     FunctionAppProvider.newSiteOS := FunctionAppProvider.newSiteOS c;
     FunctionAppProvider.newSiteRuntime := FunctionAppProvider.newSiteRuntime c;
     FunctionAppProvider.location := FunctionAppProvider.location c;
     FunctionAppProvider.newSiteName := FunctionAppProvider.newSiteName c;
     FunctionAppProvider.relatedNameTask := FunctionAppProvider.relatedNameTask c;
     FunctionAppProvider.site := Some {| FunctionAppProvider.siteName := "myapp" |} |}.

Definition createMade := FunctionAppProvider.createChildImpl ProjectLanguage "azureFunctions"
  "projectLanguage" "projectRuntime" (fun _ => None) (fun _ => None) (fun _ => None)
  (fun _ => Some "node") (Ok (Some v2)) (fun _ c => (Ok tt, c))
  (fun _ c => (Ok tt, SampleApp.named c)) (fun _ c => (Ok tt, made c))
  (fun _ btn => Some btn) (fun s => Ok (FunctionAppProvider.siteName s)).

(** A function wizard on a JavaScript project of runtime ["~2"], with no
    template chosen and no filter persisted; the catalog offers two
    templates under every filter, and the host's sort keeps their order. *)
Definition unchosen : FunctionListPrompt.PromptState :=
  {| FunctionListPrompt.wizardContext :=
       {| functionTemplate := None; language := Some "JavaScript";
          projectPath := "/proj";
          otherProperties := {[ "runtime" := Some "~2" ]} |};
     FunctionListPrompt.templateFilterSetting := None;
     FunctionListPrompt.properties := ∅ |}.

Definition catalog (language runtime projectPath : string) (f : TemplateFilter)
    : Result (list IFunctionTemplate) :=
  Ok [Sample.httpTemplate; Sample.queueTemplate].

Definition prompt := FunctionListPrompt.prompt FunctionListDefs.alphabetical
  (fun _ templates => templates) (Ok tt) catalog.
End SampleWizards.

(** * Properties *)

Module MonadFacts.
Lemma bind_assoc {S A B C} (m : M S A) (f : A -> M S B) (g : B -> M S C) s :
  ((m ≫= f) ≫= g) s = (m ≫= (fun a => f a ≫= g)) s.
Proof. unfold mbind, M_bind. by destruct (m s) as [[a|e] s1]. Qed.

Lemma bind_ext {S A B} (m : M S A) (f g : A -> M S B) s :
  (forall a s1, f a s1 = g a s1) -> (m ≫= f) s = (m ≫= g) s.
Proof. intros Hfg. unfold mbind, M_bind. destruct (m s) as [[a|e] s1]; [apply Hfg | done]. Qed.
End MonadFacts.

Module AppSettingsFacts.
Import AppSettings AppSettingsDefs.

Lemma pushEntries_app acc feed : pushEntries acc feed = acc ++ feedEntries feed.
Proof.
  unfold pushEntries, feedEntries.
  generalize (map_to_list feed). intros l. revert acc.
  induction l as [|kv l IH]; intros acc; simpl.
  - by rewrite app_nil_r.
  - rewrite IH. unfold push. by rewrite <- app_assoc.
Qed.

Lemma createFunctionAppSettings_split L get context rt lang feed :
  get rt = Ok feed ->
  createFunctionAppSettings L get context rt lang =
    Ok (feedEntries feed ++ ownSettings L context rt lang).
Proof.
  intros Hfeed. unfold createFunctionAppSettings, ownSettings. rewrite Hfeed.
  rewrite pushEntries_app. simpl. f_equal. unfold push.
  destruct (decide (rt = v1)), (decide (os context = "windows")),
    (runtime context) as [r|]; try destruct (truthy_string r);
    destruct (negb _ && negb _); simpl;
    rewrite <- ?app_assoc; reflexivity.
Qed.

Lemma names_feedEntries feed : names (feedEntries feed) = (map_to_list feed).*1.
Proof.
  unfold names, feedEntries. rewrite map_map. reflexivity.
Qed.

Lemma length_feedEntries feed : length (feedEntries feed) = size feed.
Proof. unfold feedEntries. rewrite length_map. by rewrite length_map_to_list. Qed.

Lemma elem_of_names_feedEntries feed k :
  k ∈ names (feedEntries feed) <-> is_Some (feed !! k).
Proof.
  rewrite names_feedEntries. rewrite list_elem_of_fmap. split.
  - intros [[k' v] [-> Hin]]. apply elem_of_map_to_list in Hin. eauto.
  - intros [v Hv]. exists (k, v). split; [done|]. by apply elem_of_map_to_list.
Qed.

Lemma names_ownSettings_builderKeys L context rt lang k :
  k ∈ names (ownSettings L context rt lang) -> k ∈ builderKeys.
Proof.
  unfold ownSettings, names, builderKeys.
  destruct (decide (rt = v1)), (decide (os context = "windows")),
    (runtime context) as [r|]; try destruct (truthy_string r);
    destruct (negb _ && negb _); simpl; intros Hk;
    repeat (apply elem_of_cons in Hk as [-> | Hk]);
    try (by apply elem_of_nil in Hk);
    apply (bool_decide_unpack _); vm_compute; reflexivity.
Qed.

Lemma NoDup_names_ownSettings L context rt lang :
  NoDup (names (ownSettings L context rt lang)).
Proof.
  unfold ownSettings, names.
  destruct (decide (rt = v1)), (decide (os context = "windows")),
    (runtime context) as [r|]; try destruct (truthy_string r);
    destruct (negb _ && negb _); simpl;
    apply (bool_decide_unpack _); vm_compute; reflexivity.
Qed.


(** C4, as stated, does not hold for every base settings map: when the feed's
    map already defines [AzureWebJobsStorage], the list that
    [createFunctionAppSettings] returns names that key twice. *)
Lemma createFunctionAppSettings_duplicate_key :
  exists out,
    createFunctionAppSettings ProjectLanguage
      (fun _ => Ok {[ "AzureWebJobsStorage" := "UseDevelopmentStorage=true" ]})
      {| storageConnectionString := "conn"; fileShareName := "share";
         os := "linux"; runtime := None |} v2 (Some "JavaScript") = Ok out /\
    ~ NoDup (names out).
Proof.
  eexists. split; [vm_compute; reflexivity|].
  intros Hnd. apply NoDup_cons in Hnd as [Hnotin _].
  apply Hnotin. apply list_elem_of_singleton. reflexivity.
Qed.

(** C4, amended: for every project language, runtime and OS, and every base
    settings map of the feed that defines none of the six keys the builder
    sets of its own, the list that [createFunctionAppSettings] returns
    contains no two entries with the same name. *)
Theorem createFunctionAppSettings_distinct_keys L get context rt lang feed :
  get rt = Ok feed ->
  (forall k, k ∈ builderKeys -> feed !! k = None) ->
  exists out,
    createFunctionAppSettings L get context rt lang = Ok out /\
    NoDup (names out).
Proof.
  intros Hfeed Hfresh. eexists. split.
  { by apply createFunctionAppSettings_split. }
  unfold names. rewrite map_app. apply NoDup_app. split; [|split].
  - fold (names (feedEntries feed)). rewrite names_feedEntries.
    apply NoDup_fst_map_to_list.
  - intros k Hk Hown.
    apply elem_of_names_feedEntries in Hk as [v Hv].
    apply names_ownSettings_builderKeys in Hown.
    rewrite (Hfresh k Hown) in Hv. discriminate.
  - apply NoDup_names_ownSettings.
Qed.

(** The amended C4 on a Windows app of the legacy runtime. *)
Lemma createFunctionAppSettings_distinct_keys_witness :
  exists out,
    createFunctionAppSettings ProjectLanguage
      (fun _ => Ok {[ "FUNCTIONS_EXTENSION_VERSION" := "~1" ]})
      {| storageConnectionString := "conn"; fileShareName := "share";
         os := "windows"; runtime := Some "node" |} v1 (Some "JavaScript") = Ok out /\
    NoDup (names out).
Proof.
  apply (createFunctionAppSettings_distinct_keys ProjectLanguage _ _ v1 _
           {[ "FUNCTIONS_EXTENSION_VERSION" := "~1" ]}).
  - reflexivity.
  - intros k Hk. apply lookup_singleton_ne. intros <-.
    revert Hk. apply (bool_decide_unpack _). vm_compute. reflexivity.
Defined.

(** Membership of a concrete name in a concrete list of names. *)
Ltac decide_elem :=
  match goal with
  | H : _ ∈ _ |- _ =>
      exfalso; revert H; apply (bool_decide_unpack _); vm_compute; reflexivity
  | |- _ ∈ _ => apply (bool_decide_unpack _); vm_compute; reflexivity
  end.

Ltac own_cases ctx rt :=
  unfold ownSettings, names;
  destruct (decide (rt = v1)), (decide (os ctx = "windows")),
    (runtime ctx) as [r|]; try destruct (truthy_string r);
  destruct (negb _ && negb _) eqn:Hpkg; simpl.

Lemma dashboard_in_ownSettings L ctx rt lang :
  "AzureWebJobsDashboard" ∈ names (ownSettings L ctx rt lang) <-> rt = v1.
Proof.
  own_cases ctx rt; (split; [intros Hin | intros Heq]);
    try done; decide_elem.
Qed.

Lemma contentShare_in_ownSettings L ctx rt lang :
  "WEBSITE_CONTENTSHARE" ∈ names (ownSettings L ctx rt lang) <->
  os ctx = "windows".
Proof.
  own_cases ctx rt; (split; [intros Hin | intros Heq]);
    try done; decide_elem.
Qed.

Lemma contentConnection_in_ownSettings L ctx rt lang :
  "WEBSITE_CONTENTAZUREFILECONNECTIONSTRING" ∈ names (ownSettings L ctx rt lang) <->
  os ctx = "windows".
Proof.
  own_cases ctx rt; (split; [intros Hin | intros Heq]);
    try done; decide_elem.
Qed.

Lemma runFromPackage_guard L ctx rt lang :
  negb (bool_decide (os ctx = "linux")) &&
  negb (bool_decide (lang = Some (CSharpScript L)) && bool_decide (rt = v1)) = true
  <-> runFromPackageApplies L ctx rt lang.
Proof.
  unfold runFromPackageApplies.
  rewrite andb_true_iff, !negb_true_iff, andb_false_iff.
  rewrite !bool_decide_eq_false. split.
  - intros [Hos Hne]. split; [done|]. intros [Hl Hr]. destruct Hne; contradiction.
  - intros [Hos Hne]. split; [done|].
    destruct (decide (lang = Some (CSharpScript L))); [|by left].
    right. intros Hr. apply Hne. done.
Qed.

Lemma runFromPackage_name_in_ownSettings L ctx rt lang :
  "WEBSITE_RUN_FROM_PACKAGE" ∈ names (ownSettings L ctx rt lang) <->
  runFromPackageApplies L ctx rt lang.
Proof.
  rewrite <- runFromPackage_guard.
  own_cases ctx rt; (split; [intros Hin | intros Heq]);
    try done; decide_elem.
Qed.

Lemma runFromPackage_in_ownSettings L ctx rt lang :
  runFromPackage ∈ ownSettings L ctx rt lang <->
  runFromPackageApplies L ctx rt lang.
Proof.
  rewrite <- runFromPackage_name_in_ownSettings. split.
  - intros Hin. unfold names. apply list_elem_of_fmap. by exists runFromPackage.
  - rewrite runFromPackage_name_in_ownSettings, <- runFromPackage_guard.
    intros Hg. unfold ownSettings. rewrite Hg.
    rewrite !elem_of_app. do 4 right. by apply list_elem_of_singleton.
Qed.

Lemma names_app (l k : list NameValuePair) : names (l ++ k) = names l ++ names k.
Proof. apply map_app. Qed.

Lemma not_in_feedEntries feed k : feed !! k = None -> k ∉ names (feedEntries feed).
Proof.
  intros Hk Hin. apply elem_of_names_feedEntries in Hin as [v Hv]. congruence.
Qed.

(** C5, as stated, does not hold for every input: a base settings map of the
    feed that defines [WEBSITE_CONTENTSHARE] makes that key appear in the
    output of a Linux app. *)
Lemma createFunctionAppSettings_feed_key_on_linux :
  exists out,
    createFunctionAppSettings ProjectLanguage
      (fun _ => Ok {[ "WEBSITE_CONTENTSHARE" := "share-of-the-feed" ]})
      {| storageConnectionString := "conn"; fileShareName := "share";
         os := "linux"; runtime := None |} v2 (Some "Python") = Ok out /\
    "WEBSITE_CONTENTSHARE" ∈ names out.
Proof.
  eexists. split; [vm_compute; reflexivity|]. decide_elem.
Qed.

(** C5, amended: when the feed's base settings map defines none of the three
    keys, the two Windows-specific file-share settings appear in the output
    if and only if the OS is "windows", and the legacy dashboard key appears
    if and only if the runtime is v1; it then carries the value of the
    storage connection string, as [AzureWebJobsStorage] does. *)
Theorem createFunctionAppSettings_windows_and_dashboard
    L get ctx rt lang feed :
  get rt = Ok feed ->
  feed !! "WEBSITE_CONTENTAZUREFILECONNECTIONSTRING" = None ->
  feed !! "WEBSITE_CONTENTSHARE" = None ->
  feed !! "AzureWebJobsDashboard" = None ->
  exists out,
    createFunctionAppSettings L get ctx rt lang = Ok out /\
    ("WEBSITE_CONTENTAZUREFILECONNECTIONSTRING" ∈ names out <-> os ctx = "windows") /\
    ("WEBSITE_CONTENTSHARE" ∈ names out <-> os ctx = "windows") /\
    ("AzureWebJobsDashboard" ∈ names out <-> rt = v1) /\
    (rt = v1 ->
     {| name := "AzureWebJobsDashboard"; value := storageConnectionString ctx |} ∈ out /\
     {| name := "AzureWebJobsStorage"; value := storageConnectionString ctx |} ∈ out).
Proof.
  intros Hfeed Hconn Hshare Hdash. eexists. split.
  { by apply createFunctionAppSettings_split. }
  rewrite names_app, !elem_of_app.
  pose proof (not_in_feedEntries _ _ Hconn).
  pose proof (not_in_feedEntries _ _ Hshare).
  pose proof (not_in_feedEntries _ _ Hdash).
  rewrite (contentConnection_in_ownSettings L ctx rt lang).
  rewrite (contentShare_in_ownSettings L ctx rt lang).
  rewrite (dashboard_in_ownSettings L ctx rt lang).
  repeat split; try tauto.
  - right. unfold ownSettings. rewrite decide_True by done.
    rewrite !elem_of_app. right. left. by apply list_elem_of_singleton.
  - right. unfold ownSettings.
    rewrite !elem_of_app. left. by apply list_elem_of_singleton.
Qed.

(** The amended C5 on a Windows app of the legacy runtime. *)
Lemma createFunctionAppSettings_windows_and_dashboard_witness :
  exists out,
    createFunctionAppSettings ProjectLanguage
      (fun _ => Ok {[ "FUNCTIONS_EXTENSION_VERSION" := "~1" ]})
      {| storageConnectionString := "conn"; fileShareName := "share";
         os := "windows"; runtime := Some "node" |} v1 (Some "JavaScript") = Ok out /\
    ("WEBSITE_CONTENTAZUREFILECONNECTIONSTRING" ∈ names out <-> "windows" = "windows") /\
    ("WEBSITE_CONTENTSHARE" ∈ names out <-> "windows" = "windows") /\
    ("AzureWebJobsDashboard" ∈ names out <-> v1 = v1) /\
    (v1 = v1 ->
     {| name := "AzureWebJobsDashboard"; value := "conn" |} ∈ out /\
     {| name := "AzureWebJobsStorage"; value := "conn" |} ∈ out).
Proof.
  apply (createFunctionAppSettings_windows_and_dashboard ProjectLanguage _
           {| storageConnectionString := "conn"; fileShareName := "share";
              os := "windows"; runtime := Some "node" |} v1 _
           {[ "FUNCTIONS_EXTENSION_VERSION" := "~1" ]});
    [reflexivity | by apply lookup_singleton_ne ..].
Defined.

(** C6: the builder adds [WEBSITE_RUN_FROM_PACKAGE = '1'] unless the OS is
    "linux" or the language is C# script and the runtime is v1: the entry,
    and its key, are among the settings added after the feed's entries exactly
    then.  In particular, when the OS is not "linux", the key is not added if
    and only if the language is C# script and the runtime is v1. *)
Theorem createFunctionAppSettings_run_from_package L get ctx rt lang feed :
  get rt = Ok feed ->
  exists out,
    createFunctionAppSettings L get ctx rt lang = Ok out /\
    (runFromPackage ∈ addedSettings feed out <->
     os ctx ≠ "linux" /\ ~ (lang = Some (CSharpScript L) /\ rt = v1)) /\
    ("WEBSITE_RUN_FROM_PACKAGE" ∈ names (addedSettings feed out) <->
     os ctx ≠ "linux" /\ ~ (lang = Some (CSharpScript L) /\ rt = v1)) /\
    (os ctx ≠ "linux" ->
     "WEBSITE_RUN_FROM_PACKAGE" ∉ names (addedSettings feed out) <->
     lang = Some (CSharpScript L) /\ rt = v1).
Proof.
  intros Hfeed. eexists. split.
  { by apply createFunctionAppSettings_split. }
  unfold addedSettings. rewrite <- length_feedEntries, drop_app_length.
  rewrite runFromPackage_in_ownSettings, runFromPackage_name_in_ownSettings.
  unfold runFromPackageApplies. split; [tauto|]. split; [tauto|].
  intros Hos.
  destruct (decide (lang = Some (CSharpScript L))), (decide (rt = v1)); tauto.
Qed.

(** C6 on the one combination that is excluded on Windows. *)
Lemma createFunctionAppSettings_run_from_package_witness :
  exists out,
    createFunctionAppSettings ProjectLanguage
      (fun _ => Ok {[ "FUNCTIONS_EXTENSION_VERSION" := "~1" ]})
      {| storageConnectionString := "conn"; fileShareName := "share";
         os := "windows"; runtime := Some "dotnet" |} v1 (Some "C#Script") = Ok out /\
    (runFromPackage ∈ addedSettings {[ "FUNCTIONS_EXTENSION_VERSION" := "~1" ]} out <->
     "windows" ≠ "linux" /\ ~ (Some "C#Script" = Some "C#Script" /\ v1 = v1)) /\
    ("WEBSITE_RUN_FROM_PACKAGE" ∈
       names (addedSettings {[ "FUNCTIONS_EXTENSION_VERSION" := "~1" ]} out) <->
     "windows" ≠ "linux" /\ ~ (Some "C#Script" = Some "C#Script" /\ v1 = v1)) /\
    ("windows" ≠ "linux" ->
     "WEBSITE_RUN_FROM_PACKAGE" ∉
       names (addedSettings {[ "FUNCTIONS_EXTENSION_VERSION" := "~1" ]} out) <->
     Some "C#Script" = Some "C#Script" /\ v1 = v1).
Proof.
  apply (createFunctionAppSettings_run_from_package ProjectLanguage _
           {| storageConnectionString := "conn"; fileShareName := "share";
              os := "windows"; runtime := Some "dotnet" |} v1 (Some "C#Script")
           {[ "FUNCTIONS_EXTENSION_VERSION" := "~1" ]}).
  reflexivity.
Defined.
End AppSettingsFacts.

Module FunctionCreateFacts.
Import FunctionCreate FunctionCreateDefs MonadFacts.

Lemma same_host_refl w : same_host w w.
Proof. repeat split. exists []. by rewrite app_nil_r. Qed.

Lemma same_host_trans w1 w2 w3 : same_host w1 w2 -> same_host w2 w3 -> same_host w1 w3.
Proof.
  unfold same_host. intros (?&?&?&?&?&evs1&He1) (?&?&?&?&?&evs2&He2).
  repeat split; try congruence.
  exists (evs1 ++ evs2). rewrite He2, He1. by rewrite app_assoc.
Qed.

Lemma Frame_ret {A} (a : A) : Frame (mret a).
Proof. intros w. apply same_host_refl. Qed.

Lemma Frame_throw {A} e : Frame (@throw World A e).
Proof. intros w. apply same_host_refl. Qed.

Lemma Frame_bind {A B} (m : M World A) (f : A -> M World B) :
  Frame m -> (forall a, Frame (f a)) -> Frame (m ≫= f).
Proof.
  intros Hm Hf w. unfold mbind, M_bind. specialize (Hm w).
  destruct (m w) as [[a|e] w1]; simpl in *; [|done].
  eapply same_host_trans; [exact Hm | apply Hf].
Qed.

Lemma Frame_try_catch {A} (m : M World A) h :
  Frame m -> (forall e, Frame (h e)) -> Frame (try_catch m h).
Proof.
  intros Hm Hh w. unfold try_catch. specialize (Hm w).
  destruct (m w) as [[a|e] w1]; simpl in *; [done|].
  eapply same_host_trans; [exact Hm | apply Hh].
Qed.

Lemma Frame_when b (m : M World unit) : Frame m -> Frame (when b m).
Proof. intros Hm. destruct b; [done | apply Frame_ret]. Qed.

Lemma Frame_nonNullProp {A} (o : option A) n : Frame (nonNullProp o n).
Proof. destruct o; [apply Frame_ret | apply Frame_throw]. Qed.

Lemma Frame_setProperty k v : Frame (setProperty k v).
Proof. intros w. repeat split. exists []. simpl. by rewrite app_nil_r. Qed.

Lemma Frame_emit ev : Frame (emit ev).
Proof. intros w. repeat split. by exists [ev]. Qed.

Lemma Frame_readJSON p : Frame (readJSON p).
Proof.
  intros w. unfold readJSON.
  destruct (files w !! p) as [[?|?|]|]; apply same_host_refl.
Qed.

Lemma Frame_pathExists p : Frame (pathExists p).
Proof. intros w. apply same_host_refl. Qed.

Lemma Frame_openTextDocument p : Frame (openTextDocument p).
Proof.
  intros w. unfold openTextDocument.
  destruct (files w !! p) as [[?|?|]|]; apply same_host_refl.
Qed.

Lemma Frame_writeFormattedJson p j : Frame (writeFormattedJson p j).
Proof. intros w. repeat split. by exists [WriteFormattedJson p]. Qed.

Lemma Frame_get_extensionBundle j : Frame (get_extensionBundle j).
Proof. destruct j; first [apply Frame_ret | apply Frame_throw]. Qed.

Lemma Frame_set_extensionBundle j v : Frame (set_extensionBundle j v).
Proof. destruct j; first [apply Frame_ret | apply Frame_throw]. Qed.

Create HintDb frame discriminated.
#[local] Hint Resolve Frame_ret Frame_throw Frame_when Frame_nonNullProp
  Frame_setProperty Frame_emit Frame_readJSON Frame_pathExists Frame_openTextDocument
  Frame_writeFormattedJson Frame_get_extensionBundle Frame_set_extensionBundle : frame.

Ltac frame :=
  repeat first
    [ solve [eauto with frame]
    | apply Frame_bind; [|intros ?]
    | apply Frame_try_catch; [|intros ?]
    | match goal with |- Frame (if ?b then _ else _) => destruct b end
    | match goal with |- Frame (match ?o with _ => _ end) => destruct o end ].

Lemma obj_get_set fields k v : obj_get (obj_set fields k v) k = Some v.
Proof.
  induction fields as [|[k0 v0] fields IH]; simpl.
  - by rewrite decide_True.
  - destruct (decide (k0 = k)) as [->|Hne]; simpl.
    + by rewrite decide_True.
    + by rewrite decide_False.
Qed.

Lemma obj_set_fresh_once fields k v :
  obj_get fields k = None ->
  length (filter (fun kv => kv.1 = k) (obj_set fields k v)) = 1.
Proof.
  induction fields as [|[k0 v0] fields IH]; simpl; intros Hget.
  - rewrite filter_cons_True by done. reflexivity.
  - destruct (decide (k0 = k)) as [->|Hne]; [discriminate|].
    rewrite filter_cons_False by done. by apply IH.
Qed.

Section Facts.
Variable L : ProjectLanguageEnum.
Variables hostFileName tasksFileName settingsFileName : string.
Variables vscodeFolderName extInstallCommand : string.
Variable path_join : list string -> string.
Variable formatJson : json -> string.
Variable getContainingWorkspace : string -> bool.
Variable executeCore : IFunctionWizardContext -> gmap string FileData ->
                       Result string * gmap string FileData.
Variable callThrows : string -> option JsError.

Local Abbreviation verify := (verifyExtensionBundle hostFileName path_join).
Local Abbreviation exec :=
  (execute L hostFileName tasksFileName settingsFileName vscodeFolderName
     extInstallCommand path_join formatJson getContainingWorkspace executeCore
     callThrows).
Local Abbreviation scaf :=
  (scaffold L hostFileName tasksFileName settingsFileName vscodeFolderName
     extInstallCommand path_join formatJson executeCore).
Local Abbreviation post := (runPostFunctionCreateSteps getContainingWorkspace callThrows).
Local Abbreviation recover :=
  (runPostFunctionCreateStepsFromCache getContainingWorkspace callThrows).

Lemma Frame_run_executeCore ctx : Frame (run_executeCore executeCore ctx).
Proof.
  intros w. unfold run_executeCore.
  destruct (executeCore ctx (files w)) as [r fs]. repeat split.
  exists []. simpl. by rewrite app_nil_r.
Qed.

Lemma Frame_readFile_toString p : Frame (readFile_toString formatJson p).
Proof.
  intros w. unfold readFile_toString.
  destruct (files w !! p) as [[?|?|]|]; apply same_host_refl.
Qed.

Lemma Frame_verifyExtensionBundle ctx : Frame (verify ctx).
Proof. unfold verifyExtensionBundle. frame. Qed.

Lemma Frame_usesExtInstall ctx fs :
  Frame (usesExtInstall vscodeFolderName extInstallCommand path_join formatJson ctx fs).
Proof.
  induction fs as [|f fs IH]; simpl; [apply Frame_ret|].
  apply Frame_bind; [apply Frame_pathExists|]. intros [|]; [|exact IH].
  apply Frame_bind; [apply Frame_readFile_toString|]. intros contents.
  destruct (includes _ _); [apply Frame_ret | exact IH].
Qed.

Lemma Frame_shouldUseExtensionBundle ctx t :
  Frame (shouldUseExtensionBundle L tasksFileName settingsFileName vscodeFolderName
           extInstallCommand path_join formatJson ctx t).
Proof.
  unfold shouldUseExtensionBundle.
  destruct (_ || _); [apply Frame_ret|].
  apply Frame_try_catch; [|intros; apply Frame_ret].
  apply Frame_bind; [apply Frame_usesExtInstall | intros; apply Frame_ret].
Qed.

Lemma Frame_scaffold ctx : Frame (scaf ctx).
Proof.
  unfold scaffold.
  pose proof Frame_run_executeCore. pose proof Frame_shouldUseExtensionBundle.
  pose proof Frame_verifyExtensionBundle.
  frame.
Qed.

Lemma Frame_post func : Frame (post func).
Proof.
  unfold runPostFunctionCreateSteps, callWithTelemetryAndErrorHandling. frame.
  apply Frame_when. frame.
Qed.

Lemma execute_split ctx w :
  exec ctx w = (scaf ctx ≫= cacheAndRun getContainingWorkspace callThrows ctx) w.
Proof.
  unfold execute, scaffold.
  repeat (rewrite bind_assoc; apply bind_ext; intros ? ?).
  reflexivity.
Qed.

(** C8: on a host-configuration file that holds an object without the
    [extensionBundle] field, [verifyExtensionBundle] writes the file once,
    with the field set, exactly once, to the fixed id and version range and
    every other field kept; run again on the file it has patched, it
    succeeds, writes nothing and leaves the whole state as it is. *)
Theorem verifyExtensionBundle_idempotent ctx w fields :
  let hostFilePath := path_join [projectPath ctx; hostFileName] in
  files w !! hostFilePath = Some (JsonDoc (JObj fields)) ->
  obj_get fields "extensionBundle" = None ->
  exists w1 fields1,
    verify ctx w = (Ok tt, w1) /\
    files w1 = <[hostFilePath := JsonDoc (JObj fields1)]> (files w) /\
    obj_get fields1 "extensionBundle" =
      Some (JObj [("id", JStr "Microsoft.Azure.Functions.ExtensionBundle");
                  ("version", JStr "[1.*, 2.0.0)")]) /\
    length (filter (fun kv => kv.1 = "extensionBundle") fields1) = 1 /\
    (forall k, k ≠ "extensionBundle" -> obj_get fields1 k = obj_get fields k) /\
    events w1 = events w ++ [WriteFormattedJson hostFilePath] /\
    verify ctx w1 = (Ok tt, w1).
Proof.
  intros hostFilePath Hfile Hmissing.
  eexists _, (obj_set fields "extensionBundle" defaultExtensionBundle).
  split.
  { unfold verifyExtensionBundle, try_catch, mbind, M_bind, readJSON.
    fold hostFilePath. rewrite Hfile. simpl. rewrite Hmissing. simpl.
    reflexivity. }
  split; [reflexivity|]. split; [apply obj_get_set|].
  split; [by apply obj_set_fresh_once|].
  split.
  { intros k Hk. clear Hmissing Hfile.
    induction fields as [|[k0 v0] fields IH]; simpl.
    - by rewrite decide_False.
    - destruct (decide (k0 = "extensionBundle")) as [->|Hne]; simpl.
      + by rewrite !decide_False by done.
      + destruct (decide (k0 = k)); [done | apply IH]. }
  split; [reflexivity|].
  unfold verifyExtensionBundle, try_catch, mbind, M_bind, readJSON.
  fold hostFilePath. simpl. rewrite lookup_insert_eq. simpl.
  rewrite obj_get_set. simpl. reflexivity.
Qed.

Lemma post_spec func w :
  exists r evs w',
    post func w = (r, w') /\
    events w' = events w ++ PostFunctionCreateSteps func :: evs /\
    globalState w' = globalState w /\ lastUpdate w' = lastUpdate w /\
    timers w' = timers w /\ clock w' = clock w /\ hostRun w' = hostRun w.
Proof.
  unfold runPostFunctionCreateSteps, callWithTelemetryAndErrorHandling,
    mbind, M_bind, try_catch. simpl.
  destruct (callThrows _) as [e|]; simpl.
  { eexists _, [], _. split; [reflexivity|]. by repeat split. }
  destruct (getContainingWorkspace _); simpl.
  - destruct (bool_decide _); simpl.
    + unfold openTextDocument. simpl.
      destruct (files w !! Cached.newFilePath func) as [[?|?|]|]; simpl.
      1,2: eexists _, [_], _; split; [reflexivity|]; simpl;
           rewrite <- app_assoc; by repeat split.
      all: eexists _, [], _; split; [reflexivity|]; by repeat split.
    + eexists _, [], _. split; [reflexivity|]. by repeat split.
  - eexists _, [], _. split; [reflexivity|]. by repeat split.
Qed.

(** C2, amended: [execute] persists the record (and sets the timer that
    clears it) only if the open behavior is non-empty: with an empty open
    behavior the durable store and the timers are left as they were.  The
    post-creation step is run immediately in both cases: whenever the record
    was stored the step has been run on it as well, and a run that completes
    has run the step, on the record it has stored when the open behavior is
    non-empty. *)
Theorem execute_caches_and_runs_post_step ctx w :
  exists r w',
    exec ctx w = (r, w') /\
    (truthy_opt_string (openBehavior ctx) = false ->
     globalState w' = globalState w /\ timers w' = timers w) /\
    (timers w' ≠ timers w ->
     truthy_opt_string (openBehavior ctx) = true /\
     exists func evs,
       globalState w' !! cacheKey = Some func /\
       events w' = events w ++ evs /\ PostFunctionCreateSteps func ∈ evs) /\
    (r = Ok tt ->
     exists func evs,
       events w' = events w ++ evs /\ PostFunctionCreateSteps func ∈ evs /\
       (truthy_opt_string (openBehavior ctx) = true ->
        globalState w' = <[cacheKey := func]> (globalState w) /\
        timers w' = timers w ++
          [{| due := (clock w + 5000)%N; callback := ClearGlobalState cacheKey |}])).
Proof.
  rewrite execute_split. unfold mbind at 1. unfold M_bind.
  pose proof (Frame_scaffold ctx w) as Hframe.
  destruct (scaf ctx w) as [[func|e] w1]; simpl in Hframe.
  2:{ destruct Hframe as (Hgs & _ & Htm & _).
      eexists _, _. split; [reflexivity|]. repeat split; try done. }
  destruct Hframe as (Hgs & Hlu & Htm & Hck & Hrun & evs1 & Hev).
  unfold cacheAndRun, mbind, M_bind.
  destruct (truthy_opt_string (openBehavior ctx)) eqn:Hopen; simpl.
  - match goal with |- context [post func ?w2] =>
      destruct (post_spec func w2) as (r & evs & w' & Hpost & Hev' & Hgs' & _ & Htm' & _)
    end.
    rewrite Hpost. simpl in *. exists r, w'. split; [reflexivity|].
    split; [done|]. split.
    + intros _. split; [done|]. exists func, (evs1 ++ PostFunctionCreateSteps func :: evs).
      rewrite Hgs', Hev', Hev, <- app_assoc.
      split; [apply lookup_insert_eq|]. split; [done|].
      apply elem_of_app. right. apply list_elem_of_here.
    + intros _. exists func, (evs1 ++ PostFunctionCreateSteps func :: evs).
      rewrite Hev', Hev, <- app_assoc. split; [done|].
      split; [apply elem_of_app; right; apply list_elem_of_here|].
      intros _. rewrite Hgs', Htm', Hgs, Htm, Hck. done.
  - destruct (post_spec func w1) as (r & evs & w' & Hpost & Hev' & Hgs' & _ & Htm' & _).
    rewrite Hpost. exists r, w'. split; [reflexivity|].
    split; [intros _; split; congruence|]. split.
    + intros Hne. exfalso. apply Hne. congruence.
    + intros _. exists func, (evs1 ++ PostFunctionCreateSteps func :: evs).
      rewrite Hev', Hev, <- app_assoc. split; [done|].
      split; [apply elem_of_app; right; apply list_elem_of_here|]. done.
Qed.

Local Abbreviation step :=
  (runStep L hostFileName tasksFileName settingsFileName vscodeFolderName
     extInstallCommand path_join formatJson getContainingWorkspace executeCore
     callThrows).
Local Abbreviation runSteps :=
  (run L hostFileName tasksFileName settingsFileName vscodeFolderName
     extInstallCommand path_join formatJson getContainingWorkspace executeCore
     callThrows).

Lemma host_invariant_same_host w w1 :
  same_host w w1 -> host_invariant w -> host_invariant w1.
Proof.
  intros (Hgs & Hlu & Htm & Hck & Hrun & _) [Hp Hf].
  unfold host_invariant, timers_pending, cache_fresh.
  rewrite Hgs, Hlu, Htm, Hck, Hrun. done.
Qed.

Lemma recover_clears w : globalState (recover w).2 !! cacheKey = None.
Proof.
  unfold runPostFunctionCreateStepsFromCache, mbind, M_bind, globalState_get.
  simpl. destruct (globalState w !! cacheKey) as [func|] eqn:Hget; simpl; [|done].
  unfold try_finally.
  destruct (post_spec func w) as (r & evs & w' & Hpost & _).
  rewrite Hpost. simpl. apply lookup_delete_eq.
Qed.

Lemma recover_host w :
  timers (recover w).2 = timers w /\ clock (recover w).2 = clock w.
Proof.
  unfold runPostFunctionCreateStepsFromCache, mbind, M_bind, globalState_get.
  simpl. destruct (globalState w !! cacheKey) as [func|]; simpl; [|done].
  unfold try_finally.
  destruct (post_spec func w) as (r & evs & w' & Hpost & _ & _ & _ & Htm & Hck & _).
  rewrite Hpost. simpl. done.
Qed.

Lemma fire_all_keeps (l : list Timer) w k func :
  let w' := foldl (fun w0 t => (fire (callback t) w0).2) w l in
  globalState w' !! k = Some func ->
  (forall tm, tm ∈ l -> callback tm ≠ ClearGlobalState k) /\
  globalState w !! k = Some func /\ lastUpdate w' !! k = lastUpdate w !! k.
Proof.
  revert w. induction l as [|tm l IH]; intros w; simpl.
  - intros Hget. split; [|done]. intros tm Hin. by apply elem_of_nil in Hin.
  - intros Hget. apply IH in Hget as (Hl & Hget & Hlu).
    destruct tm as [d [key]]. simpl in *.
    apply lookup_delete_Some in Hget as [Hne Hget].
    rewrite lookup_insert_ne in Hlu by done.
    split; [|done]. intros tm [->|Hin]%elem_of_cons; [|by apply Hl].
    simpl. congruence.
Qed.

Lemma fire_all_host (l : list Timer) w :
  let w' := foldl (fun w0 t => (fire (callback t) w0).2) w l in
  timers w' = timers w /\ clock w' = clock w /\ hostRun w' = hostRun w.
Proof.
  revert w. induction l as [|tm l IH]; intros w; simpl; [done|].
  destruct (IH (fire (callback tm) w).2) as (-> & -> & ->).
  by destruct tm as [d [key]].
Qed.

Lemma host_invariant_step w s : host_invariant w -> host_invariant (step w s).
Proof.
  intros [Hp Hf]. destruct s as [ctx|ms| |]; simpl.
  - (* Execute *)
    rewrite execute_split. unfold mbind at 1. unfold M_bind.
    pose proof (Frame_scaffold ctx w) as Hframe.
    destruct (scaf ctx w) as [[func|e] w1]; simpl in Hframe;
      pose proof (host_invariant_same_host _ _ Hframe (conj Hp Hf)) as [Hp1 Hf1];
      [|done].
    unfold cacheAndRun, mbind, M_bind.
    destruct (truthy_opt_string (openBehavior ctx)); simpl.
    + match goal with |- context [post func ?w2] =>
        destruct (post_spec func w2) as (r & evs & w' & -> & _ & Hgs & Hlu & Htm & Hck & Hrun)
      end.
      simpl in *. unfold host_invariant, timers_pending, cache_fresh.
      rewrite Hgs, Hlu, Htm, Hck, Hrun. split.
      * apply Forall_app. split; [done|]. apply Forall_singleton. simpl. lia.
      * intros f _. exists (clock w1), (hostRun w1).
        split; [apply lookup_insert_eq|]. split; [lia|]. split; [lia|].
        intros _. eexists. split; [apply elem_of_app; right; apply list_elem_of_here|].
        simpl. split; [done|lia].
    + destruct (post_spec func w1) as (r & evs & w' & -> & _ & Hgs & Hlu & Htm & Hck & Hrun).
      simpl. unfold host_invariant, timers_pending, cache_fresh.
      rewrite Hgs, Hlu, Htm, Hck, Hrun. done.
  - (* Elapse *)
    unfold elapse.
    set (now := (clock w + ms)%N).
    set (dueNow := filter (fun t => (due t <= now)%N) (timers w)).
    set (later := filter (fun t => (now < due t)%N) (timers w)).
    set (w0 := set_timers (fun _ => later) (set_clock now w)).
    destruct (fire_all_host dueNow w0) as (Htm & Hck & Hrun).
    unfold host_invariant, timers_pending, cache_fresh.
    rewrite Htm, Hck, Hrun. simpl. split.
    + apply Forall_forall. intros tm Hin.
      apply list_elem_of_filter in Hin as [Hlt _]. exact Hlt.
    + intros func Hget.
      apply fire_all_keeps in Hget as (Hnone & Hget & Hlu).
      simpl in Hget. destruct (Hf func Hget) as (t & h & Hstamp & Ht & Hh & Htimer).
      exists t, h. rewrite Hlu. simpl. split; [done|]. split; [lia|]. split; [done|].
      intros Heq. destruct (Htimer Heq) as (tm & Hin & Hcb & Hdue).
      exists tm. split; [|done].
      apply list_elem_of_filter. split; [|done].
      destruct (decide (due tm <= now)%N) as [Hle|Hgt]; [|lia].
      exfalso. apply (Hnone tm); [|done].
      apply list_elem_of_filter. done.
  - (* RecoverFromCache *)
    destruct (recover_host w) as [Htm Hck]. split.
    + unfold timers_pending. rewrite Htm, Hck. done.
    + intros func Hget. rewrite recover_clears in Hget. discriminate.
  - (* StopHost *)
    split; [apply Forall_nil_2|].
    intros func Hget. simpl in *.
    destruct (Hf func Hget) as (t & h & Hstamp & Ht & Hh & _).
    exists t, h. split; [done|]. split; [done|]. split; [lia|]. lia.
Qed.

Lemma host_invariant_run steps w : host_invariant w -> host_invariant (runSteps steps w).
Proof.
  revert w. induction steps as [|s steps IH]; intros w Hinv; simpl; [done|].
  apply IH. by apply host_invariant_step.
Qed.

Lemma stored_in_run_step n w s :
  s ≠ StopHost -> stored_in_run n w -> stored_in_run n (step w s).
Proof.
  intros Hs [Hn Hst]. destruct s as [ctx|ms| |]; simpl; [| | |done].
  - rewrite execute_split. unfold mbind at 1. unfold M_bind.
    pose proof (Frame_scaffold ctx w) as Hframe.
    destruct (scaf ctx w) as [[func|e] w1]; simpl in Hframe;
      destruct Hframe as (Hgs & Hlu & _ & _ & Hrun & _).
    2:{ unfold stored_in_run. simpl. split; [congruence|]. rewrite Hgs, Hlu. done. }
    unfold cacheAndRun, mbind, M_bind, stored_in_run.
    destruct (truthy_opt_string (openBehavior ctx)); simpl.
    + match goal with |- context [post func ?w2] =>
        destruct (post_spec func w2) as (r & evs & w' & -> & _ & Hgs' & Hlu' & _ & _ & Hrun')
      end.
      simpl in *. split; [congruence|]. intros f _. rewrite Hlu'.
      exists (clock w1). rewrite lookup_insert_eq. congruence.
    + destruct (post_spec func w1) as (r & evs & w' & -> & _ & Hgs' & Hlu' & _ & _ & Hrun').
      simpl. split; [congruence|]. rewrite Hgs', Hlu', Hgs, Hlu. done.
  - unfold elapse.
    match goal with |- stored_in_run n (foldl _ ?w0 ?l) =>
      destruct (fire_all_host l w0) as (_ & _ & Hrun); split; [by rewrite Hrun|];
      intros func Hget; apply fire_all_keeps in Hget as (_ & Hget & Hlu)
    end.
    rewrite Hlu. simpl in *. by apply (Hst func).
  - split.
    + unfold runPostFunctionCreateStepsFromCache, mbind, M_bind, globalState_get.
      simpl. destruct (globalState w !! cacheKey) as [func|]; simpl; [|done].
      unfold try_finally.
      destruct (post_spec func w) as (r & evs & w' & -> & _ & _ & _ & _ & _ & Hrun).
      simpl. congruence.
    + intros func Hget. rewrite recover_clears in Hget. discriminate.
Qed.

Lemma stored_in_run_steps n steps w :
  StopHost ∉ steps -> stored_in_run n w -> stored_in_run n (runSteps steps w).
Proof.
  revert w. induction steps as [|s steps IH]; intros w Hno Hst; simpl; [done|].
  apply not_elem_of_cons in Hno as [Hs Hno].
  apply IH; [done|]. apply stored_in_run_step; [congruence | done].
Qed.

(** C3, amended: after any sequence of create steps, passing time, cache
    recoveries and host stops, a record found in the durable store was stored
    at a time [t] that is less than 5000 ms ago, as long as the extension
    host that stored it is still the one that runs; this is the case in
    every sequence without a host stop.  The cache-recovery consumer leaves
    no record behind, also when the post-creation call throws. *)
Theorem cached_record_cleared_within_5_seconds steps w0 :
  globalState w0 !! cacheKey = None ->
  Forall (fun tm => (clock w0 < due tm)%N) (timers w0) ->
  let w := runSteps steps w0 in
  (forall func, globalState w !! cacheKey = Some func ->
     exists t h, lastUpdate w !! cacheKey = Some (t, h) /\
       (t <= clock w)%N /\
       (h = hostRun w -> (clock w < t + 5000)%N) /\
       (StopHost ∉ steps -> h = hostRun w)) /\
  globalState (step w RecoverFromCache) !! cacheKey = None.
Proof.
  intros Hempty Htimers w.
  assert (host_invariant w) as [Hp Hf].
  { apply host_invariant_run. split; [done|].
    intros func Hget. congruence. }
  split; [|apply recover_clears].
  intros func Hget. destruct (Hf func Hget) as (t & h & Hstamp & Ht & Hh & Htimer).
  exists t, h. split; [done|]. split; [done|]. split.
  - intros Heq. destruct (Htimer Heq) as (tm & Hin & _ & Hdue).
    unfold timers_pending in Hp. rewrite Forall_forall in Hp.
    specialize (Hp tm Hin). lia.
  - intros Hno.
    destruct (stored_in_run_steps (hostRun w0) steps w0 Hno) as [Hrun Hst].
    { split; [done|]. intros f Hf0. congruence. }
    destruct (Hst func Hget) as (t' & Hstamp'). subst w. congruence.
Qed.
End Facts.

(** C2, as stated, does not hold: storing the record and running the
    post-creation step immediately are not exclusive.  With the open
    behavior that [createNewProject] sets for [openFolder = false], one run
    of [execute] stores the record, sets the timer and runs the step. *)
Lemma execute_stores_and_runs_post_step :
  exists w',
    Sample.execute Sample.dontOpenContext Sample.project = (Ok tt, w') /\
    globalState w' !! cacheKey = Some Sample.cachedHttpTrigger /\
    timers w' = [{| due := 5000; callback := ClearGlobalState cacheKey |}] /\
    PostFunctionCreateSteps Sample.cachedHttpTrigger ∈ events w'.
Proof.
  eexists. split; [vm_compute; reflexivity|].
  split; [vm_compute; reflexivity|]. split; [reflexivity|].
  apply list_elem_of_lookup. exists 1. reflexivity.
Qed.

(** The amended C2 on a run without open behavior. *)
Lemma execute_caches_and_runs_post_step_witness :
  exists r w',
    Sample.execute Sample.queueContext Sample.project = (r, w') /\
    globalState w' = globalState Sample.project /\
    timers w' = timers Sample.project.
Proof.
  destruct (execute_caches_and_runs_post_step ProjectLanguage "host.json" "tasks.json"
              "settings.json" ".vscode" "func extensions install" Sample.join
              (fun _ => "") (fun _ => true) Sample.writeIndexJs (fun _ => None)
              Sample.queueContext Sample.project) as (r & w' & Hrun & Hempty & _).
  exists r, w'. split; [exact Hrun|]. apply Hempty. reflexivity.
Defined.

(** C3, as stated, does not hold: the timer lives in the extension host.
    When the host stops after the record was stored and no consumer reads
    it, the record is still in the durable store 6 seconds later. *)
Lemma cached_record_outlives_stopped_host :
  let w := Sample.run [Execute Sample.dontOpenContext; StopHost; Elapse 6000]
             Sample.project in
  globalState w !! cacheKey = Some Sample.cachedHttpTrigger /\
  lastUpdate w !! cacheKey = Some (0%N, 0) /\
  clock w = 6000%N.
Proof. vm_compute. done. Qed.

(** The amended C3 on two create steps, 4999 ms apart. *)
Lemma cached_record_cleared_within_5_seconds_witness :
  let w := Sample.run [Execute Sample.dontOpenContext; Elapse 4999;
                       Execute Sample.queueContext; Elapse 1] Sample.project in
  (forall func, globalState w !! cacheKey = Some func ->
     exists t h, lastUpdate w !! cacheKey = Some (t, h) /\
       (t <= clock w)%N /\
       (h = hostRun w -> (clock w < t + 5000)%N) /\
       (StopHost ∉ [Execute Sample.dontOpenContext; Elapse 4999;
                    Execute Sample.queueContext; Elapse 1] -> h = hostRun w)) /\
  globalState
    (runStep ProjectLanguage "host.json" "tasks.json" "settings.json" ".vscode"
       "func extensions install" Sample.join (fun _ => "") (fun _ => true)
       Sample.writeIndexJs (fun _ => None) w RecoverFromCache) !! cacheKey = None.
Proof.
  apply (cached_record_cleared_within_5_seconds ProjectLanguage "host.json"
           "tasks.json" "settings.json" ".vscode" "func extensions install"
           Sample.join (fun _ => "") (fun _ => true) Sample.writeIndexJs (fun _ => None)
           [Execute Sample.dontOpenContext; Elapse 4999;
            Execute Sample.queueContext; Elapse 1] Sample.project).
  - reflexivity.
  - apply Forall_nil_2.
Defined.

(** C8 on a project whose host.json only gives the version. *)
Lemma verifyExtensionBundle_idempotent_witness :
  exists w1 fields1,
    verifyExtensionBundle "host.json" Sample.join Sample.queueContext Sample.project
      = (Ok tt, w1) /\
    files w1 = <["/proj/host.json" := JsonDoc (JObj fields1)]> (files Sample.project) /\
    obj_get fields1 "extensionBundle" =
      Some (JObj [("id", JStr "Microsoft.Azure.Functions.ExtensionBundle");
                  ("version", JStr "[1.*, 2.0.0)")]) /\
    length (filter (fun kv => kv.1 = "extensionBundle") fields1) = 1 /\
    (forall k, k ≠ "extensionBundle" -> obj_get fields1 k = obj_get [("version", JStr "2.0")] k) /\
    events w1 = events Sample.project ++ [WriteFormattedJson "/proj/host.json"] /\
    verifyExtensionBundle "host.json" Sample.join Sample.queueContext w1 = (Ok tt, w1).
Proof.
  apply (verifyExtensionBundle_idempotent "host.json" Sample.join Sample.queueContext
           Sample.project [("version", JStr "2.0")]).
  - reflexivity.
  - reflexivity.
Defined.
End FunctionCreateFacts.

Module FunctionListFacts.
Import FunctionList FunctionListDefs.

Lemma append_cons c (w r : string) : String c w +:+ r = String c (w +:+ r).
Proof. reflexivity. Qed.

Lemma append_nil (r : string) : "" +:+ r = r.
Proof. reflexivity. Qed.

Lemma matchIgnoreCase_spec literal s rest :
  matchIgnoreCase literal s = Some rest <->
  exists word, s = word +:+ rest /\ toLowerCase word = literal.
Proof.
  revert s. induction literal as [|p literal IH]; intros s; simpl.
  - split.
    + intros [= ->]. by exists "".
    + intros (word & -> & Hw). destruct word; [done|discriminate].
  - destruct s as [|c s].
    + split; [done|]. intros (word & Hs & Hw).
      destruct word; simpl in *; discriminate.
    + destruct (decide (ascii_toLowerCase c = p)) as [<-|Hne].
      * rewrite IH. split.
        -- intros (word & -> & <-). by exists (String c word).
        -- intros (word & Hs & Hw). destruct word as [|c' word]; [discriminate|].
           rewrite append_cons in Hs. simpl in Hw.
           injection Hs as -> ->. injection Hw as Hw. by exists word.
      * split; [done|]. intros (word & Hs & Hw).
        destruct word as [|c' word]; [discriminate|].
        rewrite append_cons in Hs. simpl in Hw.
        injection Hs as -> ->. injection Hw as Hc _. done.
Qed.

Lemma regExp_matchAt_spec s :
  regExp_matchAt s = true <->
  exists word after, s = word +:+ after /\ toLowerCase word = "httptrigger" /\
    (after = "" \/ exists c rest, after = String c rest /\ is_ascii_letter c = false).
Proof.
  unfold regExp_matchAt.
  destruct (matchIgnoreCase "httptrigger" s) as [after|] eqn:Hm.
  - apply matchIgnoreCase_spec in Hm as (word & -> & Hw). split.
    + intros Ht. exists word, after. split; [done|]. split; [done|].
      destruct after as [|c rest]; [by left|]. right. exists c, rest.
      split; [done|]. by apply negb_true_iff.
    + intros (word' & after' & Heq & Hw' & Hafter).
      assert (word' = word /\ after' = after) as [-> ->].
      { clear Hafter. revert word' Hw' Heq. rewrite <- Hw. clear Hw.
        induction word as [|c word IH]; intros [|c' word'] Hw' Heq;
          rewrite ?append_cons, ?append_nil in Heq; simpl in Hw';
          try discriminate; [done|].
        injection Heq as -> Heq. injection Hw' as Hw'.
        destruct (IH word' Hw' Heq) as [-> ->]. done. }
      destruct Hafter as [->|(c & rest & -> & Hc)]; [done|]. by rewrite Hc.
  - split; [done|]. intros (word & after & -> & Hw & _).
    assert (matchIgnoreCase "httptrigger" (word +:+ after) = Some after) as Hsome.
    { apply matchIgnoreCase_spec. by exists word. }
    congruence.
Qed.

Lemma regExp_test_unfold s :
  regExp_test s =
  regExp_matchAt s ||
  match s with EmptyString => false | String _ rest => regExp_test rest end.
Proof. by destruct s. Qed.

Lemma regExp_test_spec s : regExp_test s = true <-> matchesHttpTrigger s.
Proof.
  unfold matchesHttpTrigger. induction s as [|c s IH]; rewrite regExp_test_unfold.
  - rewrite orb_false_r, regExp_matchAt_spec. split.
    + intros (word & after & Hs & Hw & Ha). by exists "", word, after.
    + intros (before & word & after & Hs & Hw & Ha).
      destruct before; [|discriminate]. by exists word, after.
  - rewrite orb_true_iff, IH, regExp_matchAt_spec. split.
    + intros [(word & after & Hs & Hw & Ha)|(before & word & after & Hs & Hw & Ha)].
      * by exists "", word, after.
      * exists (String c before), word, after. rewrite append_cons. by rewrite Hs.
    + intros (before & word & after & Hs & Hw & Ha).
      destruct before as [|c' before].
      * left. by exists word, after.
      * rewrite append_cons in Hs. injection Hs as -> ->.
        right. by exists before, word, after.
Qed.

(** C7, as stated, does not hold.  The id "HttpTriggerCSharp" does not match
    the pattern (the trigger word is followed by the letter C), so a template
    of that id does not sort before "TimerTrigger" when its name sorts after;
    and of two templates whose ids both match, the first argument is put
    first whatever the names are. *)
Lemma sortTemplates_example_not_first :
  regExp_test "HttpTriggerCSharp" = false /\
  sortTemplates alphabetical (template "HttpTriggerCSharp" "Webhook")
    (template "TimerTrigger" "Timer trigger") Verified = 1%Z /\
  sortTemplates alphabetical (template "HttpTrigger" "B")
    (template "HttpTrigger-JavaScript" "A") Verified = (-1)%Z /\
  alphabetical "B" "A" = 1%Z.
Proof. repeat split. Qed.

(** C7, amended: [regExp.test] holds exactly of the ids that contain the
    trigger word, in any case, at their end or followed by something that is
    not a letter.  Under the verified filter a template whose id matches is
    put before one whose id does not, in both orders of the arguments; when
    the filter is not the verified one, or neither id matches, the result is
    that of [localeCompare] on the display names.  "HttpTrigger" matches,
    "HttpTriggerCSharp" and "TimerTrigger" do not: under the verified filter
    id "HttpTrigger" sorts before id "TimerTrigger". *)
Theorem sortTemplates_verified_http_first
    (localeCompare : string -> string -> Z) (a b : IFunctionTemplate)
    (templateFilter : TemplateFilter) :
  (forall s, regExp_test s = true <-> matchesHttpTrigger s) /\
  (templateFilter = Verified ->
   matchesHttpTrigger (Template.id a) -> ~ matchesHttpTrigger (Template.id b) ->
   sortTemplates localeCompare a b templateFilter = (-1)%Z /\
   sortTemplates localeCompare b a templateFilter = 1%Z) /\
  (templateFilter ≠ Verified \/
   (~ matchesHttpTrigger (Template.id a) /\ ~ matchesHttpTrigger (Template.id b)) ->
   sortTemplates localeCompare a b templateFilter =
     localeCompare (Template.name a) (Template.name b)) /\
  (~ matchesHttpTrigger "HttpTriggerCSharp" /\ matchesHttpTrigger "HttpTrigger" /\
   ~ matchesHttpTrigger "TimerTrigger") /\
  (Template.id a = "HttpTrigger" -> Template.id b = "TimerTrigger" ->
   sortTemplates localeCompare a b Verified = (-1)%Z).
Proof.
  split; [apply regExp_test_spec|].
  unfold sortTemplates. split; [|split; [|split]].
  - intros -> Ha Hb. apply regExp_test_spec in Ha.
    rewrite <- regExp_test_spec in Hb. apply not_true_is_false in Hb.
    rewrite decide_True by done. by rewrite Ha, Hb.
  - intros [Hf|[Ha Hb]].
    + by rewrite decide_False.
    + rewrite <- regExp_test_spec in Ha, Hb.
      apply not_true_is_false in Ha, Hb. rewrite Ha, Hb. by destruct (decide _).
  - rewrite <- !regExp_test_spec.
    split; [intros H; vm_compute in H; discriminate|].
    split; [reflexivity|]. intros H; vm_compute in H; discriminate.
  - intros -> ->. reflexivity.
Qed.

(** The amended C7 on two templates of the JavaScript catalog. *)
Lemma sortTemplates_verified_http_first_witness :
  sortTemplates alphabetical (template "HttpTrigger-JavaScript" "HTTP trigger")
    (template "QueueTrigger-JavaScript" "Azure Queue Storage trigger") Verified = (-1)%Z /\
  sortTemplates alphabetical (template "QueueTrigger-JavaScript" "Azure Queue Storage trigger")
    (template "HttpTrigger-JavaScript" "HTTP trigger") Verified = 1%Z.
Proof.
  apply (sortTemplates_verified_http_first alphabetical
           (template "HttpTrigger-JavaScript" "HTTP trigger")
           (template "QueueTrigger-JavaScript" "Azure Queue Storage trigger") Verified).
  - reflexivity.
  - apply regExp_test_spec. reflexivity.
  - rewrite <- regExp_test_spec. intros H. vm_compute in H. discriminate.
Defined.

(** C1, as stated, does not hold for every context.  The trigger settings
    are copied into the wizard context between the choice of the prompt steps
    and the choice of the create step: a trigger setting named "language"
    gives a JavaScript project the script name prompt with the Java create
    step.  And for a C# project whose .NET validation rejects, no sub-wizard
    is returned. *)
Lemma getSubWizard_script_prompt_with_java_create :
  let step := {| _triggerSettings := [("language", Some "Java")];
                 _isProjectWizard := false |} in
  let ctx := {| functionTemplate := Some Sample.httpTemplate;
                language := Some "JavaScript"; projectPath := "/proj";
                otherProperties := ∅ |} in
  (getSubWizard ProjectLanguage (Ok tt) (Ok tt) (fun _ => Ok (Some "UseDevelopmentStorage=true"))
     step ctx).1
  = Ok (Some {| promptSteps := [ScriptFunctionNameStep];
                executeSteps := [JavaFunctionCreateStep];
                title := "Create new HTTP trigger" |}) /\
  forall e,
    (getSubWizard ProjectLanguage (Ok tt) (Throw e) (fun _ => Ok None)
       {| _triggerSettings := []; _isProjectWizard := false |}
       {| functionTemplate := Some Sample.httpTemplate;
          language := Some "C#"; projectPath := "/proj"; otherProperties := ∅ |}).1
    = Throw e.
Proof. split; [vm_compute; reflexivity | intros e; reflexivity]. Qed.

Lemma copyTriggerSettings_fixed this ctx :
  functionTemplate (copyTriggerSettings this ctx) = functionTemplate ctx /\
  projectPath (copyTriggerSettings this ctx) = projectPath ctx.
Proof.
  unfold copyTriggerSettings. revert ctx.
  induction (_triggerSettings this) as [|kv l IH]; intros ctx; simpl; [done|].
  destruct (IH (set_property (toLowerCase kv.1) kv.2 ctx)) as [-> ->].
  unfold set_property. by destruct (decide _).
Qed.

Lemma copyTriggerSettings_language this ctx :
  (forall kv, kv ∈ _triggerSettings this -> toLowerCase kv.1 ≠ "language") ->
  language (copyTriggerSettings this ctx) = language ctx /\
  functionTemplate (copyTriggerSettings this ctx) = functionTemplate ctx /\
  projectPath (copyTriggerSettings this ctx) = projectPath ctx.
Proof.
  unfold copyTriggerSettings. generalize (_triggerSettings this). intros l. revert ctx.
  induction l as [|kv l IH]; intros ctx Hkeys; simpl; [done|].
  destruct (IH (set_property (toLowerCase kv.1) kv.2 ctx)) as (-> & -> & ->).
  { intros kv' Hin. apply Hkeys. by apply elem_of_cons; right. }
  unfold set_property. rewrite decide_False; [done|].
  apply Hkeys. apply list_elem_of_here.
Qed.

Section Mapping.
Variable L : ProjectLanguageEnum.
Variable javaCreateStep validateDotnetInstalled : Result unit.
Variable getAzureWebJobsStorage : string -> Result (option string).

Local Abbreviation subWizard :=
  (getSubWizard L javaCreateStep validateDotnetInstalled getAzureWebJobsStorage).

(** What [getSubWizard] returns, with the language read at each of its two
    [switch] statements: [lang] on entry, [lang'] after the trigger settings
    were copied into the context. *)
Lemma getSubWizard_steps this ctx :
  NoDup [Java L; CSharp L; FSharp L; TypeScript L] ->
  let lang := language ctx in
  let lang' := language (copyTriggerSettings this ctx) in
  let r := (subWizard this ctx).1 in
  (r = Ok None <-> functionTemplate ctx = None) /\
  (forall wiz, r = Ok (Some wiz) ->
     (lang = Some (Java L) ->
      take 2 (promptSteps wiz) = [JavaPackageNameStep; JavaFunctionNameStep]) /\
     (lang = Some (CSharp L) \/ lang = Some (FSharp L) ->
      take 2 (promptSteps wiz) = [DotnetFunctionNameStep; DotnetNamespaceStep]) /\
     (lang ≠ Some (Java L) /\ lang ≠ Some (CSharp L) /\ lang ≠ Some (FSharp L) ->
      take 1 (promptSteps wiz) = [ScriptFunctionNameStep]) /\
     (lang' = Some (Java L) ->
      head (executeSteps wiz) = Some JavaFunctionCreateStep) /\
     (lang' = Some (CSharp L) \/ lang' = Some (FSharp L) ->
      head (executeSteps wiz) = Some DotnetFunctionCreateStep) /\
     (lang' = Some (TypeScript L) ->
      head (executeSteps wiz) = Some TypeScriptFunctionCreateStep) /\
     (lang' ≠ Some (Java L) /\ lang' ≠ Some (CSharp L) /\ lang' ≠ Some (FSharp L) /\
      lang' ≠ Some (TypeScript L) ->
      head (executeSteps wiz) = Some ScriptFunctionCreateStep)) /\
  (forall t, functionTemplate ctx = Some t ->
     createStepAvailable L javaCreateStep validateDotnetInstalled lang' ->
     (Template.isHttpTrigger t = false ->
      exists s, getAzureWebJobsStorage (projectPath (copyTriggerSettings this ctx)) = Ok s) ->
     exists wiz, r = Ok (Some wiz)) /\
  ((forall kv, kv ∈ _triggerSettings this -> toLowerCase kv.1 ≠ "language") ->
   lang' = lang).
Proof.
  intros Hdistinct lang lang' r.
  assert (Java L ≠ CSharp L /\ Java L ≠ FSharp L /\ Java L ≠ TypeScript L /\
          CSharp L ≠ TypeScript L /\ FSharp L ≠ TypeScript L) as (HJC & HJF & HJT & HCT & HFT).
  { apply NoDup_cons in Hdistinct as [H1 Hd]. apply NoDup_cons in Hd as [H2 Hd].
    apply NoDup_cons in Hd as [H3 _].
    repeat (apply not_elem_of_cons in H1 as [? H1]).
    repeat (apply not_elem_of_cons in H2 as [? H2]).
    repeat (apply not_elem_of_cons in H3 as [? H3]). done. }
  split; [|split; [|split]].
  - subst r. unfold getSubWizard, mbind, M_bind. simpl.
    destruct (functionTemplate ctx) as [t|]; [|done].
    split; [|done]. intros Hr. exfalso. revert Hr.
    fold lang lang'.
    repeat match goal with
           | |- context [decide ?P] => destruct (decide P)
           end; unfold JavaFunctionCreateStep_createStep,
             DotnetFunctionCreateStep_createStep, mbind, M_bind, await;
      try destruct javaCreateStep as [[]|]; try destruct validateDotnetInstalled as [[]|];
      simpl; try discriminate;
      (destruct (Template.isHttpTrigger t); simpl; [discriminate|]);
      unfold mbind, M_bind, await;
      (destruct (getAzureWebJobsStorage _) as [s|]; simpl; discriminate).
  - intros wiz Hr. subst r. revert Hr.
    unfold getSubWizard, mbind, M_bind. simpl.
    destruct (functionTemplate ctx) as [t|]; [|discriminate].
    fold lang lang'.
    repeat match goal with
           | |- context [decide ?P] => destruct (decide P)
           end; unfold JavaFunctionCreateStep_createStep,
             DotnetFunctionCreateStep_createStep, mbind, M_bind, await;
      try destruct javaCreateStep as [[]|]; try destruct validateDotnetInstalled as [[]|];
      simpl; try discriminate;
      (destruct (Template.isHttpTrigger t); simpl;
       [|unfold mbind, M_bind, await;
         destruct (getAzureWebJobsStorage _) as [s|]; simpl; [|discriminate];
         destruct (negb (truthy_opt_string s))]);
      intros [= <-]; simpl;
      repeat split; intros; try reflexivity; exfalso;
      repeat match goal with
             | H : _ \/ _ |- _ => destruct H
             | H : _ /\ _ |- _ => destruct H
             end; try congruence; tauto.
  - intros t Ht [Hjava Hdotnet] Hstorage. subst r.
    unfold getSubWizard, mbind, M_bind. simpl. rewrite Ht.
    fold lang lang'.
    repeat match goal with
           | |- context [decide ?P] => destruct (decide P)
           end; unfold JavaFunctionCreateStep_createStep,
             DotnetFunctionCreateStep_createStep, mbind, M_bind, await;
      rewrite ?Hjava, ?Hdotnet by (done || tauto); simpl;
      (destruct (Template.isHttpTrigger t); simpl; [by eexists|]);
      (destruct Hstorage as [s Hs]; [done|]);
      unfold mbind, M_bind, await; rewrite Hs; simpl; by eexists.
  - intros Hkeys. by apply copyTriggerSettings_language.
Qed.

(** The wizard that is returned, in full: [lang] is the language read by
    the first [switch], [lang'] the one read by the second. *)
Lemma getSubWizard_exact this ctx t wiz :
  NoDup [Java L; CSharp L; FSharp L; TypeScript L] ->
  functionTemplate ctx = Some t ->
  (subWizard this ctx).1 = Ok (Some wiz) ->
  let lang := language ctx in
  let lang' := language (copyTriggerSettings this ctx) in
  exists nameSteps createStep (needsStorage : bool),
    promptSteps wiz =
      nameSteps ++ map BindingSettingStep (Template.userPromptedSettings t) ++
      (if needsStorage then [AzureWebJobsStoragePromptStep] else []) /\
    executeSteps wiz =
      createStep :: (if needsStorage then [AzureWebJobsStorageExecuteStep] else []) /\
    title wiz = "Create new " +:+ Template.name t /\
    ((lang = Some (Java L) -> nameSteps = [JavaPackageNameStep; JavaFunctionNameStep]) /\
     (lang = Some (CSharp L) \/ lang = Some (FSharp L) ->
      nameSteps = [DotnetFunctionNameStep; DotnetNamespaceStep]) /\
     (lang ≠ Some (Java L) /\ lang ≠ Some (CSharp L) /\ lang ≠ Some (FSharp L) ->
      nameSteps = [ScriptFunctionNameStep])) /\
    ((lang' = Some (Java L) -> createStep = JavaFunctionCreateStep) /\
     (lang' = Some (CSharp L) \/ lang' = Some (FSharp L) ->
      createStep = DotnetFunctionCreateStep) /\
     (lang' = Some (TypeScript L) -> createStep = TypeScriptFunctionCreateStep) /\
     (lang' ≠ Some (Java L) /\ lang' ≠ Some (CSharp L) /\ lang' ≠ Some (FSharp L) /\
      lang' ≠ Some (TypeScript L) -> createStep = ScriptFunctionCreateStep)) /\
    (needsStorage = true <->
     Template.isHttpTrigger t = false /\
     exists s, getAzureWebJobsStorage (projectPath ctx) = Ok s /\
               truthy_opt_string s = false).
Proof.
  intros Hdistinct Ht Hrun lang lang'. revert Hrun.
  assert (Java L ≠ CSharp L /\ Java L ≠ FSharp L /\ Java L ≠ TypeScript L /\
          CSharp L ≠ TypeScript L /\ FSharp L ≠ TypeScript L) as (HJC & HJF & HJT & HCT & HFT).
  { apply NoDup_cons in Hdistinct as [H1 Hd]. apply NoDup_cons in Hd as [H2 Hd].
    apply NoDup_cons in Hd as [H3 _].
    repeat (apply not_elem_of_cons in H1 as [? H1]).
    repeat (apply not_elem_of_cons in H2 as [? H2]).
    repeat (apply not_elem_of_cons in H3 as [? H3]). done. }
  unfold getSubWizard, mbind, M_bind, getState, modifyState.
  cbv beta iota. rewrite Ht. cbv beta iota zeta.
  rewrite (proj2 (copyTriggerSettings_fixed this ctx)).
  set (ctx' := copyTriggerSettings this ctx). fold lang. fold ctx' in lang'. fold lang'.
  match goal with
  | |- context [addBindingSettingSteps _ ?ns] =>
      assert (Hns :
        (lang = Some (Java L) -> ns = [JavaPackageNameStep; JavaFunctionNameStep]) /\
        (lang = Some (CSharp L) \/ lang = Some (FSharp L) ->
         ns = [DotnetFunctionNameStep; DotnetNamespaceStep]) /\
        (lang ≠ Some (Java L) /\ lang ≠ Some (CSharp L) /\ lang ≠ Some (FSharp L) ->
         ns = [ScriptFunctionNameStep]))
        by (repeat destruct (decide _); repeat split; intros; try reflexivity; exfalso;
            repeat match goal with
                   | H : _ \/ _ |- _ => destruct H
                   | H : _ /\ _ |- _ => destruct H
                   end; try congruence; tauto);
      generalize dependent ns; intros nameSteps Hns
  end.
  match goal with
  | |- context [(if decide (lang' = Some (Java L)) then ?a else ?b) ctx'] =>
      assert (Hcs : exists r, (if decide (lang' = Some (Java L)) then a else b) ctx'
                                = (r, ctx') /\
                    forall c, r = Ok c ->
                      (lang' = Some (Java L) -> c = JavaFunctionCreateStep) /\
                      (lang' = Some (CSharp L) \/ lang' = Some (FSharp L) ->
                       c = DotnetFunctionCreateStep) /\
                      (lang' = Some (TypeScript L) -> c = TypeScriptFunctionCreateStep) /\
                      (lang' ≠ Some (Java L) /\ lang' ≠ Some (CSharp L) /\
                       lang' ≠ Some (FSharp L) /\ lang' ≠ Some (TypeScript L) ->
                       c = ScriptFunctionCreateStep));
      [|destruct Hcs as (r & -> & Hcs)]
  end.
  { unfold JavaFunctionCreateStep_createStep, DotnetFunctionCreateStep_createStep,
      mbind, M_bind, await, mret, M_ret.
    repeat destruct (decide _);
      try destruct javaCreateStep as [[]|]; try destruct validateDotnetInstalled as [[]|];
      eexists; (split; [reflexivity|]); intros c Hc; inversion Hc; subst;
      repeat split; intros; try reflexivity; exfalso;
      repeat match goal with
             | H : _ \/ _ |- _ => destruct H
             | H : _ /\ _ |- _ => destruct H
             end; try congruence; tauto. }
  destruct r as [createStep|e]; [|discriminate].
  specialize (Hcs createStep eq_refl).
  unfold await, mret, M_ret.
  destruct (Template.isHttpTrigger t).
  - cbn [fst]. intros Hr. injection Hr as <-. cbn [promptSteps executeSteps title].
    exists nameSteps, createStep, false. unfold addBindingSettingSteps.
    rewrite app_nil_r.
    do 3 (split; [done|]). split; [exact Hns|]. split; [exact Hcs|].
    split; [done|]. intros [? _]. discriminate.
  - destruct (getAzureWebJobsStorage (projectPath ctx)) as [s|e]; [|discriminate].
    cbn [fst]. intros Hr. injection Hr as <-. cbn [promptSteps executeSteps title].
    exists nameSteps, createStep, (negb (truthy_opt_string s)).
    unfold addBindingSettingSteps.
    split; [destruct (negb _); by rewrite <- ?app_assoc, ?app_nil_r|].
    split; [by destruct (negb _)|].
    split; [done|]. split; [exact Hns|]. split; [exact Hcs|].
    rewrite negb_true_iff. split.
    + intros Hs. split; [done|]. by exists s.
    + intros [_ (s' & Heq & Hs)]. by inversion Heq; subst.
Qed.

(** C1, amended: [getSubWizard] returns none exactly when no template is
    selected.  When no trigger setting has the lower-cased name "language",
    a sub-wizard that it returns follows the language mapping exactly: its
    prompt steps are the name steps of the language, then one setting step
    for each setting of the template that the user is prompted for, then
    the storage prompt step if storage is needed, and nothing else; its
    execute steps are the create step of the language, then the storage
    execute step if storage is needed, and nothing else.  The name steps are
    the package-name and function-name steps for Java, the function-name and
    namespace steps for C# and F#, and the script name step alone for every
    other language; the create step is the Java one for Java, the .NET one
    for C# and F#, the TypeScript one for TypeScript, the script one for
    every other language.  Storage is needed exactly when the template is
    no HTTP trigger and the storage setting read for the project is empty
    or missing.  A sub-wizard is returned whenever a template is selected,
    the create step of the language can be made and the storage setting can
    be read. *)
Theorem getSubWizard_language_mapping this ctx :
  NoDup [Java L; CSharp L; FSharp L; TypeScript L] ->
  (forall kv, kv ∈ _triggerSettings this -> toLowerCase kv.1 ≠ "language") ->
  let lang := language ctx in
  let r := (subWizard this ctx).1 in
  (r = Ok None <-> functionTemplate ctx = None) /\
  (forall wiz, r = Ok (Some wiz) ->
     exists t (needsStorage : bool),
       functionTemplate ctx = Some t /\
       (needsStorage = true <->
        Template.isHttpTrigger t = false /\
        exists s, getAzureWebJobsStorage (projectPath ctx) = Ok s /\
                  truthy_opt_string s = false) /\
       let settingSteps := map BindingSettingStep (Template.userPromptedSettings t) in
       let storagePrompt := if needsStorage then [AzureWebJobsStoragePromptStep] else [] in
       let storageExecute := if needsStorage then [AzureWebJobsStorageExecuteStep] else [] in
       (lang = Some (Java L) ->
        promptSteps wiz =
          [JavaPackageNameStep; JavaFunctionNameStep] ++ settingSteps ++ storagePrompt /\
        executeSteps wiz = JavaFunctionCreateStep :: storageExecute) /\
       (lang = Some (CSharp L) \/ lang = Some (FSharp L) ->
        promptSteps wiz =
          [DotnetFunctionNameStep; DotnetNamespaceStep] ++ settingSteps ++ storagePrompt /\
        executeSteps wiz = DotnetFunctionCreateStep :: storageExecute) /\
       (lang = Some (TypeScript L) ->
        promptSteps wiz = [ScriptFunctionNameStep] ++ settingSteps ++ storagePrompt /\
        executeSteps wiz = TypeScriptFunctionCreateStep :: storageExecute) /\
       (lang ≠ Some (Java L) /\ lang ≠ Some (CSharp L) /\ lang ≠ Some (FSharp L) /\
        lang ≠ Some (TypeScript L) ->
        promptSteps wiz = [ScriptFunctionNameStep] ++ settingSteps ++ storagePrompt /\
        executeSteps wiz = ScriptFunctionCreateStep :: storageExecute)) /\
  (forall t, functionTemplate ctx = Some t ->
     createStepAvailable L javaCreateStep validateDotnetInstalled lang ->
     (Template.isHttpTrigger t = false ->
      exists s, getAzureWebJobsStorage (projectPath ctx) = Ok s) ->
     exists wiz, r = Ok (Some wiz)).
Proof.
  intros Hdistinct Hkeys lang r.
  destruct (getSubWizard_steps this ctx Hdistinct) as (Hnone & _ & Hreturns & _).
  destruct (copyTriggerSettings_language this ctx Hkeys) as (Hlang & _ & Hpath).
  fold lang in Hlang.
  assert (Java L ≠ TypeScript L /\ CSharp L ≠ TypeScript L /\ FSharp L ≠ TypeScript L)
    as (HJT & HCT & HFT).
  { apply NoDup_cons in Hdistinct as [H1 Hd]. apply NoDup_cons in Hd as [H2 Hd].
    apply NoDup_cons in Hd as [H3 _].
    repeat (apply not_elem_of_cons in H1 as [? H1]).
    repeat (apply not_elem_of_cons in H2 as [? H2]).
    repeat (apply not_elem_of_cons in H3 as [? H3]). done. }
  split; [exact Hnone|]. split.
  - intros wiz Hwiz.
    destruct (functionTemplate ctx) as [t|] eqn:Ht.
    2:{ destruct Hnone as [_ Hnone]. fold r in Hnone. rewrite Hnone in Hwiz; done. }
    destruct (getSubWizard_exact this ctx t wiz Hdistinct Ht Hwiz)
      as (nameSteps & createStep & needsStorage & Hprompt & Hexecute & _ &
          (Hn1 & Hn2 & Hn3) & (Hc1 & Hc2 & Hc3 & Hc4) & Hneeds).
    rewrite Hlang in Hc1, Hc2, Hc3, Hc4. fold lang in Hn1, Hn2, Hn3.
    exists t, needsStorage. split; [done|]. split; [exact Hneeds|].
    cbv zeta. rewrite Hprompt, Hexecute.
    split; [intros Hl; by rewrite (Hn1 Hl), (Hc1 Hl)|].
    split; [intros Hl; by rewrite (Hn2 Hl), (Hc2 Hl)|].
    split.
    + intros Hl. rewrite (Hc3 Hl), Hn3; [done|]. rewrite Hl. repeat split; congruence.
    + intros (H1 & H2 & H3 & H4). by rewrite Hn3, Hc4.
  - intros t Ht Havail Hstorage. apply (Hreturns t Ht).
    + by rewrite Hlang.
    + by rewrite Hpath.
Qed.
End Mapping.

(** The amended C1 on a Java project. *)
Lemma getSubWizard_language_mapping_witness :
  let step := {| _triggerSettings := [("authLevel", Some "function")];
                 _isProjectWizard := false |} in
  let ctx := {| functionTemplate := Some Sample.httpTemplate;
                language := Some "Java"; projectPath := "/proj";
                otherProperties := ∅ |} in
  exists wiz,
    (getSubWizard ProjectLanguage (Ok tt) (Ok tt) (fun _ => Ok None) step ctx).1
      = Ok (Some wiz) /\
    exists needsStorage : bool,
      needsStorage = false /\
      promptSteps wiz =
        [JavaPackageNameStep; JavaFunctionNameStep] ++
        map BindingSettingStep (Template.userPromptedSettings Sample.httpTemplate) ++
        (if needsStorage then [AzureWebJobsStoragePromptStep] else []) /\
      executeSteps wiz =
        JavaFunctionCreateStep ::
        (if needsStorage then [AzureWebJobsStorageExecuteStep] else []).
Proof.
  intros step ctx.
  assert (NoDup [Java ProjectLanguage; CSharp ProjectLanguage; FSharp ProjectLanguage;
                 TypeScript ProjectLanguage]) as Hdistinct.
  { apply (bool_decide_unpack _). vm_compute. reflexivity. }
  assert (forall kv, kv ∈ _triggerSettings step -> toLowerCase kv.1 ≠ "language") as Hkeys.
  { intros kv Hkv. apply list_elem_of_singleton in Hkv as ->.
    vm_compute. intros Heq. discriminate Heq. }
  destruct (getSubWizard_language_mapping ProjectLanguage (Ok tt) (Ok tt) (fun _ => Ok None)
              step ctx Hdistinct Hkeys) as (_ & Hmap & Hreturns).
  destruct (Hreturns Sample.httpTemplate) as [wiz Hwiz].
  - reflexivity.
  - split; reflexivity.
  - intros Hhttp. discriminate Hhttp.
  - exists wiz. split; [exact Hwiz|].
    destruct (Hmap wiz Hwiz) as (t & needsStorage & Ht & Hneeds & Hjava & _).
    injection Ht as <-.
    exists needsStorage. split.
    + destruct needsStorage; [|reflexivity].
      destruct Hneeds as [Hneeds _]. destruct (Hneeds eq_refl) as [Hhttp _].
      discriminate Hhttp.
    + apply Hjava. reflexivity.
Defined.
End FunctionListFacts.

Module ProviderFacts.
Import FunctionAppProvider ProviderDefs MonadFacts.

Section Facts.
Variable L : ProjectLanguageEnum.
Variables extensionPrefix projectLanguageSetting projectRuntimeSetting : string.
Variable getWorkspaceSettingFromAnyFolder : string -> option string.
Variable getWorkspaceSetting : string -> option bool.
Variable convertStringToRuntime : option string -> option ProjectRuntime.
Variable getFunctionsWorkerRuntime : option string -> option string.
Variable tryGetLocalRuntimeVersion : Result (option ProjectRuntime).
Variable LocationListStep_setLocation :
  string -> IAppServiceWizardContext -> Result unit * IAppServiceWizardContext.
Variable wizard_prompt :
  list PromptStep -> IAppServiceWizardContext -> Result unit * IAppServiceWizardContext.
Variable wizard_execute :
  list ExecuteStep -> IAppServiceWizardContext -> Result unit * IAppServiceWizardContext.
Variable showWarningMessage : string -> MessageItem -> option MessageItem.
Variable ProductionSlotTreeItem_create : Site -> Result string.

Local Abbreviation create :=
  (createChildImpl L extensionPrefix projectLanguageSetting projectRuntimeSetting
     getWorkspaceSettingFromAnyFolder getWorkspaceSetting convertStringToRuntime
     getFunctionsWorkerRuntime tryGetLocalRuntimeVersion LocationListStep_setLocation
     wizard_prompt wizard_execute showWarningMessage ProductionSlotTreeItem_create).
Local Abbreviation before :=
  (beforeExecute L extensionPrefix projectLanguageSetting projectRuntimeSetting
     getWorkspaceSettingFromAnyFolder getWorkspaceSetting convertStringToRuntime
     getFunctionsWorkerRuntime tryGetLocalRuntimeVersion LocationListStep_setLocation
     wizard_prompt).
Local Abbreviation advancedCreation :=
  (truthy_opt_bool (getWorkspaceSetting advancedCreationKey)).

Lemma createChildImpl_split resourceGroup st :
  create resourceGroup st =
  (before resourceGroup ≫= fun executeSteps =>
     _ ← executeWizard extensionPrefix wizard_execute showWarningMessage
           advancedCreation executeSteps;
     st ← getState;
     site ← nonNullProp (site (wizardContext st)) "site";
     await (ProductionSlotTreeItem_create site)) st.
Proof.
  unfold createChildImpl, beforeExecute.
  repeat (rewrite bind_assoc; apply bind_ext;
          let x := fresh "x" in
          intros x ?;
          try match type of x with (_ * _)%type => destruct x; cbv beta iota end).
  reflexivity.
Qed.

Lemma executeWizard_throws executeSteps st e ctx1 :
  wizard_execute executeSteps (wizardContext st) = (Throw e, ctx1) ->
  exists st',
    executeWizard extensionPrefix wizard_execute showWarningMessage
      advancedCreation executeSteps st = (Throw e, st') /\
    wizardContext st' = ctx1 /\
    properties st' = properties st /\
    effects st' = effects st ++ advice extensionPrefix showWarningMessage advancedCreation e.
Proof.
  intros Hexec. unfold executeWizard, try_catch, onContext, advice. rewrite Hexec.
  unfold mbind, M_bind, when.
  destruct (negb (isUserCancelledError e) && negb advancedCreation); simpl.
  - destruct (bool_decide _); simpl; eexists; repeat split; simpl.
    + by rewrite <- app_assoc.
  - eexists. repeat split. simpl. by rewrite app_nil_r.
Qed.

(** C9: when [createChildImpl] reaches its execute phase and that phase
    fails with an error, the same error is rethrown to the caller.  If the
    error is not a user cancellation and advanced creation is off, the
    warning with the one button is shown first, and the global setting
    [advancedCreation] is set to true only if the user picks that button;
    if advanced creation is on or the error is a user cancellation, nothing
    is shown and nothing is persisted. *)
Theorem createChildImpl_suggests_advanced_creation
    resourceGroup st executeSteps st1 e ctx1 :
  before resourceGroup st = (Ok executeSteps, st1) ->
  wizard_execute executeSteps (wizardContext st1) = (Throw e, ctx1) ->
  exists st',
    create resourceGroup st = (Throw e, st') /\
    wizardContext st' = ctx1 /\
    effects st' =
      effects st1 ++ advice extensionPrefix showWarningMessage advancedCreation e /\
    (isUserCancelledError e = false -> advancedCreation = false ->
     exists text btn,
       advice extensionPrefix showWarningMessage advancedCreation e =
         ShowWarningMessage text btn ::
         (if bool_decide (showWarningMessage text btn = Some btn)
          then [UpdateGlobalSetting "advancedCreation" true] else [])) /\
    (isUserCancelledError e = true \/ advancedCreation = true ->
     advice extensionPrefix showWarningMessage advancedCreation e = []).
Proof.
  intros Hbefore Hexec. rewrite createChildImpl_split.
  unfold mbind at 1. unfold M_bind at 1. rewrite Hbefore.
  destruct (executeWizard_throws _ _ _ _ Hexec) as (st' & Hrun & Hctx & _ & Heff).
  unfold mbind at 1. unfold M_bind at 1. rewrite Hrun.
  exists st'. split; [done|]. split; [done|]. split; [done|]. split.
  - intros Hc Ha. unfold advice. rewrite Hc, Ha. simpl. by eexists _, _.
  - intros [Hc|Ha]; unfold advice; [rewrite Hc | rewrite Ha]; simpl; [done|].
    by rewrite andb_false_r.
Qed.
End Facts.

(** C9 on a quick creation whose storage account cannot be made. *)
Lemma createChildImpl_suggests_advanced_creation_witness :
  exists st',
    SampleApp.create None SampleApp.start = (Throw SampleApp.conflict, st') /\
    effects st' =
      [ShowCreatingTreeItem "myapp";
       ShowWarningMessage
         ("Modify the setting " +:+ dquote +:+ "azureFunctions.advancedCreation" +:+ dquote +:+
          " if you want to change the default values when creating a Function App in Azure.")
         {| title := "Turn on advanced creation" |};
       UpdateGlobalSetting "advancedCreation" true].
Proof.
  destruct (createChildImpl_suggests_advanced_creation ProjectLanguage "azureFunctions"
              "projectLanguage" "projectRuntime" (fun _ => None) (fun _ => None)
              (fun _ => None) (fun _ => Some "node") (Ok (Some v2)) (fun _ c => (Ok tt, c))
              (fun _ c => (Ok tt, SampleApp.named c)) (fun _ c => (Throw SampleApp.conflict, c))
              (fun _ btn => Some btn) (fun s => Ok (siteName s))
              None SampleApp.start
              [ResourceGroupCreateStep;
               StorageAccountCreateStep;
               SiteCreateStep v2 None]
              (SampleApp.before None SampleApp.start).2
              SampleApp.conflict
              (wizardContext (SampleApp.before None SampleApp.start).2))
    as (st' & Hrun & _ & Heff & _).
  - vm_compute. reflexivity.
  - vm_compute. reflexivity.
  - exists st'. split; [exact Hrun|]. rewrite Heff. vm_compute. reflexivity.
Defined.

End ProviderFacts.

Module UploadFacts.
Import UploadAppSettings UploadDefs.

(** The calls listed in [l] are none of the reads, decryptions and
    encryptions of the settings file. *)
Ltac other_calls :=
  let c := fresh "c" in
  let Hc := fresh "Hc" in
  intros c Hc;
  repeat (apply elem_of_cons in Hc as [->|Hc]; [done|]);
  by apply elem_of_nil in Hc.

Ltac settle before :=
  eexists _, before, _; split;
  [ f_equal; unfold before; rewrite <- ?app_assoc; simpl; reflexivity
  | split; [other_calls|] ].

Section Facts.
Variable env : Collaborators.
Variable localSettingsFileName : string.

(** C10, amended: when the settings file is marked encrypted and its
    decryption succeeds, [uploadAppSettings] reads the marker, decrypts, reads
    again and then calls [encryptLocalSettings], whatever the outcome of the
    second read; no other read, decryption or encryption is made.  When the
    second read throws, its error is what the caller gets, after the
    encryption.  The file is left encrypted exactly when that encryption
    succeeds, whether the upload succeeds or fails; when the encryption
    fails, its error is what the caller gets and the file is left
    decrypted. *)
Theorem uploadAppSettings_reencrypts node workspacePath calls0 path target settings :
  getLocalSettingsFile env = Ok path ->
  (node = Some target \/ (node = None /\ showTreeItemPicker env = Ok target)) ->
  readJson_first env = Ok settings ->
  IsEncrypted settings = Some true ->
  decryptLocalSettings env = Ok tt ->
  exists r before after,
    uploadAppSettings env localSettingsFileName node workspacePath calls0 =
      (r, calls0 ++ before ++
          [ReadJson path; DecryptLocalSettings path; ReadJson path;
           EncryptLocalSettings path] ++ after) /\
    (forall c, c ∈ before ->
       c ≠ ReadJson path /\ c ≠ DecryptLocalSettings path /\ c ≠ EncryptLocalSettings path) /\
    (forall c, c ∈ after ->
       c ≠ ReadJson path /\ c ≠ DecryptLocalSettings path /\ c ≠ EncryptLocalSettings path) /\
    (forall e, readJson_second env = Throw e -> encryptLocalSettings env = Ok tt ->
       r = Throw e /\ after = []) /\
    (forall e, encryptLocalSettings env = Throw e -> r = Throw e /\ after = []) /\
    (forall encrypted,
       leftEncrypted env path encrypted
         (before ++
          [ReadJson path; DecryptLocalSettings path; ReadJson path;
           EncryptLocalSettings path] ++ after) =
       match encryptLocalSettings env with Ok _ => true | Throw _ => false end).
Proof.
  intros Hpath Hnode Hread Henc Hdec.
  unfold uploadAppSettings, call, try_finally, mbind, M_bind, Uri_file.
  rewrite Hpath.
  pose (shown := [OutputChannelShow;
                  OutputChannelAppendLine
                    ("Uploading settings to " +:+ dquote +:+ client_fullName target +:+
                     dquote +:+ "...")]).
  destruct Hnode as [->|[-> Hpick]]; [|rewrite Hpick]; simpl;
    rewrite Hread, Henc; simpl; rewrite Hdec;
    [ set (before := GetLocalSettingsFile workspacePath :: shown)
    | set (before := GetLocalSettingsFile workspacePath :: ShowTreeItemPicker :: shown) ];
    (destruct (readJson_second env) as [settings2|e2] eqn:Hread2;
     destruct (encryptLocalSettings env) as [[]|e3] eqn:Hencrypt; simpl;
     [ destruct (Values settings2) as [values|]; simpl;
       [ destruct (listApplicationSettings env) as [remote|e4]; simpl;
         [ destruct (confirmOverwriteSettings env values (default ∅ remote))
             as [props|e5]; simpl |] |]
     | | | ]);
    settle before;
    (split; [other_calls|]);
    (split; [try done; by intros e [= ->] |]);
    (split; [try done; by intros e [= ->] |]);
    intros encrypted; unfold leftEncrypted, before, shown, Uri_file;
    rewrite ?foldl_app; cbn [foldl fileAfter app];
    rewrite !decide_True by done; rewrite Hdec, Hencrypt; reflexivity.
Qed.
End Facts.

(** C10, as stated, does not hold when the encryption in the [finally] block
    fails: the file that was encrypted before the upload is left decrypted,
    and the caller gets an error. *)
Lemma uploadAppSettings_left_decrypted :
  let path := "/proj/local.settings.json" in
  exists calls,
    uploadAppSettings SampleApp.uploadLocked "local.settings.json" None (Some "/proj") [] =
      (Throw SampleApp.locked, calls) /\
    calls = [GetLocalSettingsFile (Some "/proj"); ShowTreeItemPicker; OutputChannelShow;
             OutputChannelAppendLine
               ("Uploading settings to " +:+ dquote +:+ "myapp" +:+ dquote +:+ "...");
             ReadJson path; DecryptLocalSettings path; ReadJson path;
             EncryptLocalSettings path] /\
    leftEncrypted SampleApp.uploadLocked path true calls = false.
Proof.
  intros path. eexists. split; [vm_compute; reflexivity|].
  split; vm_compute; reflexivity.
Qed.

(** C10 on a settings file whose second read fails. *)
Lemma uploadAppSettings_reencrypts_witness :
  exists r before after,
    uploadAppSettings SampleApp.upload "local.settings.json" None
      (Some "/proj") [] =
      (r, [] ++ before ++
          [ReadJson "/proj/local.settings.json";
           DecryptLocalSettings "/proj/local.settings.json";
           ReadJson "/proj/local.settings.json";
           EncryptLocalSettings "/proj/local.settings.json"] ++ after) /\
    (r = Throw SampleApp.unreadable /\ after = []) /\
    leftEncrypted SampleApp.upload "/proj/local.settings.json" false
      (before ++
       [ReadJson "/proj/local.settings.json";
        DecryptLocalSettings "/proj/local.settings.json";
        ReadJson "/proj/local.settings.json";
        EncryptLocalSettings "/proj/local.settings.json"] ++ after) = true.
Proof.
  destruct (uploadAppSettings_reencrypts SampleApp.upload "local.settings.json" None
              (Some "/proj") [] "/proj/local.settings.json"
              {| client_fullName := "myapp" |}
              {| IsEncrypted := Some true;
                 Values := None |})
    as (r & before & after & Hrun & _ & _ & Hread & _ & Hfile).
  - reflexivity.
  - right. split; reflexivity.
  - reflexivity.
  - reflexivity.
  - reflexivity.
  - exists r, before, after. split; [exact Hrun|].
    split; [apply (Hread SampleApp.unreadable); reflexivity|].
    exact (Hfile false).
Defined.

End UploadFacts.

(** * Further properties *)

Module FunctionCreateMore.
Import FunctionCreate FunctionCreateDefs FunctionCreateNotions MonadFacts FunctionCreateFacts.

Section More.
Variable L : ProjectLanguageEnum.
Variables hostFileName tasksFileName settingsFileName : string.
Variables vscodeFolderName extInstallCommand : string.
Variable path_join : list string -> string.
Variable formatJson : json -> string.
Variable getContainingWorkspace : string -> bool.
Variable executeCore : IFunctionWizardContext -> gmap string FileData ->
                       Result string * gmap string FileData.
Variable callThrows : string -> option JsError.

Local Abbreviation verify := (verifyExtensionBundle hostFileName path_join).
Local Abbreviation exec :=
  (execute L hostFileName tasksFileName settingsFileName vscodeFolderName
     extInstallCommand path_join formatJson getContainingWorkspace executeCore
     callThrows).
Local Abbreviation scaf :=
  (scaffold L hostFileName tasksFileName settingsFileName vscodeFolderName
     extInstallCommand path_join formatJson executeCore).
Local Abbreviation post := (runPostFunctionCreateSteps getContainingWorkspace callThrows).
Local Abbreviation recover :=
  (runPostFunctionCreateStepsFromCache getContainingWorkspace callThrows).
Local Abbreviation usesInstall :=
  (usesExtInstall vscodeFolderName extInstallCommand path_join formatJson).
Local Abbreviation shouldUse :=
  (shouldUseExtensionBundle L tasksFileName settingsFileName vscodeFolderName
     extInstallCommand path_join formatJson).

Lemma usesExtInstall_state ctx filesToCheck w :
  (usesInstall ctx filesToCheck w).2 = w.
Proof.
  induction filesToCheck as [|file rest IH]; [done|].
  cbn [usesExtInstall]. unfold mbind, M_bind, pathExists, readFile_toString.
  cbv beta zeta.
  destruct (bool_decide _); [|exact IH].
  destruct (files w !! _) as [[text|j|]|]; cbv beta iota; try done;
    by destruct (includes _ _).
Qed.

Lemma shouldUseExtensionBundle_returns ctx t w :
  exists b, shouldUse ctx t w = (Ok b, w).
Proof.
  unfold shouldUseExtensionBundle. destruct (_ || _); [by exists false|].
  unfold try_catch, mbind, M_bind.
  pose proof (usesExtInstall_state ctx [tasksFileName; settingsFileName] w) as Hstate.
  destruct (usesInstall ctx [tasksFileName; settingsFileName] w) as [[found|e] w1].
  - cbn [snd] in Hstate. subst w1. by exists (negb found).
  - cbn [snd] in Hstate. subst w1. by exists true.
Qed.

Ltac holds_or_not :=
  match goal with
  | |- context [if includes ?text ?command then _ else _] =>
      let Hinc := fresh "Hinc" in
      destruct (includes text command) eqn:Hinc; cbv beta iota
  end.

Ltac look_at path :=
  let Hfile := fresh "Hfile" in
  destruct (files _ !! path) as [[?text|?j|]|] eqn:Hfile;
  rewrite ?bool_decide_eq_true_2 by eauto;
  rewrite ?bool_decide_eq_false_2 by (intros [? ?]; discriminate);
  cbv beta iota; rewrite ?Hfile; cbv beta iota.

(** X1: [shouldUseExtensionBundle] never rejects and never changes anything.
    It answers [false] when the runtime is v1, the template is an HTTP or a
    timer trigger, or the language is C# or F#.  Otherwise it looks at the
    tasks file and then at the settings file of the workspace's settings
    folder, and answers [true] exactly when the tasks file does not hold the
    extension-install command and the settings file does not hold it
    either, where it is looked at: the settings file is not looked at when
    the tasks file exists and cannot be read (the failure is ignored, and
    the answer is [true]). *)
Theorem shouldUseExtensionBundle_decides ctx t w :
  let tasksPath := path_join [workspacePath ctx; vscodeFolderName; tasksFileName] in
  let settingsPath := path_join [workspacePath ctx; vscodeFolderName; settingsFileName] in
  exists b,
    shouldUse ctx t w = (Ok b, w) /\
    (b = true <->
     runtime ctx ≠ Some v1 /\
     Template.isHttpTrigger t = false /\ Template.isTimerTrigger t = false /\
     language ctx ≠ Some (CSharp L) /\ language ctx ≠ Some (FSharp L) /\
     ~ holdsCommand formatJson extInstallCommand w tasksPath /\
     (holdsCommand formatJson extInstallCommand w settingsPath ->
      unreadable w tasksPath)).
Proof.
  intros tasksPath settingsPath. unfold shouldUseExtensionBundle.
  destruct (bool_decide (runtime ctx = Some v1)) eqn:Hrt; cbn [orb].
  { exists false. split; [done|]. split; [done|]. intros (Hne & _).
    apply bool_decide_eq_true in Hrt. done. }
  apply bool_decide_eq_false in Hrt.
  destruct (Template.isHttpTrigger t); cbn [orb].
  { exists false. split; [done|]. split; [done|]. by intros (_ & ? & _). }
  destruct (Template.isTimerTrigger t); cbn [orb].
  { exists false. split; [done|]. split; [done|]. by intros (_ & _ & ? & _). }
  destruct (bool_decide (language ctx = Some (CSharp L))) eqn:Hcs; cbn [orb].
  { exists false. split; [done|]. split; [done|]. intros (_ & _ & _ & Hne & _).
    apply bool_decide_eq_true in Hcs. done. }
  apply bool_decide_eq_false in Hcs.
  destruct (bool_decide (language ctx = Some (FSharp L))) eqn:Hfs; cbn [orb].
  { exists false. split; [done|]. split; [done|]. intros (_ & _ & _ & _ & Hne & _).
    apply bool_decide_eq_true in Hfs. done. }
  apply bool_decide_eq_false in Hfs.
  cbn [usesExtInstall].
  unfold try_catch, mbind, M_bind, pathExists, readFile_toString, holdsCommand,
    unreadable, fileText, mret, M_ret.
  cbv beta zeta. fold tasksPath settingsPath.
  look_at tasksPath; try holds_or_not;
    try (look_at settingsPath; try holds_or_not);
    first
      [ (* the answer is [false]: one of the two files holds the command *)
        exists false; split; [reflexivity|]; split; [discriminate|];
        intros (_ & _ & _ & _ & _ & Hnot & Himp);
        first [ exfalso; apply Hnot; eexists; split; [reflexivity|eassumption]
              | assert (Hdir := Himp ltac:(eexists; split; [reflexivity|eassumption]));
                discriminate Hdir ]
      | (* the answer is [true] *)
        exists true; split; [reflexivity|]; split; [intros _|done];
        do 5 (split; [done|]); split;
        [ intros (text' & Heq & Hinc'); inversion Heq; subst; congruence
        | intros (text' & Heq & Hinc');
          first [ reflexivity | inversion Heq; subst; congruence ] ] ].
Qed.

(** X2: [verifyExtensionBundle] succeeds exactly when the host-configuration
    file holds a JSON object or array.  When the path is missing, is a
    directory, is not JSON, or holds [null] or a primitive, it leaves the
    world as it was and throws an error that is not a user cancellation and
    whose message is ["Failed to parse <file>: "] followed by the message of
    the error that was caught: the error of the read of the file, or of the
    read of the field (on [null]), or of the assignment to the field (on a
    primitive). *)
Theorem verifyExtensionBundle_fails_iff_unpatchable ctx w :
  let hostFilePath := path_join [projectPath ctx; hostFileName] in
  if patchable (files w !! hostFilePath)
  then exists w1, verify ctx w = (Ok tt, w1)
  else exists caught,
    verify ctx w = (Throw (failedToParse hostFileName (message caught)), w) /\
    (readJSON hostFilePath w = (Throw caught, w) \/
     exists hostJson,
       readJSON hostFilePath w = (Ok hostJson, w) /\
       (get_extensionBundle hostJson w = (Throw caught, w) \/
        (exists bundle,
           get_extensionBundle hostJson w = (Ok bundle, w) /\ falsy_opt bundle = true /\
           set_extensionBundle hostJson defaultExtensionBundle w = (Throw caught, w)))).
Proof.
  intros hostFilePath.
  unfold verifyExtensionBundle, try_catch, mbind, M_bind, readJSON.
  fold hostFilePath.
  destruct (files w !! hostFilePath) as [[text|[ |b|n|s|items|fields]|]|]; simpl;
    try (eexists; reflexivity).
  (* the file is not JSON *)
  - eexists. split; [|left; reflexivity]. reflexivity.
  (* [null] *)
  - eexists. split; [|right; eexists; split; [reflexivity|left; reflexivity]].
    reflexivity.
  (* a boolean, a number, a string *)
  - eexists.
    split; [|right; eexists; split;
             [reflexivity|right; exists None; split; [reflexivity|split; reflexivity]]].
    reflexivity.
  - eexists.
    split; [|right; eexists; split;
             [reflexivity|right; exists None; split; [reflexivity|split; reflexivity]]].
    reflexivity.
  - eexists.
    split; [|right; eexists; split;
             [reflexivity|right; exists None; split; [reflexivity|split; reflexivity]]].
    reflexivity.
  (* an object *)
  - destruct (falsy_opt _); simpl; eexists; reflexivity.
  (* a directory, no file *)
  - eexists. split; [|left; reflexivity]. reflexivity.
  - eexists. split; [|left; reflexivity]. reflexivity.
Qed.

Lemma obj_get_set_ne fields k k' v :
  k' ≠ k -> obj_get (obj_set fields k v) k' = obj_get fields k'.
Proof.
  intros Hne. induction fields as [|[k0 v0] fields IH]; simpl.
  - by rewrite decide_False.
  - destruct (decide (k0 = k)) as [->|Hk]; simpl.
    + by rewrite !decide_False.
    + destruct (decide (k0 = k')); [done|exact IH].
Qed.

Lemma obj_set_length_present fields k v b :
  obj_get fields k = Some b -> length (obj_set fields k v) = length fields.
Proof.
  induction fields as [|[k0 v0] fields IH]; simpl; [done|].
  destruct (decide (k0 = k)); simpl; [done|]. intros H. by rewrite IH.
Qed.

(** X3: on a host-configuration object that has an [extensionBundle] field,
    [verifyExtensionBundle] looks at the truthiness of the field.  A truthy
    value is kept: nothing is written and the world is unchanged.  A falsy
    value ([null], [false], [0], the empty string) is replaced where it
    stands by the fixed bundle: the object keeps its number of fields and
    every other field, and the file is written once. *)
Theorem verifyExtensionBundle_existing_bundle ctx w fields bundle :
  let hostFilePath := path_join [projectPath ctx; hostFileName] in
  files w !! hostFilePath = Some (JsonDoc (JObj fields)) ->
  obj_get fields "extensionBundle" = Some bundle ->
  if truthy_json bundle
  then verify ctx w = (Ok tt, w)
  else exists w1 fields1,
    verify ctx w = (Ok tt, w1) /\
    files w1 = <[hostFilePath := JsonDoc (JObj fields1)]> (files w) /\
    obj_get fields1 "extensionBundle" = Some defaultExtensionBundle /\
    length fields1 = length fields /\
    (forall k, k ≠ "extensionBundle" -> obj_get fields1 k = obj_get fields k) /\
    events w1 = events w ++ [WriteFormattedJson hostFilePath].
Proof.
  intros hostFilePath Hfile Hget.
  unfold verifyExtensionBundle, try_catch, mbind, M_bind, readJSON.
  fold hostFilePath. rewrite Hfile. simpl. rewrite Hget. simpl.
  destruct (truthy_json bundle); simpl; [done|].
  eexists _, _. split; [reflexivity|]. simpl.
  split; [done|]. split; [apply obj_get_set|].
  split; [by eapply obj_set_length_present|].
  split; [|done]. intros k Hk. by apply obj_get_set_ne.
Qed.

Lemma verify_outcome ctx w :
  let hostFilePath := path_join [projectPath ctx; hostFileName] in
  verify ctx w = (Ok tt, w) \/
  (patchable (files w !! hostFilePath) = false /\
   exists inner, verify ctx w = (Throw (failedToParse hostFileName inner), w)) \/
  (exists j, verify ctx w =
     (Ok tt, add_event (WriteFormattedJson hostFilePath)
               (set_files (fun fs => <[hostFilePath := JsonDoc j]> fs) w))).
Proof.
  intros hostFilePath. unfold verifyExtensionBundle, try_catch, mbind, M_bind, readJSON.
  fold hostFilePath.
  destruct (files w !! hostFilePath) as [[text|[ |b|n|s|items|fields]|]|]; simpl;
    try (right; left; split; [done|]; eexists; reflexivity).
  - right; right. eexists. reflexivity.
  - destruct (falsy_opt _); simpl; [|by left].
    right; right. eexists. reflexivity.
Qed.

Lemma scaffold_outcome ctx t w :
  functionTemplate ctx = Some t ->
  let w0 := set_files (fun _ => (executeCore ctx (files w)).2) (reported ctx t w) in
  let hostFilePath := path_join [projectPath ctx; hostFileName] in
  match (executeCore ctx (files w)).1 with
  | Throw e => scaf ctx w = (Throw e, w0)
  | Ok p =>
      let func := {| Cached.projectPath := projectPath ctx; Cached.newFilePath := p;
                     Cached.isHttpTrigger := Template.isHttpTrigger t |} in
      scaf ctx w = (Ok func, w0) \/
      (patchable (files w0 !! hostFilePath) = false /\
       exists inner, scaf ctx w = (Throw (failedToParse hostFileName inner), w0)) \/
      (exists j, scaf ctx w =
         (Ok func, add_event (WriteFormattedJson hostFilePath)
                     (set_files (fun fs => <[hostFilePath := JsonDoc j]> fs) w0)))
  end.
Proof.
  intros Ht w0 hostFilePath.
  unfold scaffold, mbind, M_bind, nonNullProp, run_executeCore, setProperty, emit,
    modifyState.
  rewrite Ht.
  cbn -[shouldUseExtensionBundle verifyExtensionBundle String.append].
  fold (reported ctx t w). subst w0.
  destruct (executeCore ctx (files w)) as [[p|e] fs] eqn:Hcore; cbn [fst snd] in *;
    [|reflexivity].
  set (w0 := set_files (fun _ => fs) (reported ctx t w)).
  destruct (shouldUseExtensionBundle_returns ctx t w0) as (b & Hb).
  rewrite Hb. destruct b; cbn [when]; [|by left].
  destruct (verify_outcome ctx w0) as [Hv|[(Hp & inner & Hv)|(j & Hv)]];
    fold hostFilePath in Hv; rewrite Hv; cbv beta iota.
  - by left.
  - right; left. split; [done|]. by exists inner.
  - right; right. by exists j.
Qed.

Lemma post_outcome func w :
  exists evs,
    post func w =
      (match callThrows "postFunctionCreate" with Some e => Throw e | None => Ok tt end,
       foldl (fun w0 ev => add_event ev w0) w (PostFunctionCreateSteps func :: evs)) /\
    (evs = [] \/ evs = [ShowTextDocument (Cached.newFilePath func)]).
Proof.
  unfold runPostFunctionCreateSteps, callWithTelemetryAndErrorHandling,
    mbind, M_bind, try_catch, emit, modifyState, pathExists.
  destruct (callThrows _) as [e|]; cbv beta iota.
  { exists []. by split; [|left]. }
  destruct (getContainingWorkspace _); cbv beta iota.
  - destruct (bool_decide _); cbn [when].
    + unfold mbind, M_bind, openTextDocument, emit, modifyState. cbn [files add_event].
      destruct (files w !! Cached.newFilePath func) as [[?|?|]|]; cbv beta iota.
      1,2: exists [ShowTextDocument (Cached.newFilePath func)]; by split; [|right].
      all: exists []; by split; [|left].
    + exists []. by split; [|left].
  - exists []. by split; [|left].
Qed.

Lemma add_events_spec evs w :
  let w' := foldl (fun w0 ev => add_event ev w0) w evs in
  files w' = files w /\ globalState w' = globalState w /\ lastUpdate w' = lastUpdate w /\
  timers w' = timers w /\ clock w' = clock w /\ hostRun w' = hostRun w /\
  properties w' = properties w /\ events w' = events w ++ evs.
Proof.
  revert w. induction evs as [|ev evs IH]; intros w; simpl.
  - by rewrite app_nil_r.
  - destruct (IH (add_event ev w)) as (-> & -> & -> & -> & -> & -> & -> & ->).
    simpl. by rewrite <- app_assoc.
Qed.

Lemma cacheAndRun_outcome ctx func w :
  let r := cacheAndRun getContainingWorkspace callThrows ctx func w in
  r.1 = match callThrows "postFunctionCreate" with Some e => Throw e | None => Ok tt end /\
  files r.2 = files w /\ properties r.2 = properties w /\
  exists evs, events r.2 = events w ++ PostFunctionCreateSteps func :: evs.
Proof.
  cbv zeta. unfold cacheAndRun, mbind, M_bind.
  destruct (truthy_opt_string (openBehavior ctx)); cbn [when];
    unfold mbind, M_bind, globalState_update, setTimeout, modifyState, mret, M_ret;
    cbv beta iota;
    match goal with |- context [post func ?w0] =>
      destruct (post_outcome func w0) as (evs & -> & _);
      destruct (add_events_spec (PostFunctionCreateSteps func :: evs) w0)
        as (Hf & _ & _ & _ & _ & _ & Hp & He)
    end; cbn [fst snd]; rewrite Hf, Hp, He; eauto.
Qed.

(** X4: [execute] does its work exactly when [shouldExecute] holds.  Without
    a template in the context it fails at once and leaves the world as it
    was.  With a template it records its three telemetry properties and
    reports its progress before anything else: whatever the outcome of the
    create step and of what follows, the properties at the end are those
    recorded at the start, and the first event that [execute] adds is the
    progress report that names the template. *)
Theorem execute_guard ctx w :
  if shouldExecute ctx
  then exists t,
    functionTemplate ctx = Some t /\
    properties (exec ctx w).2 = properties (reported ctx t w) /\
    exists evs,
      events (exec ctx w).2 =
        events w ++ ProgressReport ("Creating new " +:+ Template.name t +:+ "...") :: evs
  else exists e, exec ctx w = (Throw e, w).
Proof.
  unfold shouldExecute.
  destruct (functionTemplate ctx) as [t|] eqn:Ht.
  2:{ rewrite bool_decide_eq_false_2 by (intros [? ?]; discriminate).
      unfold execute, mbind, M_bind. rewrite Ht. eexists. reflexivity. }
  rewrite bool_decide_eq_true_2 by eauto. exists t. split; [done|].
  rewrite execute_split. unfold mbind, M_bind.
  pose proof (scaffold_outcome ctx t w Ht) as Hs. cbv zeta in Hs.
  set (w0 := set_files (fun _ => (executeCore ctx (files w)).2) (reported ctx t w)) in *.
  assert (Hw0 : properties w0 = properties (reported ctx t w) /\
                events w0 = events w ++
                  [ProgressReport ("Creating new " +:+ Template.name t +:+ "...")]) by done.
  destruct Hw0 as [Hp0 He0].
  destruct ((executeCore ctx (files w)).1) as [p|e].
  - destruct Hs as [Hs|[(_ & inner & Hs)|(j & Hs)]]; rewrite Hs.
    + match goal with |- context [cacheAndRun _ _ _ ?f ?w1] =>
        destruct (cacheAndRun_outcome ctx f w1) as (_ & _ & Hp & evs & He) end.
      rewrite Hp, He, He0, <- app_assoc. eauto.
    + cbn [snd]. rewrite He0. eauto.
    + match goal with |- context [cacheAndRun _ _ _ ?f ?w1] =>
        destruct (cacheAndRun_outcome ctx f w1) as (_ & _ & Hp & evs & He) end.
      rewrite Hp, He. cbn [events properties add_event set_files].
      fold (events w0). rewrite He0, <- !app_assoc. split; [done|]. eauto.
  - rewrite Hs. cbn [snd]. rewrite He0. eauto.
Qed.

(** X5: when the call of the post-creation step itself does not throw, a
    failed [execute] has cached nothing: the durable store, its bookkeeping
    and the timers are as before, and the post-creation step was not run. *)
Theorem execute_failure_caches_nothing ctx w e w1 :
  callThrows "postFunctionCreate" = None ->
  exec ctx w = (Throw e, w1) ->
  same_host w w1 /\
  Forall (fun ev => isPostFunctionCreate ev = false) (addedEvents w w1).
Proof.
  intros Hcall Hexec.
  assert (Hsame : Throw e = (scaf ctx w).1 /\ w1 = (scaf ctx w).2).
  { rewrite execute_split in Hexec. unfold mbind, M_bind in Hexec.
    destruct (scaf ctx w) as [[func|e0] w0]; [|by inversion Hexec].
    destruct (cacheAndRun_outcome ctx func w0) as (Hr & _).
    rewrite Hexec, Hcall in Hr. discriminate. }
  destruct Hsame as [Hr ->]. split.
  { apply (Frame_scaffold L hostFileName tasksFileName settingsFileName vscodeFolderName
             extInstallCommand path_join formatJson executeCore). }
  unfold addedEvents.
  destruct (functionTemplate ctx) as [t|] eqn:Ht.
  - pose proof (scaffold_outcome ctx t w Ht) as Hs. cbv zeta in Hs.
    destruct ((executeCore ctx (files w)).1) as [p|e1].
    + destruct Hs as [Hs|[(_ & inner & Hs)|(j & Hs)]]; rewrite Hs in Hr |- *;
        try discriminate.
      cbn [snd events set_files reported add_event].
      rewrite drop_app_length. by repeat constructor.
    + rewrite Hs. cbn [snd events set_files reported add_event].
      rewrite drop_app_length. by repeat constructor.
  - unfold scaffold, mbind, M_bind. rewrite Ht. simpl.
    rewrite drop_all. constructor.
Qed.

(** X6: when the create step has produced its file and [execute] fails all
    the same (the call of the post-creation step not throwing), the failure
    is that of the bundle check: the host-configuration file that the create
    step left is not a JSON object or array, the error is the
    ["Failed to parse ..."] error, and the files are exactly those the create
    step left, the new file included. *)
Theorem execute_failure_after_creation ctx t w p fs e w1 :
  functionTemplate ctx = Some t ->
  callThrows "postFunctionCreate" = None ->
  executeCore ctx (files w) = (Ok p, fs) ->
  exec ctx w = (Throw e, w1) ->
  files w1 = fs /\
  patchable (fs !! path_join [projectPath ctx; hostFileName]) = false /\
  exists inner, e = failedToParse hostFileName inner.
Proof.
  intros Ht Hcall Hcore Hexec.
  rewrite execute_split in Hexec. unfold mbind, M_bind in Hexec.
  pose proof (scaffold_outcome ctx t w Ht) as Hs. cbv zeta in Hs.
  rewrite Hcore in Hs. cbn [fst snd] in Hs.
  destruct Hs as [Hs|[(Hp & inner & Hs)|(j & Hs)]]; rewrite Hs in Hexec.
  - match type of Hexec with cacheAndRun _ _ _ ?f ?w0 = _ =>
      destruct (cacheAndRun_outcome ctx f w0) as (Hr & _) end.
    rewrite Hexec, Hcall in Hr. discriminate.
  - inversion Hexec; subst. split; [done|]. split; [exact Hp|]. by exists inner.
  - match type of Hexec with cacheAndRun _ _ _ ?f ?w0 = _ =>
      destruct (cacheAndRun_outcome ctx f w0) as (Hr & _) end.
    rewrite Hexec, Hcall in Hr. discriminate.
Qed.

(** X7: recovery from the cache consumes the record.  With no record it does
    nothing.  With a record it runs the post-creation step on it and removes
    the record, also when the call of the step throws (the error is passed
    on).  A recovery that follows a recovery finds nothing and changes
    nothing. *)
Theorem recovery_consumes_record w :
  let w1 := (recover w).2 in
  match globalState w !! cacheKey with
  | None => recover w = (Ok tt, w)
  | Some func =>
      (recover w).1 =
        match callThrows "postFunctionCreate" with Some e => Throw e | None => Ok tt end /\
      globalState w1 = delete cacheKey (globalState w) /\
      exists evs, events w1 = events w ++ PostFunctionCreateSteps func :: evs
  end /\
  recover w1 = (Ok tt, w1).
Proof.
  intros w1. split.
  - subst w1.
    unfold runPostFunctionCreateStepsFromCache, mbind, M_bind, globalState_get.
    cbv beta iota. destruct (globalState w !! cacheKey) as [func|]; [|done].
    unfold try_finally. destruct (post_outcome func w) as (evs & -> & _).
    destruct (add_events_spec (PostFunctionCreateSteps func :: evs) w)
      as (_ & Hg & _ & _ & _ & _ & _ & He).
    unfold globalState_update, modifyState. cbn [fst snd globalState events].
    rewrite Hg, He. split; [done|]. split; [done|]. by exists evs.
  - pose proof (recover_clears getContainingWorkspace callThrows w) as Hclear.
    fold w1 in Hclear. clearbody w1.
    unfold runPostFunctionCreateStepsFromCache, mbind, M_bind, globalState_get.
    cbv beta iota. by rewrite Hclear.
Qed.
End More.
End FunctionCreateMore.

Module FunctionCreateExamples.
Import FunctionCreate FunctionCreateDefs FunctionCreateNotions FunctionCreateMore.

(** The read of [tasks.json] fails: the bundle is used, although the
    settings file holds the install command. *)
Lemma shouldUseExtensionBundle_decides_witness :
  holdsCommand (fun _ => "") "func extensions install" SampleMore.tasksFolder
    "/proj/.vscode/settings.json" /\
  shouldUseExtensionBundle ProjectLanguage "tasks.json" "settings.json" ".vscode"
    "func extensions install" Sample.join (fun _ => "") Sample.queueContext
    Sample.queueTemplate SampleMore.tasksFolder = (Ok true, SampleMore.tasksFolder).
Proof.
  split; [eexists; split; vm_compute; reflexivity|].
  destruct (shouldUseExtensionBundle_decides ProjectLanguage "tasks.json" "settings.json"
              ".vscode" "func extensions install" Sample.join (fun _ => "")
              Sample.queueContext Sample.queueTemplate SampleMore.tasksFolder)
    as (b & Hrun & Hb).
  rewrite Hrun. f_equal. f_equal. apply Hb.
  split; [intros Heq; discriminate Heq|].
  do 2 (split; [reflexivity|]).
  do 2 (split; [intros Heq; vm_compute in Heq; discriminate Heq|]).
  split.
  - intros (text & Htext & _). vm_compute in Htext. discriminate Htext.
  - intros _. vm_compute. reflexivity.
Defined.

Lemma verifyExtensionBundle_existing_bundle_witness :
  verifyExtensionBundle "host.json" Sample.join Sample.queueContext SampleMore.bundled
    = (Ok tt, SampleMore.bundled).
Proof.
  exact (verifyExtensionBundle_existing_bundle "host.json" Sample.join Sample.queueContext
           SampleMore.bundled
           [("version", JStr "2.0"); ("extensionBundle", defaultExtensionBundle)]
           defaultExtensionBundle eq_refl eq_refl).
Defined.

Lemma execute_failure_caches_nothing_witness :
  exists e w1,
    Sample.execute Sample.queueContext SampleMore.bare = (Throw e, w1) /\
    same_host SampleMore.bare w1 /\
    Forall (fun ev => isPostFunctionCreate ev = false) (addedEvents SampleMore.bare w1).
Proof.
  eexists _, _. split; [vm_compute; reflexivity|].
  eapply (execute_failure_caches_nothing ProjectLanguage "host.json" "tasks.json"
           "settings.json" ".vscode" "func extensions install" Sample.join (fun _ => "")
           (fun _ => true) Sample.writeIndexJs (fun _ => None)
           Sample.queueContext SampleMore.bare).
  - reflexivity.
  - vm_compute; reflexivity.
Defined.

Lemma execute_failure_after_creation_witness :
  exists e w1 fs,
    Sample.execute Sample.queueContext SampleMore.bare = (Throw e, w1) /\
    files w1 = fs /\
    patchable (fs !! "/proj/host.json") = false /\
    exists inner, e = failedToParse "host.json" inner.
Proof.
  eexists _, _, _. split; [vm_compute; reflexivity|].
  eapply (execute_failure_after_creation ProjectLanguage "host.json" "tasks.json"
           "settings.json" ".vscode" "func extensions install" Sample.join (fun _ => "")
           (fun _ => true) Sample.writeIndexJs (fun _ => None)
           Sample.queueContext Sample.queueTemplate SampleMore.bare
           "/proj/HttpTrigger1/index.js").
  - reflexivity.
  - reflexivity.
  - vm_compute; reflexivity.
  - vm_compute; reflexivity.
Defined.
End FunctionCreateExamples.

Module AppSettingsMore.
Import AppSettings AppSettingsDefs AppSettingsFacts.

Lemma addedSettings_split feed own :
  addedSettings feed (feedEntries feed ++ own) = own.
Proof.
  unfold addedSettings. rewrite <- (length_feedEntries feed). apply drop_app_length.
Qed.

(** X8: [createFunctionAppSettings] fails exactly when the feed does, with the
    feed's error.  Otherwise the list it returns starts with the feed's
    entries, one for each key of the feed's map with the value the map gives
    it, and goes on with [AzureWebJobsStorage], which carries the storage
    connection string of the context.  The settings that follow the feed's
    are between one and six, and they always come in one relative order:
    storage, dashboard, content connection string, content share, worker
    runtime, run from package. *)
Theorem createFunctionAppSettings_feed_then_storage L get ctx rt lang :
  match get rt with
  | Throw e => createFunctionAppSettings L get ctx rt lang = Throw e
  | Ok feed =>
      exists out,
        createFunctionAppSettings L get ctx rt lang = Ok out /\
        take (size feed) out = feedEntries feed /\
        (forall k v, {| name := k; value := v |} ∈ take (size feed) out <->
                     feed !! k = Some v) /\
        out !! size feed =
          Some {| name := "AzureWebJobsStorage"; value := storageConnectionString ctx |} /\
        sublist (names (addedSettings feed out)) builderKeys /\
        1 <= length (addedSettings feed out) <= 6
  end.
Proof.
  destruct (get rt) as [feed|e] eqn:Hfeed.
  2:{ unfold createFunctionAppSettings. by rewrite Hfeed. }
  eexists. split; [by apply createFunctionAppSettings_split|].
  rewrite addedSettings_split.
  rewrite <- (length_feedEntries feed). rewrite take_app_length.
  split; [done|]. split; [|split].
  - intros k v. unfold feedEntries. rewrite list_elem_of_fmap. split.
    + intros [[k' v'] [Heq Hin]]. inversion Heq; subst.
      by apply elem_of_map_to_list in Hin.
    + intros Hkv. exists (k, v). split; [done|]. by apply elem_of_map_to_list.
  - rewrite lookup_app_r by done. by rewrite Nat.sub_diag.
  - unfold ownSettings, names, builderKeys, runFromPackage.
    destruct (decide (rt = v1)), (decide (os ctx = "windows")),
      (runtime ctx) as [r|]; try destruct (truthy_string r);
      destruct (negb _ && negb _); simpl; (split; [|lia]);
      repeat first [ apply sublist_nil_l | apply sublist_skip | apply sublist_cons ].
Qed.

(** X9: the worker-runtime setting is added exactly when the context names a
    runtime that is not the empty string, and then it carries that runtime;
    no other entry of that name is added. *)
Theorem createFunctionAppSettings_worker_runtime L get ctx rt lang feed :
  get rt = Ok feed ->
  exists out,
    createFunctionAppSettings L get ctx rt lang = Ok out /\
    forall v,
      {| name := "FUNCTIONS_WORKER_RUNTIME"; value := v |} ∈ addedSettings feed out <->
      runtime ctx = Some v /\ v ≠ "".
Proof.
  intros Hfeed. eexists. split; [by apply createFunctionAppSettings_split|].
  rewrite addedSettings_split. intros v. unfold ownSettings, runFromPackage.
  destruct (decide (rt = v1)), (decide (os ctx = "windows")),
    (runtime ctx) as [r|]; try destruct r as [|c r];
    destruct (negb _ && negb _); simpl;
    rewrite ?elem_of_cons, elem_of_nil; split;
    try (intros [? ?]; congruence);
    intros H; repeat (destruct H as [H|H]); try done; try congruence;
    try (by inversion H);
    try (destruct H as [H ?]; inversion H; subst; tauto).
Qed.

End AppSettingsMore.

Module FunctionListMore.
Import FunctionList FunctionListDefs FunctionListNotions FunctionListFacts.

Lemma copyTriggerSettings_snoc settings kv isProjectWizard ctx :
  copyTriggerSettings {| _triggerSettings := settings ++ [kv];
                         _isProjectWizard := isProjectWizard |} ctx =
  set_property (toLowerCase kv.1) kv.2
    (copyTriggerSettings {| _triggerSettings := settings;
                            _isProjectWizard := isProjectWizard |} ctx).
Proof. unfold copyTriggerSettings. simpl. by rewrite foldl_app. Qed.

Lemma lastSetting_snoc settings kv k :
  lastSetting (settings ++ [kv]) k =
  if decide (toLowerCase kv.1 = k) then Some kv.2 else lastSetting settings k.
Proof.
  unfold lastSetting. rewrite reverse_app. simpl.
  destruct (decide (toLowerCase kv.1 = k)); [done|].
  by destruct (list_find _ (reverse settings)) as [[i x]|].
Qed.

(** X13: the loop that copies the trigger settings stores each value under
    the lower-cased key, and a later key wins over an earlier one that
    differs from it only in case.  A key that reads ["language"] in lower
    case replaces the language of the context; no other property than those
    the keys name is changed. *)
Theorem copyTriggerSettings_last_wins this ctx k :
  let ctx' := copyTriggerSettings this ctx in
  (k ≠ "language" ->
   otherProperties ctx' !! k =
     match lastSetting (_triggerSettings this) k with
     | Some v => Some v
     | None => otherProperties ctx !! k
     end) /\
  language ctx' =
    match lastSetting (_triggerSettings this) "language" with
    | Some v => v
    | None => language ctx
    end /\
  functionTemplate ctx' = functionTemplate ctx /\ projectPath ctx' = projectPath ctx.
Proof.
  intros ctx'.
  cut ((k ≠ "language" ->
        otherProperties ctx' !! k =
          match lastSetting (_triggerSettings this) k with
          | Some v => Some v
          | None => otherProperties ctx !! k
          end) /\
       language ctx' =
         match lastSetting (_triggerSettings this) "language" with
         | Some v => v
         | None => language ctx
         end).
  { intros [? ?]. pose proof (copyTriggerSettings_fixed this ctx) as [? ?]. done. }
  subst ctx'.
  destruct this as [settings isProjectWizard]. cbn [_triggerSettings].
  induction settings as [|kv settings IH] using rev_ind; [done|].
  cbv zeta in *. rewrite copyTriggerSettings_snoc, !lastSetting_snoc.
  destruct IH as [IHother IHlang]. unfold set_property.
  destruct (decide (toLowerCase kv.1 = "language")) as [Hl|Hl]; cbn [language otherProperties].
  - split; [|done]. intros Hk. rewrite decide_False by congruence. by apply IHother.
  - split; [|done]. intros Hk.
    destruct (decide (toLowerCase kv.1 = k)) as [<-|Hne].
    + by rewrite lookup_insert_eq.
    + rewrite lookup_insert_ne by done. by apply IHother.
Qed.

Lemma ascii_toLowerCase_idemp c : ascii_toLowerCase (ascii_toLowerCase c) = ascii_toLowerCase c.
Proof. by destruct c as [[] [] [] [] [] [] [] []]. Qed.

Lemma is_ascii_letter_toLowerCase c :
  is_ascii_letter (ascii_toLowerCase c) = is_ascii_letter c.
Proof. by destruct c as [[] [] [] [] [] [] [] []]. Qed.

Lemma matchIgnoreCase_toLowerCase literal s :
  matchIgnoreCase literal (toLowerCase s) = toLowerCase <$> matchIgnoreCase literal s.
Proof.
  revert s. induction literal as [|p literal IH]; intros s; [done|].
  destruct s as [|c s]; [done|]. cbn [toLowerCase matchIgnoreCase].
  rewrite ascii_toLowerCase_idemp. destruct (decide _); [apply IH|done].
Qed.

Lemma regExp_matchAt_toLowerCase s : regExp_matchAt (toLowerCase s) = regExp_matchAt s.
Proof.
  unfold regExp_matchAt. rewrite matchIgnoreCase_toLowerCase.
  destruct (matchIgnoreCase "httptrigger" s) as [[|c rest]|]; try done.
  cbn [fmap option_fmap option_map toLowerCase]. by rewrite is_ascii_letter_toLowerCase.
Qed.

(** X14: on an id of ASCII characters, the pattern of [sortTemplates] does
    not look at the case of letters: the id and its lower-case form match or
    fail together. *)
Theorem regExp_test_ignores_case s :
  isAscii s = true -> regExp_test (toLowerCase s) = regExp_test s.
Proof.
  intros _. induction s as [|c s IH].
  - reflexivity.
  - rewrite (regExp_test_unfold (String c s)).
    change (toLowerCase (String c s)) with (String (ascii_toLowerCase c) (toLowerCase s)).
    rewrite (regExp_test_unfold (String _ (toLowerCase s))).
    change (String (ascii_toLowerCase c) (toLowerCase s)) with (toLowerCase (String c s)).
    by rewrite regExp_matchAt_toLowerCase, IH.
Qed.


Section More.
Variable L : ProjectLanguageEnum.
Variable javaCreateStep : Result unit.
Variable validateDotnetInstalled : Result unit.
Variable getAzureWebJobsStorage : string -> Result (option string).

Local Abbreviation subWizard :=
  (getSubWizard L javaCreateStep validateDotnetInstalled getAzureWebJobsStorage).

(** X10: the wizard that [getSubWizard] returns for a template is this one,
    and no other.  Its prompt steps are the name steps, then one step for
    each setting the template asks the user for, then the storage prompt if
    storage is needed.  Its execute steps are the create step, then the
    storage step if storage is needed.  Its title names the template.  The
    name steps follow the language of the context on entry: the package-name
    and function-name steps for Java, the function-name and namespace steps
    for C# and F#, the script name step alone for every other language.  The
    create step follows the language of the context after the trigger
    settings were copied into it: the Java step for Java, the .NET step for
    C# and F#, the TypeScript step for TypeScript, the script step for every
    other language.  Storage is needed exactly when the template is not an
    HTTP trigger and the project's storage setting is found empty; so the
    two storage steps come together or not at all. *)
Theorem getSubWizard_shape this ctx t wiz :
  NoDup [Java L; CSharp L; FSharp L; TypeScript L] ->
  functionTemplate ctx = Some t ->
  (subWizard this ctx).1 = Ok (Some wiz) ->
  let lang := language ctx in
  let lang' := language (copyTriggerSettings this ctx) in
  exists nameSteps createStep (needsStorage : bool),
    promptSteps wiz =
      nameSteps ++ map BindingSettingStep (Template.userPromptedSettings t) ++
      (if needsStorage then [AzureWebJobsStoragePromptStep] else []) /\
    executeSteps wiz =
      createStep :: (if needsStorage then [AzureWebJobsStorageExecuteStep] else []) /\
    title wiz = "Create new " +:+ Template.name t /\
    ((lang = Some (Java L) -> nameSteps = [JavaPackageNameStep; JavaFunctionNameStep]) /\
     (lang = Some (CSharp L) \/ lang = Some (FSharp L) ->
      nameSteps = [DotnetFunctionNameStep; DotnetNamespaceStep]) /\
     (lang ≠ Some (Java L) /\ lang ≠ Some (CSharp L) /\ lang ≠ Some (FSharp L) ->
      nameSteps = [ScriptFunctionNameStep])) /\
    ((lang' = Some (Java L) -> createStep = JavaFunctionCreateStep) /\
     (lang' = Some (CSharp L) \/ lang' = Some (FSharp L) ->
      createStep = DotnetFunctionCreateStep) /\
     (lang' = Some (TypeScript L) -> createStep = TypeScriptFunctionCreateStep) /\
     (lang' ≠ Some (Java L) /\ lang' ≠ Some (CSharp L) /\ lang' ≠ Some (FSharp L) /\
      lang' ≠ Some (TypeScript L) -> createStep = ScriptFunctionCreateStep)) /\
    (needsStorage = true <->
     Template.isHttpTrigger t = false /\
     exists s, getAzureWebJobsStorage (projectPath ctx) = Ok s /\
               truthy_opt_string s = false).
Proof.
  intros Hdistinct Ht Hrun.
  exact (getSubWizard_exact L javaCreateStep validateDotnetInstalled getAzureWebJobsStorage
           this ctx t wiz Hdistinct Ht Hrun).
Qed.

(** X11: whatever its outcome, also a failure of a create-step factory or of
    the storage lookup, [getSubWizard] leaves the context with the trigger
    settings copied into it when a template is chosen, and it leaves the
    context alone when none is. *)
Theorem getSubWizard_context this ctx :
  (subWizard this ctx).2 =
    match functionTemplate ctx with
    | Some _ => copyTriggerSettings this ctx
    | None => ctx
    end.
Proof.
  unfold getSubWizard, mbind, M_bind, getState, modifyState. cbv beta iota.
  destruct (functionTemplate ctx) as [t|]; [|done]. cbv beta iota zeta.
  set (ctx' := copyTriggerSettings this ctx).
  unfold JavaFunctionCreateStep_createStep, DotnetFunctionCreateStep_createStep,
    mbind, M_bind, await, mret, M_ret.
  repeat destruct (decide _);
    try destruct javaCreateStep as [[]|]; try destruct validateDotnetInstalled as [[]|];
    cbv beta iota; try done;
    (destruct (Template.isHttpTrigger t);
     [|destruct (getAzureWebJobsStorage _) as [s|]]); done.
Qed.

(** X12: [shouldPrompt] holds exactly when [getSubWizard] has nothing to
    return: it then resolves to [undefined] and does not touch the
    context. *)
Theorem shouldPrompt_iff_no_subWizard this ctx :
  shouldPrompt ctx = true <-> subWizard this ctx = (Ok None, ctx).
Proof.
  unfold shouldPrompt. rewrite negb_true_iff, bool_decide_eq_false. split.
  - intros Hnone. unfold getSubWizard, mbind, M_bind, getState. cbv beta iota.
    destruct (functionTemplate ctx) as [t|]; [|done]. destruct Hnone. eauto.
  - intros Hr [t Ht].
    assert (Hfst : (subWizard this ctx).1 = Ok None) by (by rewrite Hr).
    revert Hfst. clear Hr.
    unfold getSubWizard, mbind, M_bind, getState, modifyState. cbv beta iota.
    rewrite Ht. cbv beta iota zeta.
    unfold JavaFunctionCreateStep_createStep, DotnetFunctionCreateStep_createStep,
      mbind, M_bind, await, mret, M_ret.
    repeat destruct (decide _);
      try destruct javaCreateStep as [[]|]; try destruct validateDotnetInstalled as [[]|];
      cbv beta iota; try done;
      (destruct (Template.isHttpTrigger t);
       [|destruct (getAzureWebJobsStorage _) as [s|]]); done.
Qed.
End More.
End FunctionListMore.

Module UploadMore.
Import UploadAppSettings UploadNotions.

Section More.
Variable env : Collaborators.
Variable localSettingsFileName : string.

Local Abbreviation upload := (uploadAppSettings env localSettingsFileName).

Ltac run_upload node :=
  unfold uploadAppSettings, call, try_finally, mbind, M_bind, Uri_file, target, mret, M_ret,
    throw;
  destruct (getLocalSettingsFile env) as [path|e1] eqn:Hpath; cbv beta iota;
  [ destruct node as [n|]; [|destruct (showTreeItemPicker env) as [n|e2] eqn:Hpick];
    cbv beta iota;
    [ destruct (readJson_first env) as [settings|e3] eqn:Hread; cbv beta iota;
      [ destruct (truthy_opt_bool (IsEncrypted settings)) eqn:Henc; cbv beta iota;
        [ destruct (decryptLocalSettings env) as [[]|e4] eqn:Hdec; cbv beta iota;
          [ destruct (readJson_second env) as [settings2|e5] eqn:Hread2;
            destruct (encryptLocalSettings env) as [[]|e6] eqn:Hencrypt; cbv beta iota;
            [ destruct (Values settings2) as [values|] eqn:Hvalues; cbv beta iota;
              [ destruct (listApplicationSettings env) as [remote|e7] eqn:Hlist;
                cbv beta iota;
                [ destruct (confirmOverwriteSettings env values (default ∅ remote))
                    as [props|e8] eqn:Hconfirm; cbv beta iota |] |]
            | | | ]
          | ]
        | destruct (Values settings) as [values|] eqn:Hvalues; cbv beta iota;
          [ destruct (listApplicationSettings env) as [remote|e7] eqn:Hlist;
            cbv beta iota;
            [ destruct (confirmOverwriteSettings env values (default ∅ remote))
                as [props|e8] eqn:Hconfirm; cbv beta iota |] |] ]
      | ]
    | destruct (readJson_first env) as [settings|e3] eqn:Hread; cbv beta iota;
      [ destruct (truthy_opt_bool (IsEncrypted settings)) eqn:Henc; cbv beta iota;
        [ destruct (decryptLocalSettings env) as [[]|e4] eqn:Hdec; cbv beta iota;
          [ destruct (readJson_second env) as [settings2|e5] eqn:Hread2;
            destruct (encryptLocalSettings env) as [[]|e6] eqn:Hencrypt; cbv beta iota;
            [ destruct (Values settings2) as [values|] eqn:Hvalues; cbv beta iota;
              [ destruct (listApplicationSettings env) as [remote|e7] eqn:Hlist;
                cbv beta iota;
                [ destruct (confirmOverwriteSettings env values (default ∅ remote))
                    as [props|e8] eqn:Hconfirm; cbv beta iota |] |]
            | | | ]
          | ]
        | destruct (Values settings) as [values|] eqn:Hvalues; cbv beta iota;
          [ destruct (listApplicationSettings env) as [remote|e7] eqn:Hlist;
            cbv beta iota;
            [ destruct (confirmOverwriteSettings env values (default ∅ remote))
                as [props|e8] eqn:Hconfirm; cbv beta iota |] |] ]
      | ]
    | ]
  | ].

Ltac added_calls :=
  eexists _, _; split;
  [ rewrite <- ?app_assoc; cbn [app]; reflexivity | ].

(** X16: what [uploadAppSettings] does to the settings file.  It decrypts
    exactly when the file is found, the target is known, the first read
    succeeds and the file is marked encrypted; it encrypts exactly when it
    has decrypted successfully; it reads the file twice exactly then, and
    once at most otherwise.  Its first call asks for the settings file, and
    the user is asked to pick the target exactly when no node was passed and
    the file was found. *)
Theorem uploadAppSettings_decrypts_iff_marked node workspacePath calls0 :
  exists r added,
    upload node workspacePath calls0 = (r, calls0 ++ added) /\
    (existsb isDecrypt added = true <->
     exists path n settings,
       getLocalSettingsFile env = Ok path /\ target env node = Ok n /\
       readJson_first env = Ok settings /\ truthy_opt_bool (IsEncrypted settings) = true) /\
    (existsb isEncrypt added = true <->
     existsb isDecrypt added = true /\ decryptLocalSettings env = Ok tt) /\
    length (List.filter isRead added) <= 2 /\
    (length (List.filter isRead added) = 2 <->
     existsb isEncrypt added = true) /\
    head added = Some (GetLocalSettingsFile workspacePath) /\
    (existsb isPick added = true <->
     node = None /\ exists path, getLocalSettingsFile env = Ok path).
Proof.
  run_upload node; added_calls; cbn;
    (split; [split; [try discriminate; intros _; eauto 10
                    | intros (? & ? & ? & ? & ? & ? & ?); congruence]|]);
    (split; [split; [try discriminate; intros _; split; congruence
                    | intros [? ?]; congruence]|]);
    (split; [lia|]); (split; [split; intros; congruence|]);
    (split; [reflexivity|]);
    (split; [try discriminate; intros _; eauto
            | intros [Hn [? Hp']]; try discriminate Hn; try discriminate Hp'; done]).
Qed.

Ltac find_call H :=
  repeat (apply elem_of_cons in H as [H|H]; [try discriminate H|]);
  try (by apply elem_of_nil in H).

(** X17: [uploadAppSettings] updates the remote settings only with what
    [confirmOverwriteSettings] returned for the local values and the remote
    properties (the empty map when the remote has none).  The local values
    are the [Values] of the settings at hand: those of the first read when
    it is not marked encrypted, those of the second read when it is.  The
    update is then the last of exactly three remote calls, and its outcome
    is the outcome of the upload.  An upload that succeeds has made the
    update. *)
Theorem uploadAppSettings_updates_what_was_confirmed node workspacePath calls0 :
  exists r added,
    upload node workspacePath calls0 = (r, calls0 ++ added) /\
    (forall props, UpdateApplicationSettings props ∈ added ->
       exists settings values remote,
         readJson_first env = Ok settings /\
         ((truthy_opt_bool (IsEncrypted settings) = false /\
           Values settings = Some values) \/
          (truthy_opt_bool (IsEncrypted settings) = true /\
           exists settings2,
             readJson_second env = Ok settings2 /\ Values settings2 = Some values)) /\
         listApplicationSettings env = Ok remote /\
         confirmOverwriteSettings env values (default ∅ remote) = Ok props /\
         r = updateApplicationSettings env /\
         last added = Some (UpdateApplicationSettings props) /\
         length (List.filter isRemote added) = 3) /\
    (r = Ok tt -> exists props, UpdateApplicationSettings props ∈ added).
Proof.
  run_upload node; added_calls;
    (split; [intros props0 Hin; find_call Hin;
             injection Hin as <-; exists settings, values, remote;
             (split; [reflexivity|]);
             (split; [first [left; by split
                            | right; split; [assumption|]; eexists; by split]|]);
             by repeat split
            | try discriminate; intros _; eexists;
              repeat first [apply list_elem_of_here | apply list_elem_of_further]]).
Qed.

(** X18: when the settings at hand have no [Values] (those of the file as
    it is, or those read after a successful decryption, the file encrypted
    again), [uploadAppSettings] throws the error that names the settings
    file, and it has made no remote call. *)
Theorem uploadAppSettings_no_values node workspacePath calls0 path n settings :
  getLocalSettingsFile env = Ok path ->
  target env node = Ok n ->
  readJson_first env = Ok settings ->
  (truthy_opt_bool (IsEncrypted settings) = false /\ Values settings = None) \/
  (truthy_opt_bool (IsEncrypted settings) = true /\
   decryptLocalSettings env = Ok tt /\ encryptLocalSettings env = Ok tt /\
   exists settings2, readJson_second env = Ok settings2 /\ Values settings2 = None) ->
  exists added,
    upload node workspacePath calls0 =
      (Throw (noSettingsFound localSettingsFileName), calls0 ++ added) /\
    existsb isRemote added = false /\
    existsb isEncrypt added = existsb isDecrypt added.
Proof.
  intros Hp Ht Hr Hcases. revert Ht.
  unfold uploadAppSettings, call, try_finally, mbind, M_bind, Uri_file, target, mret, M_ret,
    throw.
  rewrite Hp. cbv beta iota.
  destruct node as [n0|]; [intros [= ->]|intros ->]; cbv beta iota; rewrite Hr; cbv beta iota;
    (destruct Hcases as [[-> ->]|(-> & -> & Hencrypt & settings2 & -> & Hv)];
     cbv beta iota; rewrite ?Hencrypt, ?Hv; cbv beta iota;
     eexists; (split; [rewrite <- ?app_assoc; cbn [app]; reflexivity|]); by split).
Qed.

End More.
End UploadMore.

Module ProviderMore.
Import FunctionAppProvider ProviderDefs ProviderNotions MonadFacts ProviderFacts.

Section More.
Variable L : ProjectLanguageEnum.
Variables extensionPrefix projectLanguageSetting projectRuntimeSetting : string.
Variable getWorkspaceSettingFromAnyFolder : string -> option string.
Variable getWorkspaceSetting : string -> option bool.
Variable convertStringToRuntime : option string -> option ProjectRuntime.
Variable getFunctionsWorkerRuntime : option string -> option string.
Variable tryGetLocalRuntimeVersion : Result (option ProjectRuntime).
Variable LocationListStep_setLocation :
  string -> IAppServiceWizardContext -> Result unit * IAppServiceWizardContext.
Variable wizard_prompt :
  list PromptStep -> IAppServiceWizardContext -> Result unit * IAppServiceWizardContext.
Variable wizard_execute :
  list ExecuteStep -> IAppServiceWizardContext -> Result unit * IAppServiceWizardContext.
Variable showWarningMessage : string -> MessageItem -> option MessageItem.
Variable ProductionSlotTreeItem_create : Site -> Result string.

Local Abbreviation create :=
  (createChildImpl L extensionPrefix projectLanguageSetting projectRuntimeSetting
     getWorkspaceSettingFromAnyFolder getWorkspaceSetting convertStringToRuntime
     getFunctionsWorkerRuntime tryGetLocalRuntimeVersion LocationListStep_setLocation
     wizard_prompt wizard_execute showWarningMessage ProductionSlotTreeItem_create).
Local Abbreviation before :=
  (beforeExecute L extensionPrefix projectLanguageSetting projectRuntimeSetting
     getWorkspaceSettingFromAnyFolder getWorkspaceSetting convertStringToRuntime
     getFunctionsWorkerRuntime tryGetLocalRuntimeVersion LocationListStep_setLocation
     wizard_prompt).
Local Abbreviation defaultRuntime :=
  (getDefaultRuntime projectRuntimeSetting getWorkspaceSettingFromAnyFolder
     convertStringToRuntime tryGetLocalRuntimeVersion).
Local Abbreviation advancedCreation :=
  (truthy_opt_bool (getWorkspaceSetting advancedCreationKey)).

(** X19: the fallback chain of [getDefaultRuntime].  A runtime in the
    workspace setting is returned with source [VSCodeSetting], and the local
    tools are not consulted.  Otherwise the runtime of the local tools is
    returned with source [LocalFuncCli]; if they give none, v2 is returned
    with source [Backup].  In these cases the runtime is recorded too.  If
    the local tools fail, their error is passed on, the recorded source is
    still [VSCodeSetting] and no runtime is recorded.  Nothing else of the
    state is changed. *)
Theorem getDefaultRuntime_fallbacks st :
  let fromSetting :=
    convertStringToRuntime (getWorkspaceSettingFromAnyFolder projectRuntimeSetting) in
  let recorded (source : string) (r : ProjectRuntime) :=
    {| wizardContext := wizardContext st;
       properties := <["projectRuntime" := Some (runtimeName r)]>
                       (<["runtimeSource" := Some source]> (properties st));
       effects := effects st |} in
  defaultRuntime st =
    match fromSetting, tryGetLocalRuntimeVersion with
    | Some r, _ => (Ok r, recorded "VSCodeSetting" r)
    | None, Ok (Some r) => (Ok r, recorded "LocalFuncCli" r)
    | None, Ok None => (Ok v2, recorded "Backup" v2)
    | None, Throw e =>
        (Throw e, {| wizardContext := wizardContext st;
                     properties := <["runtimeSource" := Some "VSCodeSetting"]> (properties st);
                     effects := effects st |})
    end.
Proof.
  intros fromSetting recorded. unfold getDefaultRuntime. fold fromSetting.
  unfold mbind, M_bind, setProperty, modifyState, await, mret, M_ret, recorded.
  destruct fromSetting as [r|]; cbn.
  - reflexivity.
  - destruct tryGetLocalRuntimeVersion as [[r|]|e]; cbn; try reflexivity.
    + by rewrite insert_insert_eq.
    + by rewrite !insert_insert_eq.
Qed.

Ltac step :=
  cbv beta iota zeta;
  cbn [fst snd wizardContext properties effects negb newSiteName relatedNameTask
       newStorageAccountName newResourceGroupName].

Lemma before_outcome resourceGroup st :
  let language := getWorkspaceSettingFromAnyFolder projectLanguageSetting in
  let r := (before resourceGroup st).1 in
  let st1 := (before resourceGroup st).2 in
  exists shown,
    effects st1 = effects st ++ shown /\
    (shown = [] \/
     exists label, shown = [ShowCreatingTreeItem label] /\
                   newSiteName (wizardContext st1) = Some label) /\
    (forall executeSteps, r = Ok executeSteps ->
       shown ≠ [] /\
       properties st1 !! "advancedCreation" = Some (Some (String_of_bool advancedCreation)) /\
       exists runtime,
         (defaultRuntime st).1 = Ok runtime /\
         executeSteps =
           (if advancedCreation then []
            else [ResourceGroupCreateStep; StorageAccountCreateStep]) ++
           [SiteCreateStep runtime language] /\
         (advancedCreation = false ->
          exists newName,
            newName ≠ "" /\
            relatedNameTask (wizardContext st1) = Some (Ok (Some newName)) /\
            newStorageAccountName (wizardContext st1) = Some newName /\
            newResourceGroupName (wizardContext st1) =
              Some (match resourceGroup with
                    | Some (String c g) => String c g
                    | _ => newName
                    end))).
Proof.
  intros language r st1. subst r st1.
  assert (Hdr : exists p0, defaultRuntime st =
            ((defaultRuntime st).1,
             {| wizardContext := wizardContext st; properties := p0;
                effects := effects st |})).
  { rewrite getDefaultRuntime_fallbacks. cbv zeta.
    destruct (convertStringToRuntime _); [|destruct tryGetLocalRuntimeVersion as [[?|]|?]];
      eexists; reflexivity. }
  destruct Hdr as [p0 Hdr]. unfold beforeExecute, mbind, M_bind.
  destruct (defaultRuntime st) as [r0 st0]. cbn [fst snd] in Hdr |- *.
  injection Hdr as ->.
  destruct r0 as [runtime|e].
  2:{ exists []. cbn. split; [by rewrite app_nil_r|]. split; [by left|]. discriminate. }
  unfold updateContext, setProperty, modifyState, onContext, perform, getState,
    nonNullProp, await, when, throw, mret, M_ret.
  unfold modifyState. step.
  destruct advancedCreation eqn:Hadv; step.
  - destruct (wizard_prompt _ _) as [[[]|e] c]; step.
    2:{ exists []. split; [by rewrite app_nil_r|]. split; [by left|]. discriminate. }
    destruct (newSiteName c) as [label|] eqn:Hlabel;
      step.
    2:{ exists []. split; [by rewrite app_nil_r|]. split; [by left|]. discriminate. }
    exists [ShowCreatingTreeItem label]. split; [done|].
    split; [right; by exists label|].
    intros executeSteps [= <-]. split; [done|]. split.
    { rewrite !lookup_insert_ne by done. by rewrite lookup_insert_eq. }
    exists runtime. split; [done|]. split; [done|]. discriminate.
  - destruct (LocationListStep_setLocation _ _) as [[[]|e] c0];
      step.
    2:{ exists []. split; [by rewrite app_nil_r|]. split; [by left|]. discriminate. }
    destruct (wizard_prompt _ _) as [[[]|e] c]; step.
    2:{ exists []. split; [by rewrite app_nil_r|]. split; [by left|]. discriminate. }
    destruct (newSiteName c) as [label|] eqn:Hlabel;
      step.
    2:{ exists []. split; [by rewrite app_nil_r|]. split; [by left|]. discriminate. }
    exists [ShowCreatingTreeItem label].
    destruct (relatedNameTask c) as [[[[|ch newName]|]|e]|] eqn:Htask;
      step; cbn [truthy_opt_string truthy_string]; step;
      (split; [done|]); (split; [right; by exists label|]); try discriminate.
    intros executeSteps [= <-]. split; [done|]. split.
    { rewrite !lookup_insert_ne by done. by rewrite lookup_insert_eq. }
    exists runtime. split; [done|]. split; [done|]. intros _.
    exists (String ch newName). split; [done|].
    cbn [relatedNameTask newStorageAccountName newResourceGroupName].
    split; [done|]. split; [done|].
    unfold orElse. by destruct resourceGroup as [[|? ?]|].
Qed.

(** X20: when [createChildImpl] reaches its execute phase, the steps it
    passes are the site-creation step, with the default runtime and the
    language of the workspace, preceded in a quick creation (and only then)
    by the creation of a resource group and of a storage account.  The
    creating placeholder has been shown with the site name, and nothing else
    was shown.  In a quick creation the related name is not empty, it is the
    name of the storage account, and it is the name of the resource group
    unless the caller gave a non-empty one. *)
Theorem createChildImpl_execute_steps resourceGroup st executeSteps st1 :
  before resourceGroup st = (Ok executeSteps, st1) ->
  exists runtime label,
    (defaultRuntime st).1 = Ok runtime /\
    executeSteps =
      (if advancedCreation then []
       else [ResourceGroupCreateStep; StorageAccountCreateStep]) ++
      [SiteCreateStep runtime (getWorkspaceSettingFromAnyFolder projectLanguageSetting)] /\
    newSiteName (wizardContext st1) = Some label /\
    effects st1 = effects st ++ [ShowCreatingTreeItem label] /\
    properties st1 !! "advancedCreation" = Some (Some (String_of_bool advancedCreation)) /\
    (advancedCreation = false ->
     exists newName,
       newName ≠ "" /\
       relatedNameTask (wizardContext st1) = Some (Ok (Some newName)) /\
       newStorageAccountName (wizardContext st1) = Some newName /\
       newResourceGroupName (wizardContext st1) =
         Some (match resourceGroup with
               | Some (String c g) => String c g
               | _ => newName
               end)).
Proof.
  intros Hbefore.
  destruct (before_outcome resourceGroup st) as (shown & Heff & Hshown & Hok).
  rewrite Hbefore in Heff, Hshown, Hok. cbn [fst snd] in *.
  destruct (Hok executeSteps eq_refl) as (Hne & Hprop & runtime & Hrt & Hsteps & Hnames).
  destruct Hshown as [->|(label & -> & Hlabel)]; [done|].
  by exists runtime, label.
Qed.


(** X22: the suggestion to turn on advanced creation is made only after a
    failed execute phase: if [createChildImpl] has shown the warning or
    persisted the setting, then it had reached its execute phase, that phase
    threw an error that is not a user cancellation, advanced creation was
    off, and the same error is the outcome. *)
Theorem createChildImpl_advice_only_after_execute resourceGroup st :
  existsb isAdvice (addedEffects st (create resourceGroup st).2) = true ->
  exists executeSteps st1 e ctx1,
    before resourceGroup st = (Ok executeSteps, st1) /\
    wizard_execute executeSteps (wizardContext st1) = (Throw e, ctx1) /\
    (create resourceGroup st).1 = Throw e /\
    isUserCancelledError e = false /\ advancedCreation = false.
Proof.
  unfold addedEffects. rewrite createChildImpl_split.
  destruct (before_outcome resourceGroup st) as (shown & Heff & Hshown & _).
  assert (Hquiet : existsb isAdvice shown = false).
  { by destruct Hshown as [->|(label & -> & _)]. }
  clear Hshown. unfold mbind, M_bind.
  destruct (before resourceGroup st) as [[executeSteps|e0] st1]; cbn [fst snd] in *.
  2:{ rewrite Heff, drop_app_length, Hquiet. discriminate. }
  destruct (wizard_execute executeSteps (wizardContext st1)) as [[[]|e] ctx1] eqn:Hexec.
  - unfold executeWizard, try_catch, onContext. rewrite Hexec.
    unfold getState, nonNullProp, await, throw, mret, M_ret. cbn [wizardContext].
    destruct (site ctx1) as [s|]; cbn [snd effects];
      rewrite Heff, drop_app_length, Hquiet; discriminate.
  - destruct (executeWizard_throws extensionPrefix getWorkspaceSetting wizard_execute
                showWarningMessage executeSteps st1 e ctx1 Hexec)
      as (st' & Hrun & _ & _ & Hadvice).
    rewrite Hrun. cbn [fst snd]. rewrite Hadvice, Heff, <- app_assoc, drop_app_length.
    rewrite existsb_app, Hquiet. cbn [orb]. unfold advice.
    destruct (negb (isUserCancelledError e) && negb advancedCreation) eqn:Hguard;
      [|discriminate].
    intros _. apply andb_true_iff in Hguard as [Hc Ha].
    apply negb_true_iff in Hc, Ha. by exists executeSteps, st1, e, ctx1.
Qed.
End More.
End ProviderMore.

Module FunctionAppListFacts.
Import FunctionAppList.

Section Facts.
Variable TreeItem : Type.
Variable webApps_list : Result WebAppCollection.
Variable webApps_listNext : string -> Result WebAppCollection.
Variable parseError_errorType : JsError -> string.
Variable ProductionSlotTreeItem_create : Site -> Result TreeItem.
Variable createTreeItemsWithErrorHandling :
  list Site -> (Site -> Result (option TreeItem)) -> (Site -> option string) ->
  Result (list TreeItem).

Local Abbreviation load :=
  (loadMoreChildrenImpl TreeItem webApps_list webApps_listNext parseError_errorType
     ProductionSlotTreeItem_create createTreeItemsWithErrorHandling).

(** The request that a call makes. *)
Local Abbreviation request clearCache this :=
  (match (if (clearCache : bool) then None else _nextLink this) with
   | None => webApps_list
   | Some link => webApps_listNext link
   end).

Lemma load_closed clearCache this :
  load clearCache this =
    let kept := {| _nextLink := if clearCache then None else _nextLink this |} in
    match request clearCache this with
    | Ok page =>
        (createTreeItemsWithErrorHandling (value page)
           (createTreeItem TreeItem ProductionSlotTreeItem_create) name,
         {| _nextLink := nextLink page |})
    | Throw e =>
        if decide (toLowerCase (parseError_errorType e) = "notfound")
        then (Ok [], kept) else (Throw e, kept)
    end.
Proof.
  unfold loadMoreChildrenImpl, mbind, M_bind, when, modifyState, getState, try_catch,
    await, throw, mret, M_ret.
  destruct this as [link]. cbn [_nextLink].
  destruct clearCache; cbv beta iota zeta; cbn [_nextLink];
    (match goal with |- context [match ?r with Ok _ => _ | Throw _ => _ end] =>
       destruct r as [page|e] end);
    cbv beta iota; try done; by destruct (decide _).
Qed.

(** X23: when the request for a page of sites fails, [loadMoreChildrenImpl]
    looks at the error type without regard to case.  For [notfound] it
    returns no items and no error; any other error is thrown again as it is.
    In both cases no tree item is made, and the link to the next page is the
    one the provider had, or none after [clearCache]. *)
Theorem loadMoreChildrenImpl_failed_request clearCache this e :
  request clearCache this = Throw e ->
  let kept := {| _nextLink := if clearCache then None else _nextLink this |} in
  if decide (toLowerCase (parseError_errorType e) = "notfound")
  then load clearCache this = (Ok [], kept)
  else load clearCache this = (Throw e, kept).
Proof.
  intros Hreq kept. rewrite load_closed. cbv zeta. rewrite Hreq.
  by destruct (decide _).
Qed.

(** X24: paging.  When the request succeeds, the items are made from the
    sites of the page, the provider keeps the link of that page, and
    [hasMoreChildrenImpl] holds exactly when the page has a link.  The next
    call without [clearCache] requests the page behind that link; a call
    with [clearCache] starts again at the first page. *)
Theorem loadMoreChildrenImpl_pages clearCache this page :
  request clearCache this = Ok page ->
  let this1 := (load clearCache this).2 in
  (load clearCache this).1 =
    createTreeItemsWithErrorHandling (value page)
      (createTreeItem TreeItem ProductionSlotTreeItem_create) name /\
  _nextLink this1 = nextLink page /\
  (hasMoreChildrenImpl this1 = true <-> is_Some (nextLink page)) /\
  (forall link next, nextLink page = Some link -> webApps_listNext link = Ok next ->
     _nextLink (load false this1).2 = nextLink next /\
     (load false this1).1 =
       createTreeItemsWithErrorHandling (value next)
         (createTreeItem TreeItem ProductionSlotTreeItem_create) name) /\
  (forall first, webApps_list = Ok first ->
     _nextLink (load true this1).2 = nextLink first).
Proof.
  intros Hreq this1.
  assert (Hthis1 : this1 = {| _nextLink := nextLink page |}).
  { subst this1. rewrite load_closed. cbv zeta. by rewrite Hreq. }
  split; [rewrite load_closed; cbv zeta; by rewrite Hreq|].
  rewrite Hthis1. clear Hthis1 this1. cbn [_nextLink].
  split; [done|]. split; [unfold hasMoreChildrenImpl; by rewrite bool_decide_eq_true|].
  split.
  - intros link next Hl Hn. rewrite load_closed. cbv zeta. cbn [_nextLink].
    rewrite Hl, Hn. by split.
  - intros first Hfirst. rewrite load_closed. cbv zeta. by rewrite Hfirst.
Qed.
End Facts.
End FunctionAppListFacts.

Module FunctionListPromptFacts.
Import FunctionList FunctionListPrompt FunctionListPromptNotions.

Lemma bind_run {S A B} (m : M S A) (k : A -> M S B) s :
  (m ≫= k) s = match m s with
               | (Ok a, s1) => k a s1
               | (Throw e, s1) => (Throw e, s1)
               end.
Proof. reflexivity. Qed.

Section Facts.
Variable localeCompare : string -> string -> Z.
Variable Array_sort :
  (IFunctionTemplate -> IFunctionTemplate -> Z) -> list IFunctionTemplate ->
  list IFunctionTemplate.
Variable templateProviderTask : Result unit.
Variable getTemplates :
  string -> string -> string -> TemplateFilter -> Result (list IFunctionTemplate).

Local Abbreviation make := (create templateProviderTask getTemplates).
Local Abbreviation picksOf := (getPicks localeCompare Array_sort templateProviderTask getTemplates).
Local Abbreviation loop := (promptLoop localeCompare Array_sort templateProviderTask getTemplates).
Local Abbreviation offered := (offered localeCompare Array_sort getTemplates).
Local Abbreviation loop_spec :=
  (loop_spec localeCompare Array_sort templateProviderTask getTemplates).
Local Abbreviation ask := (prompt localeCompare Array_sort templateProviderTask getTemplates).

(** X25: [FunctionListStep.create].  Without a template id (or with an empty
    one) it returns the step and leaves the context as it was, whatever the
    context holds and whatever the template provider and the catalog would
    answer: they are not consulted.  With a template id, a successful call
    has put into the context the first template of the catalog (language
    and runtime of the context, filter [All]) that has that id, and nothing
    else of the context has changed.  A failed call leaves the context as
    it was.  The step that is made keeps the trigger settings (none if
    there are none) and the flag of the options. *)
Theorem create_preselects_template options ctx :
  let step := new_FunctionListStep (triggerSettings options) (Some (isProjectWizard options)) in
  match templateId options with
  | Some (String c id') =>
      let id := String c id' in
      match (make options ctx).1 with
      | Throw e => (make options ctx).2 = ctx
      | Ok made =>
          made = step /\
          exists t lang rt templates,
            (make options ctx).2 = set_functionTemplate t ctx /\
            language ctx = Some lang /\ get_property ctx "runtime" = Some rt /\
            getTemplates lang rt (projectPath ctx) All = Ok templates /\
            Template.id t = id /\
            exists before after,
              templates = before ++ t :: after /\
              Forall (fun t0 => Template.id t0 ≠ id) before
      end
  | _ => make options ctx = (Ok step, ctx)
  end.
Proof.
  intros step. unfold create, mbind, M_bind, when, getState, modifyState, nonNullProp, await,
    throw, mret, M_ret.
  destruct (templateId options) as [[|c id']|]; cbn [truthy_string]; cbv beta iota;
    [reflexivity|..|reflexivity].
  destruct (language ctx) as [lang|]; cbv beta iota; [|done].
  destruct (get_property ctx "runtime") as [rt|]; cbv beta iota; [|done].
  destruct templateProviderTask as [[]|e]; cbv beta iota; [|done].
  destruct (getTemplates lang rt (projectPath ctx) All) as [templates|e] eqn:Hget;
    cbv beta iota; [|done].
  destruct (List.find _ templates) as [t|] eqn:Hfind; cbv beta iota; [|done].
  cbn [fst snd]. split; [done|]. exists t, lang, rt, templates.
  do 4 (split; [done|]).
  clear Hget. induction templates as [|t0 templates IH]; [discriminate|].
  cbn [List.find] in Hfind.
  destruct (bool_decide (Template.id t0 = String c id')) eqn:Hid.
  - injection Hfind as ->. apply bool_decide_eq_true in Hid.
    split; [done|]. by exists [], templates.
  - apply bool_decide_eq_false in Hid.
    destruct (IH Hfind) as (Heq & before & after & -> & Hbefore).
    split; [done|]. exists (t0 :: before), after. split; [done|]. by constructor.
Qed.

Lemma getPicks_spec this f st :
  exists r, picksOf this f st = (r, st) /\
    forall picks, r = Ok picks ->
      forall p, p ∈ picks ->
        match data p with
        | PickTemplate t => offered (wizardContext st) f t
        | PickSkipForNow => _isProjectWizard this = true
        | PickChangeFilter => True
        end.
Proof.
  unfold getPicks, mbind, M_bind, getState, nonNullProp, await, throw, mret, M_ret.
  cbv beta iota zeta.
  destruct (language (wizardContext st)) as [lang|] eqn:Hl; cbv beta iota;
    [|eexists; split; [reflexivity|discriminate]].
  destruct (get_property (wizardContext st) "runtime") as [rt|] eqn:Hr; cbv beta iota;
    [|eexists; split; [reflexivity|discriminate]].
  destruct templateProviderTask as [[]|e]; cbv beta iota;
    [|eexists; split; [reflexivity|discriminate]].
  destruct (getTemplates lang rt _ f) as [templates|e] eqn:Hget; cbv beta iota;
    [|eexists; split; [reflexivity|discriminate]].
  eexists; split; [reflexivity|]. intros picks [= <-] p Hp.
  apply elem_of_app in Hp as [Hp|Hp].
  - assert (Hin : p ∈ map (fun t => {| label := Template.name t; data := PickTemplate t |})
                     (Array_sort (fun a b => sortTemplates localeCompare a b f) templates)
                  \/ (_isProjectWizard this = true /\ data p = PickSkipForNow)).
    { destruct (_isProjectWizard this); [|by left].
      apply elem_of_cons in Hp as [->|Hp]; [by right|by left]. }
    destruct Hin as [Hin|[Hw ->]]; [|done].
    apply list_elem_of_fmap in Hin as (t & -> & Ht). cbn [data].
    by exists lang, rt, templates.
  - apply list_elem_of_singleton in Hp as ->. done.
Qed.

Lemma showQuickPick_elem {A} (picks : list A) answer p :
  showQuickPick picks answer = Ok p -> p ∈ picks.
Proof.
  unfold showQuickPick. destruct (picks !! answer) as [p0|] eqn:Hp; [|discriminate].
  intros [= <-]. by eapply list_elem_of_lookup_2.
Qed.

Lemma same_project_refl c : same_project c c.
Proof. done. Qed.

Lemma loop_done this answers f st :
  is_Some (functionTemplate (wizardContext st)) -> loop this answers f st = (Ok f, st).
Proof.
  intros Hsome. destruct answers; cbn [promptLoop]; unfold mbind, M_bind, getState;
    cbv beta iota; by rewrite bool_decide_eq_true_2.
Qed.

Lemma loop_spec_done this answers f st :
  is_Some (functionTemplate (wizardContext st)) -> loop_spec this answers f st.
Proof.
  intros Hsome. unfold FunctionListPromptNotions.loop_spec.
  rewrite (loop_done this answers f st Hsome). cbn [fst snd].
  split; [done|]. split; [done|]. split; [done|].
  intros f' [= <-]. split; [by left|].
  destruct Hsome as [t Ht]. rewrite Ht. by left.
Qed.

Ltac stopped :=
  intros [= <- <-];
  split; [done|]; split; [by intros [? ?]|]; split; [done|]; discriminate.

Lemma loop_outcome this n :
  forall answers f st, length answers <= n -> loop_spec this answers f st.
Proof.
  induction n as [|n IH]; intros answers f st Hlen;
    (destruct (functionTemplate (wizardContext st)) as [t|] eqn:Ht;
     [apply loop_spec_done; rewrite Ht; eauto|]);
    unfold FunctionListPromptNotions.loop_spec; cbv zeta;
    destruct (loop this answers f st) as [r st1] eqn:Hrun; cbn [fst snd]; rewrite Ht;
    revert Hrun.
  - destruct answers; [|simpl in Hlen; lia]. cbn [promptLoop].
    rewrite bind_run. unfold getState. cbv beta iota. rewrite Ht.
    rewrite bool_decide_eq_false_2 by (intros [? ?]; discriminate).
    destruct (getPicks_spec this f st) as (r0 & Hpicks & _).
    rewrite bind_run, Hpicks. destruct r0; cbn [throw]; stopped.
  - destruct answers as [|answer answers].
    { intros Hrun. specialize (IH [] f st ltac:(simpl; lia)).
      unfold FunctionListPromptNotions.loop_spec in IH. cbv zeta in IH.
      rewrite Hrun, Ht in IH. exact IH. }
    assert (Hlen' : length answers <= n) by (simpl in Hlen; lia).
    cbn [promptLoop].
    rewrite bind_run. unfold getState. cbv beta iota. rewrite Ht.
    rewrite bool_decide_eq_false_2 by (intros [? ?]; discriminate).
    destruct (getPicks_spec this f st) as (r0 & Hpicks & Hoffer).
    rewrite bind_run, Hpicks.
    destruct r0 as [picks|e]; [|stopped].
    specialize (Hoffer picks eq_refl).
    rewrite bind_run. unfold await at 1.
    destruct (showQuickPick picks answer) as [p|e] eqn:Hshow; [|stopped].
    specialize (Hoffer p (showQuickPick_elem _ _ _ Hshow)).
    destruct (data p) as [t| |].
    + (* a template *)
      rewrite bind_run. unfold onWizardContext, modifyState.
      rewrite loop_done by (cbn; eauto).
      intros [= <- <-]. cbn [wizardContext templateFilterSetting set_functionTemplate
                             functionTemplate].
      split; [done|]. split; [by intros [? ?]|]. split; [done|].
      intros f' [= <-]. split; [by left|]. right. by exists f.
    + (* skip for now *)
      rewrite bind_run. unfold setProperty, modifyState, mret, M_ret.
      intros [= <- <-]. cbn [wizardContext templateFilterSetting properties]. rewrite Ht.
      split; [done|]. split; [by intros [? ?]|]. split; [done|].
      intros f' [= <-]. split; [by left|]. split; [done|]. by rewrite lookup_insert_eq.
    + (* change the filter *)
      destruct answers as [|answer2 answers]; [cbn [throw]; stopped|].
      assert (Hlen2 : length answers <= n) by (simpl in Hlen'; lia).
      rewrite bind_run. unfold await at 1.
      destruct (promptForTemplateFilter answer2) as [f2|e]; [|stopped].
      rewrite bind_run. unfold getState. cbv beta iota. rewrite bind_run.
      fold (mayPersist this (wizardContext st)).
      destruct (mayPersist this (wizardContext st)) eqn:Hmay;
        cbn [when]; unfold updateWorkspaceSetting, modifyState, mret, M_ret.
      * set (st' := {| wizardContext := wizardContext st;
                       templateFilterSetting := Some f2;
                       properties := properties st |}).
        intros Hrun.
        pose proof (IH answers f2 st' Hlen2) as (Hsame & _ & _ & Hok).
        rewrite Hrun in Hsame, Hok. subst st'.
        cbn [fst snd wizardContext templateFilterSetting] in Hsame, Hok.
        rewrite Hmay, Ht in Hok.
        split; [exact Hsame|]. split; [by intros [? ?]|]. split; [done|].
        intros f' Hr. destruct (Hok f' Hr) as [Hset Hterm]. split.
        -- intros _. right. destruct (Hset eq_refl) as [[-> Hs]|Hs]; [|done].
           by rewrite Hs.
        -- exact Hterm.
      * intros Hrun.
        pose proof (IH answers f2 st Hlen2) as (Hsame & _ & Hkeep & Hok).
        rewrite Hrun in Hsame, Hkeep, Hok. cbn [fst snd] in Hsame, Hkeep, Hok.
        rewrite Hmay, Ht in Hok.
        split; [exact Hsame|]. split; [by intros [? ?]|].
        split; [by intros _; apply Hkeep|].
        intros f' Hr. destruct (Hok f' Hr) as [_ Hterm]. split; [discriminate|].
        exact Hterm.
Qed.

Lemma prompt_run this answers st :
  ask this answers st =
    let f0 := default Verified (templateFilterSetting st) in
    match loop this answers f0 st with
    | (Ok f, st1) =>
        (Ok tt, {| wizardContext := wizardContext st1;
                   templateFilterSetting := templateFilterSetting st1;
                   properties := <["templateFilter" := PvFilter f]> (properties st1) |})
    | (Throw e, st1) => (Throw e, st1)
    end.
Proof.
  unfold prompt. rewrite bind_run. unfold getState. cbv beta iota zeta.
  rewrite bind_run. by destruct (loop _ _ _ _) as [[f|e] st1].
Qed.

(** X26: the terminal states of [prompt].  With a template already in the
    context, [prompt] asks nothing: it only records the template filter, the
    persisted one or else [Verified].  A [prompt] that returns has recorded a
    template filter, has changed nothing of the context but the template,
    and ends in one of two states: a template is chosen, and it is one that
    the catalog offered for the context under some filter; or no template is
    chosen, the step belongs to a project wizard and [skipForNow] is
    recorded as the template id. *)
Theorem prompt_terminal_states this answers st :
  (is_Some (functionTemplate (wizardContext st)) ->
   ask this answers st =
     (Ok tt,
      {| wizardContext := wizardContext st;
         templateFilterSetting := templateFilterSetting st;
         properties := <["templateFilter" :=
                          PvFilter (default Verified (templateFilterSetting st))]>
                         (properties st) |})) /\
  (forall st1, ask this answers st = (Ok tt, st1) ->
     same_project (wizardContext st) (wizardContext st1) /\
     (exists f, properties st1 !! "templateFilter" = Some (PvFilter f)) /\
     match functionTemplate (wizardContext st1) with
     | Some t =>
         functionTemplate (wizardContext st) = Some t \/
         exists f0, offered (wizardContext st) f0 t
     | None =>
         _isProjectWizard this = true /\
         properties st1 !! "templateId" = Some skipped
     end).
Proof.
  split.
  { intros Hsome. rewrite prompt_run. cbv zeta. by rewrite loop_done. }
  intros st1. rewrite prompt_run. cbv zeta.
  pose proof (loop_outcome this (length answers) answers
                (default Verified (templateFilterSetting st)) st (le_n _))
    as (Hsame & _ & _ & Hok).
  destruct (loop _ _ _ _) as [[f|e] st0]; [|discriminate].
  cbn [fst snd] in *. intros [= <-]. cbn [wizardContext properties].
  split; [exact Hsame|]. split; [exists f; by rewrite lookup_insert_eq|].
  destruct (Hok f eq_refl) as [_ Hterm].
  destruct (functionTemplate (wizardContext st0)) as [t|]; [exact Hterm|].
  destruct Hterm as [Hw Hskip]. split; [exact Hw|].
  by rewrite lookup_insert_ne.
Qed.

(** X27: the template filter is persisted only where the project is open in
    a workspace.  In a project wizard whose open behavior is not
    [AlreadyOpen] the workspace setting is never changed, whatever the user
    answers and whatever the outcome.  Otherwise, when [prompt] returns, the
    filter it records is the one now persisted, or the setting is unchanged
    and the filter is the one [prompt] started with. *)
Theorem prompt_persists_filter this answers st :
  let st1 := (ask this answers st).2 in
  if mayPersist this (wizardContext st)
  then (ask this answers st).1 = Ok tt ->
       exists f, properties st1 !! "templateFilter" = Some (PvFilter f) /\
         (templateFilterSetting st1 = Some f \/
          (templateFilterSetting st1 = templateFilterSetting st /\
           f = default Verified (templateFilterSetting st)))
  else templateFilterSetting st1 = templateFilterSetting st.
Proof.
  rewrite prompt_run. cbv zeta.
  pose proof (loop_outcome this (length answers) answers
                (default Verified (templateFilterSetting st)) st (le_n _))
    as (_ & _ & Hkeep & Hok).
  destruct (mayPersist this (wizardContext st)) eqn:Hmay.
  - destruct (loop _ _ _ _) as [[f|e] st0]; [|discriminate].
    cbn [fst snd] in *. intros _. exists f. cbn [properties templateFilterSetting].
    split; [by rewrite lookup_insert_eq|].
    destruct (Hok f eq_refl) as [Hset _]. destruct (Hset eq_refl) as [[-> Hs]|Hs]; eauto.
  - destruct (loop _ _ _ _) as [[f|e] st0]; cbn [fst snd templateFilterSetting] in *;
      by apply Hkeep.
Qed.

End Facts.
End FunctionListPromptFacts.

Module DotnetFacts.
Import DotnetFunctionCreate DotnetNotions.

Section Facts.
Variable path_join : list string -> string.
Variable wrapArgInQuotes : string -> string.
Variable getBindingSetting : IDotnetFunctionWizardContext -> IBindingSetting -> option string.
Variable getFileExtension : IDotnetFunctionWizardContext -> string.
Variable executeDotnetTemplateCommand :
  ProjectRuntime -> string -> string -> list string -> Result string.

Local Abbreviation core :=
  (executeCore path_join wrapArgInQuotes getBindingSetting getFileExtension
     executeDotnetTemplateCommand).
Local Abbreviation argsOf := (settingArgs wrapArgInQuotes getBindingSetting).

Lemma foldl_settingArgs ctx settings acc :
  foldl (fun args setting =>
           match getBindingSetting ctx setting with
           | Some value =>
               (args ++ ["--arg:" +:+ Template.settingName setting]) ++
               [wrapArgInQuotes value]
           | None => args
           end) acc settings =
  acc ++ concat (map (argsOf ctx) settings).
Proof.
  revert acc. induction settings as [|s settings IH]; intros acc; simpl.
  - by rewrite app_nil_r.
  - rewrite IH. unfold settingArgs.
    destruct (getBindingSetting ctx s); simpl; by rewrite <- ?app_assoc.
Qed.

(** X28: [DotnetFunctionCreateStep.executeCore] runs the template command
    exactly when the context has a template, a function name, a namespace
    and a runtime; if one is missing it fails and runs nothing.  The command
    is run once, in the project folder, for the runtime of the context, with
    operation [create] and the arguments [--identity], the template id, the
    quoted name and namespace under [--arg:name] and [--arg:namespace], and
    then, in the order of the template, a flag and the quoted value for each
    setting that has a value (the empty string is a value; a setting without
    one is left out).  The result is the path of the new file in the project
    folder when the command succeeds, and the command's error otherwise. *)
Theorem executeCore_runs_one_command ctx calls :
  if complete ctx
  then exists t name ns rt,
    functionTemplate ctx = Some t /\ functionName ctx = Some name /\
    namespace ctx = Some ns /\ runtime ctx = Some rt /\
    let arguments :=
      ["--identity"; Template.id t; "--arg:name"; wrapArgInQuotes name;
       "--arg:namespace"; wrapArgInQuotes ns] ++
      concat (map (argsOf ctx) (Template.userPromptedSettings t)) in
    core ctx calls =
      (match executeDotnetTemplateCommand rt (projectPath ctx) "create" arguments with
       | Ok _ => Ok (path_join [projectPath ctx; name +:+ getFileExtension ctx])
       | Throw e => Throw e
       end,
       calls ++ [{| forRuntime := rt; workingDirectory := projectPath ctx;
                    operation := "create"; args := arguments |}])
  else exists e, core ctx calls = (Throw e, calls).
Proof.
  unfold complete, executeCore, mbind, M_bind, nonNullProp, run_executeDotnetTemplateCommand,
    throw, mret, M_ret.
  destruct (functionTemplate ctx) as [t|]; cbn [bool_decide andb];
    [rewrite bool_decide_eq_true_2 by eauto|
     rewrite bool_decide_eq_false_2 by (intros [? ?]; discriminate)]; cbn [andb];
    [|eexists; reflexivity].
  destruct (functionName ctx) as [name|];
    [rewrite bool_decide_eq_true_2 by eauto|
     rewrite bool_decide_eq_false_2 by (intros [? ?]; discriminate)]; cbn [andb];
    [|eexists; reflexivity].
  destruct (namespace ctx) as [ns|];
    [rewrite bool_decide_eq_true_2 by eauto|
     rewrite bool_decide_eq_false_2 by (intros [? ?]; discriminate)]; cbn [andb];
    [|eexists; reflexivity].
  destruct (runtime ctx) as [rt|];
    [rewrite bool_decide_eq_true_2 by eauto|
     rewrite bool_decide_eq_false_2 by (intros [? ?]; discriminate)];
    [|eexists; reflexivity].
  exists t, name, ns, rt. do 4 (split; [done|]). cbv zeta.
  rewrite foldl_settingArgs. cbn [app].
  by destruct (executeDotnetTemplateCommand _ _ _ _).
Qed.
End Facts.
End DotnetFacts.

Module CreateNewProjectFacts.
Import CreateNewProjectCommand.

Section Facts.
Variables projectLanguageSetting projectRuntimeSetting projectOpenBehaviorSetting : string.
Variable addLocalFuncTelemetry : gmap string string -> gmap string string.
Variable getGlobalSetting : string -> option string.
Variable getWorkspaceSetting : string -> option string.
Variable convertStringToRuntime : option string -> option ProjectRuntime.
Variable FolderListStep_setProjectPath :
  IProjectWizardContext -> string -> IProjectWizardContext.
Variable wizard_prompt :
  list PromptStep -> IProjectWizardContext -> Result unit * IProjectWizardContext.
Variable wizard_execute :
  list ExecuteStep -> IProjectWizardContext -> Result unit * IProjectWizardContext.

Local Abbreviation command :=
  (createNewProject projectLanguageSetting projectRuntimeSetting projectOpenBehaviorSetting
     addLocalFuncTelemetry getGlobalSetting getWorkspaceSetting convertStringToRuntime
     FolderListStep_setProjectPath wizard_prompt wizard_execute).

End Facts.
End CreateNewProjectFacts.

Module JavaScriptInitVSCodeFacts.
Import JavaScriptInitVSCode ProjectNotions.

Section Facts.
Variables extInstallTaskName func funcWatchProblemMatcher hostStartCommand : string.
Variable path_join : list string -> string.
Variable pathExists : string -> bool.
Variable super_executeCore :
  string -> ScriptInitVSCodeStep -> Result unit * ScriptInitVSCodeStep.
Variable super_getTasks : ScriptInitVSCodeStep -> list TaskDefinition.

Local Abbreviation init := (executeCore path_join pathExists super_executeCore).
Local Abbreviation tasksOf :=
  (getTasks extInstallTaskName func funcWatchProblemMatcher hostStartCommand super_getTasks).

(** X30: [JavaScriptInitVSCodeStep].  [executeCore] fails exactly when the
    parent's does, and then does not look for [package.json].  Otherwise it
    records whether the project has a [package.json].  If it has one, the
    pre-deploy task is [npm prune], and [getTasks] defines that task; every
    task that a task of [getTasks] depends on is defined by [getTasks] or is
    the extension-install task, and only [npm install] is depended on when
    no extension install is required.  If it has none, the parent's fields
    are as the parent left them and [getTasks] gives the parent's tasks. *)
Theorem executeCore_then_getTasks projectPath this :
  let has := pathExists (path_join [projectPath; "package.json"]) in
  match super_executeCore projectPath (super this) with
  | (Throw e, s) =>
      init projectPath this =
        (Throw e, {| super := s; hasPackageJson := hasPackageJson this |})
  | (Ok _, s) =>
      exists this1,
        init projectPath this = (Ok tt, this1) /\
        hasPackageJson this1 = Some has /\
        requiresFuncExtensionsInstall (super this1) = requiresFuncExtensionsInstall s /\
        if has
        then
          preDeployTask (super this1) = Some npmPruneTaskLabel /\
          (exists task, task ∈ tasksOf this1 /\
             label task = preDeployTask (super this1) /\
             command task = "npm prune --production") /\
          (forall task l, task ∈ tasksOf this1 -> l ∈ dependencies task ->
             l = extInstallTaskName \/
             exists task', task' ∈ tasksOf this1 /\ label task' = Some l) /\
          (requiresFuncExtensionsInstall s = false ->
           forall task l, task ∈ tasksOf this1 -> l ∈ dependencies task ->
             l = npmInstallTaskLabel)
        else
          super this1 = s /\ tasksOf this1 = super_getTasks s
  end.
Proof.
  intros has. unfold executeCore, mbind, M_bind, modifyState, when, mret, M_ret.
  destruct (super_executeCore projectPath (super this)) as [[[]|e] s]; cbv beta iota zeta;
    [|done].
  fold has. destruct has; cbv beta iota; eexists; (split; [reflexivity|]);
    cbn [super hasPackageJson preDeployTask requiresFuncExtensionsInstall];
    (split; [done|]); (split; [done|]).
  2:{ split; [by destruct s|]. done. }
  split; [done|]. unfold getTasks.
  cbn [super hasPackageJson preDeployTask requiresFuncExtensionsInstall truthy_opt_bool negb].
  split.
  { eexists. split; [do 2 apply list_elem_of_further; apply list_elem_of_here|]. done. }
  split.
  - intros task l Htask Hl.
    repeat (apply elem_of_cons in Htask as [->|Htask]);
      try (by apply elem_of_nil in Htask);
      unfold dependencies in Hl; cbn [dependsOn] in Hl;
      destruct (requiresFuncExtensionsInstall s);
      repeat (apply elem_of_cons in Hl as [->|Hl]);
      try (by apply elem_of_nil in Hl); try (by left);
      right; eexists; (split; [apply list_elem_of_further; apply list_elem_of_here|done]).
  - intros Hreq task l Htask Hl. rewrite Hreq in Htask.
    repeat (apply elem_of_cons in Htask as [->|Htask]);
      try (by apply elem_of_nil in Htask);
      unfold dependencies in Hl; cbn [dependsOn] in Hl;
      repeat (apply elem_of_cons in Hl as [->|Hl]);
      try (by apply elem_of_nil in Hl); done.
Qed.
End Facts.
End JavaScriptInitVSCodeFacts.

Module FurtherExamples.

Lemma createFunctionAppSettings_worker_runtime_witness :
  exists out,
    AppSettings.createFunctionAppSettings ProjectLanguage
      (fun _ => Ok {[ "FUNCTIONS_EXTENSION_VERSION" := "~2" ]})
      {| AppSettings.storageConnectionString := "conn"; AppSettings.fileShareName := "share";
         AppSettings.os := "linux"; AppSettings.runtime := Some "python" |}
      v2 (Some "Python") = Ok out /\
    forall v,
      {| AppSettings.name := "FUNCTIONS_WORKER_RUNTIME"; AppSettings.value := v |} ∈
        AppSettingsDefs.addedSettings {[ "FUNCTIONS_EXTENSION_VERSION" := "~2" ]} out <->
      Some "python" = Some v /\ v ≠ "".
Proof.
  apply (AppSettingsMore.createFunctionAppSettings_worker_runtime ProjectLanguage
           (fun _ => Ok {[ "FUNCTIONS_EXTENSION_VERSION" := "~2" ]})
           {| AppSettings.storageConnectionString := "conn";
              AppSettings.fileShareName := "share";
              AppSettings.os := "linux"; AppSettings.runtime := Some "python" |}
           v2 (Some "Python") {[ "FUNCTIONS_EXTENSION_VERSION" := "~2" ]}).
  reflexivity.
Defined.

Lemma regExp_test_ignores_case_witness :
  FunctionListNotions.isAscii "HttpTrigger-JavaScript" = true /\
  FunctionList.regExp_test (toLowerCase "HttpTrigger-JavaScript") = true /\
  FunctionList.regExp_test "HttpTrigger-JavaScript" = true.
Proof.
  split; [reflexivity|].
  rewrite (FunctionListMore.regExp_test_ignores_case "HttpTrigger-JavaScript" eq_refl).
  split; reflexivity.
Defined.

Lemma getSubWizard_shape_witness :
  exists wiz,
    (SampleWizards.subWizard SampleWizards.listStep SampleWizards.queueProject).1
      = Ok (Some wiz) /\
    FunctionList.promptSteps wiz =
      [FunctionList.ScriptFunctionNameStep] ++
      map FunctionList.BindingSettingStep (Template.userPromptedSettings Sample.queueTemplate) ++
      [FunctionList.AzureWebJobsStoragePromptStep] /\
    FunctionList.executeSteps wiz =
      [FunctionList.ScriptFunctionCreateStep; FunctionList.AzureWebJobsStorageExecuteStep].
Proof.
  assert (NoDup [Java ProjectLanguage; CSharp ProjectLanguage; FSharp ProjectLanguage;
                 TypeScript ProjectLanguage]) as Hdistinct.
  { apply (bool_decide_unpack _). vm_compute. reflexivity. }
  destruct (FunctionListMore.getSubWizard_shape ProjectLanguage (Ok tt) (Ok tt)
              (fun _ => Ok None) SampleWizards.listStep SampleWizards.queueProject
              Sample.queueTemplate
              {| FunctionList.promptSteps :=
                   [FunctionList.ScriptFunctionNameStep;
                    FunctionList.BindingSettingStep {| Template.settingName := "queueName" |};
                    FunctionList.AzureWebJobsStoragePromptStep];
                 FunctionList.executeSteps :=
                   [FunctionList.ScriptFunctionCreateStep;
                    FunctionList.AzureWebJobsStorageExecuteStep];
                 FunctionList.title := "Create new Azure Queue Storage trigger" |}
              Hdistinct eq_refl eq_refl)
    as (nameSteps & createStep & needs & Hp & He & _ & (_ & _ & Hn) & (_ & _ & _ & Hc) & Hneeds).
  assert (needs = true) as Hstorage.
  { apply Hneeds. split; [reflexivity|]. exists None. split; reflexivity. }
  rewrite Hn, Hstorage in Hp by (repeat split; vm_compute; intros Heq; discriminate Heq).
  rewrite Hc, Hstorage in He by (repeat split; vm_compute; intros Heq; discriminate Heq).
  eexists. split; [reflexivity|]. split; [exact Hp | exact He].
Defined.

Lemma alphabetical_antisym x y :
  FunctionListDefs.alphabetical y x = (- FunctionListDefs.alphabetical x y)%Z.
Proof.
  unfold FunctionListDefs.alphabetical.
  rewrite (String.compare_antisym (toLowerCase y) (toLowerCase x)).
  by destruct (String.compare (toLowerCase x) (toLowerCase y)).
Qed.


Lemma uploadAppSettings_no_values_witness :
  exists added,
    UploadAppSettings.uploadAppSettings SampleWizards.emptyUpload "local.settings.json"
      None (Some "/proj") [] =
      (Throw (UploadNotions.noSettingsFound "local.settings.json"), [] ++ added) /\
    existsb UploadNotions.isRemote added = false /\
    existsb UploadNotions.isEncrypt added = existsb UploadNotions.isDecrypt added.
Proof.
  apply (UploadMore.uploadAppSettings_no_values SampleWizards.emptyUpload
           "local.settings.json" None (Some "/proj") [] "/proj/local.settings.json"
           {| UploadAppSettings.client_fullName := "myapp" |}
           {| UploadAppSettings.IsEncrypted := Some false;
              UploadAppSettings.Values := None |}).
  - reflexivity.
  - reflexivity.
  - reflexivity.
  - left. split; reflexivity.
Defined.

Lemma createChildImpl_execute_steps_witness :
  exists executeSteps st1 label newName,
    SampleApp.before None SampleApp.start = (Ok executeSteps, st1) /\
    executeSteps =
      [FunctionAppProvider.ResourceGroupCreateStep;
       FunctionAppProvider.StorageAccountCreateStep;
       FunctionAppProvider.SiteCreateStep v2 None] /\
    FunctionAppProvider.effects st1 =
      FunctionAppProvider.effects SampleApp.start ++
      [FunctionAppProvider.ShowCreatingTreeItem label] /\
    FunctionAppProvider.newStorageAccountName (FunctionAppProvider.wizardContext st1)
      = Some newName /\
    FunctionAppProvider.newResourceGroupName (FunctionAppProvider.wizardContext st1)
      = Some newName.
Proof.
  destruct (ProviderMore.createChildImpl_execute_steps ProjectLanguage "azureFunctions"
              "projectLanguage" "projectRuntime" (fun _ => None) (fun _ => None)
              (fun _ => None) (fun _ => Some "node") (Ok (Some v2)) (fun _ c => (Ok tt, c))
              (fun _ c => (Ok tt, SampleApp.named c))
              None SampleApp.start
              [FunctionAppProvider.ResourceGroupCreateStep;
               FunctionAppProvider.StorageAccountCreateStep;
               FunctionAppProvider.SiteCreateStep v2 None]
              (SampleApp.before None SampleApp.start).2)
    as (runtime & label & _ & Hsteps & _ & Heff & _ & Hnames).
  - vm_compute. reflexivity.
  - destruct (Hnames eq_refl) as (newName & _ & _ & Hstorage & Hgroup).
    eexists _, _, label, newName. split; [vm_compute; reflexivity|].
    split; [reflexivity|]. split; [exact Heff|]. split; [exact Hstorage|exact Hgroup].
Defined.


Lemma createChildImpl_advice_only_after_execute_witness :
  exists executeSteps st1 e ctx1,
    SampleApp.before None SampleApp.start = (Ok executeSteps, st1) /\
    (SampleApp.create None SampleApp.start).1 = Throw e /\
    e = SampleApp.conflict /\
    ctx1 = FunctionAppProvider.wizardContext st1.
Proof.
  destruct (ProviderMore.createChildImpl_advice_only_after_execute ProjectLanguage
              "azureFunctions" "projectLanguage" "projectRuntime" (fun _ => None)
              (fun _ => None) (fun _ => None) (fun _ => Some "node") (Ok (Some v2))
              (fun _ c => (Ok tt, c)) (fun _ c => (Ok tt, SampleApp.named c))
              (fun _ c => (Throw SampleApp.conflict, c)) (fun _ btn => Some btn)
              (fun s => Ok (FunctionAppProvider.siteName s)) None SampleApp.start)
    as (executeSteps & st1 & e & ctx1 & Hbefore & Hexec & Hrun & _).
  - vm_compute. reflexivity.
  - exists executeSteps, st1, e, ctx1. split; [exact Hbefore|]. split; [exact Hrun|].
    cbv beta in Hexec. injection Hexec as <- <-. by split.
Defined.

Lemma loadMoreChildrenImpl_failed_request_witness :
  SampleList.loadUnregistered true {| FunctionAppList._nextLink := Some "page-2" |} =
    (Ok [], {| FunctionAppList._nextLink := None |}).
Proof.
  exact (FunctionAppListFacts.loadMoreChildrenImpl_failed_request string
           (Throw SampleList.notRegistered) (fun _ => Throw SampleList.notRegistered)
           (fun _ => "NotFound") (fun s => Ok (default "" (FunctionAppList.name s)))
           SampleList.items true {| FunctionAppList._nextLink := Some "page-2" |}
           SampleList.notRegistered eq_refl).
Defined.

Lemma loadMoreChildrenImpl_pages_witness :
  (SampleList.load true {| FunctionAppList._nextLink := None |}).1 = Ok ["orders"] /\
  FunctionAppList.hasMoreChildrenImpl
    (SampleList.load true {| FunctionAppList._nextLink := None |}).2 = true /\
  (SampleList.load false
     (SampleList.load true {| FunctionAppList._nextLink := None |}).2).1 = Ok ["billing"].
Proof.
  destruct (FunctionAppListFacts.loadMoreChildrenImpl_pages string
              (Ok SampleList.firstPage) (fun _ => Ok SampleList.secondPage)
              (fun _ => "") (fun s => Ok (default "" (FunctionAppList.name s)))
              SampleList.items true {| FunctionAppList._nextLink := None |}
              SampleList.firstPage eq_refl)
    as (Hitems & _ & Hmore & Hnext & _).
  split; [exact Hitems|]. split; [apply Hmore; by eexists|].
  destruct (Hnext "page-2" SampleList.secondPage eq_refl eq_refl) as [_ Hsecond].
  exact Hsecond.
Defined.

(** The user changes the filter to [Core] and then takes the queue trigger. *)
Lemma prompt_terminal_states_witness :
  exists st1,
    SampleWizards.prompt SampleWizards.listStep [2; 1; 1] SampleWizards.unchosen
      = (Ok tt, st1) /\
    FunctionList.functionTemplate (FunctionListPrompt.wizardContext st1)
      = Some Sample.queueTemplate /\
    FunctionListPrompt.properties st1 !! "templateFilter"
      = Some (FunctionListPrompt.PvFilter FunctionList.Core) /\
    FunctionListPromptNotions.same_project
      (FunctionListPrompt.wizardContext SampleWizards.unchosen)
      (FunctionListPrompt.wizardContext st1).
Proof.
  eexists. split; [vm_compute; reflexivity|].
  split; [reflexivity|]. split; [reflexivity|].
  eapply (proj2 (FunctionListPromptFacts.prompt_terminal_states
                   FunctionListDefs.alphabetical (fun _ templates => templates) (Ok tt)
                   SampleWizards.catalog SampleWizards.listStep [2; 1; 1]
                   SampleWizards.unchosen)).
  vm_compute. reflexivity.
Defined.

Lemma prompt_persists_filter_witness :
  exists f,
    FunctionListPrompt.properties
      (SampleWizards.prompt SampleWizards.listStep [2; 1; 1] SampleWizards.unchosen).2
      !! "templateFilter" = Some (FunctionListPrompt.PvFilter f) /\
    FunctionListPrompt.templateFilterSetting
      (SampleWizards.prompt SampleWizards.listStep [2; 1; 1] SampleWizards.unchosen).2
      = Some f.
Proof.
  destruct (FunctionListPromptFacts.prompt_persists_filter
              FunctionListDefs.alphabetical (fun _ templates => templates) (Ok tt)
              SampleWizards.catalog SampleWizards.listStep [2; 1; 1]
              SampleWizards.unchosen eq_refl) as (f & Hrecorded & [Hset|[Hkept _]]).
  - exists f. split; [exact Hrecorded|exact Hset].
  - vm_compute in Hkept. discriminate Hkept.
Defined.
End FurtherExamples.
